(** * SceneManager: textures, materials, transforms, lights and the keyboard

    A shallow embedding of [Source/SceneManager.cpp].  The methods of the
    class are state transformers over the object's fields and over the
    collaborators it talks to (the OpenGL context, the shader manager, the
    mesh provider and the image decoder).  Every call a collaborator
    receives is appended to one chronological trace, so that the
    order of uniform uploads and draw calls can be stated.

    Undefined behaviour of the C++ program (a null pointer dereference, an
    array access out of bounds) is an explicit outcome of the embedding. *)

From Stdlib Require Import ZArith QArith Lia.
From stdpp Require Import base list strings pretty.

Local Open Scope Z_scope.

(** ** Numbers and vectors *)

(** Single-precision arithmetic is kept abstract: the source only writes
    decimal literals, converts loop counters and adds or divides them. *)
Class FloatOps (float : Type) := {
  flit : Q -> float;            (* a literal such as [0.35f] *)
  float_of_int : Z -> float;    (* implicit conversion int -> float *)
  fadd : float -> float -> float;
  fdiv : float -> float -> float;
}.

Record vec2 (float : Type) := Vec2 { v2_x : float; v2_y : float }.
Record vec3 (float : Type) := Vec3 { v3_x : float; v3_y : float; v3_z : float }.
Record vec4 (float : Type) :=
  Vec4 { v4_r : float; v4_g : float; v4_b : float; v4_a : float }.

Arguments Vec2 {float} _ _.
Arguments Vec3 {float} _ _ _.
Arguments Vec4 {float} _ _ _ _.
Arguments v2_x {float} _.
Arguments v2_y {float} _.
Arguments v3_x {float} _.
Arguments v3_y {float} _.
Arguments v3_z {float} _.
Arguments v4_r {float} _.
Arguments v4_g {float} _.
Arguments v4_b {float} _.
Arguments v4_a {float} _.

(** The part of GLM that [SetTransformations] consumes
    ([<glm/gtx/transform.hpp>]); [mat4_mul] is [operator*] on [glm::mat4]. *)
Class GLM (float mat4 : Type) := {
  glm_radians : float -> float;
  glm_scale : vec3 float -> mat4;
  glm_rotate : float -> vec3 float -> mat4;
  glm_translate : vec3 float -> mat4;
  mat4_mul : mat4 -> mat4 -> mat4;
}.

(** ** Machine integers and pointers *)

Definition GLuint := Z.

(** Conversion of a [GLuint] (32 bits, unsigned) to [int], as in
    [textureID = m_textureIDs[index].ID]. *)
Definition int_of_GLuint (u : GLuint) : Z :=
  if decide (u mod 2 ^ 32 < 2 ^ 31) then u mod 2 ^ 32 else u mod 2 ^ 32 - 2 ^ 32.

Inductive pointer := NULL | Addr (a : positive).

Definition is_null (p : pointer) : bool :=
  match p with NULL => true | Addr _ => false end.

(** ** Outcomes *)

Inductive fault := NullDereference | OutOfBounds.

Inductive result (A : Type) := Ok (a : A) | Fault (f : fault).
Arguments Ok {A} _.
Arguments Fault {A} _.

(** ** Collaborators *)

Inductive mesh_kind := PlaneMesh | BoxMesh | CylinderMesh.

Inductive gl_enum :=
  | GL_TEXTURE_2D | GL_TEXTURE_WRAP_S | GL_TEXTURE_WRAP_T
  | GL_TEXTURE_MIN_FILTER | GL_TEXTURE_MAG_FILTER
  | GL_REPEAT | GL_LINEAR | GL_RGB8 | GL_RGBA8 | GL_RGB | GL_RGBA
  | GL_UNSIGNED_BYTE.

(** What [stbi_load] hands back for a readable file. *)
Record Image := {
  img_width : Z;
  img_height : Z;
  img_channels : Z;
}.

(** One entry per call received by a collaborator, oldest first. *)
Inductive event (float mat4 : Type) :=
  (* ShaderManager *)
  | EvSetMat4Value (name : string) (m : mat4)
  | EvSetIntValue (name : string) (v : Z)
  | EvSetBoolValue (name : string) (b : bool)
  | EvSetFloatValue (name : string) (f : float)
  | EvSetVec2Value (name : string) (v : vec2 float)
  | EvSetVec3Value (name : string) (v : vec3 float)
  | EvSetVec4Value (name : string) (v : vec4 float)
  | EvSetSampler2DValue (name : string) (slot : Z)
  (* ShapeMeshes *)
  | EvLoadMesh (k : mesh_kind)
  | EvDrawMesh (k : mesh_kind)
  (* OpenGL *)
  | EvGlGenTextures (name : GLuint)
  | EvGlDeleteTextures (name : GLuint)
  | EvGlBindTexture (target : gl_enum) (name : GLuint)
  | EvGlTexParameteri (target pname param : gl_enum)
  | EvGlTexImage2D (internalformat : gl_enum) (width height : Z) (format : gl_enum)
  | EvGlGenerateMipmap (target : gl_enum)
  | EvGlActiveTexture (texunit : Z)
  (* stb_image *)
  | EvStbiSetFlip (flag : bool)
  | EvStbiImageFree (img : Image).

Arguments EvSetMat4Value {float mat4} _ _.
Arguments EvSetIntValue {float mat4} _ _.
Arguments EvSetBoolValue {float mat4} _ _.
Arguments EvSetFloatValue {float mat4} _ _.
Arguments EvSetVec2Value {float mat4} _ _.
Arguments EvSetVec3Value {float mat4} _ _.
Arguments EvSetVec4Value {float mat4} _ _.
Arguments EvSetSampler2DValue {float mat4} _ _.
Arguments EvLoadMesh {float mat4} _.
Arguments EvDrawMesh {float mat4} _.
Arguments EvGlGenTextures {float mat4} _.
Arguments EvGlDeleteTextures {float mat4} _.
Arguments EvGlBindTexture {float mat4} _ _.
Arguments EvGlTexParameteri {float mat4} _ _ _.
Arguments EvGlTexImage2D {float mat4} _ _ _ _.
Arguments EvGlGenerateMipmap {float mat4} _.
Arguments EvGlActiveTexture {float mat4} _.
Arguments EvStbiSetFlip {float mat4} _.
Arguments EvStbiImageFree {float mat4} _.

(** ** The fields of the class *)

Record TEXTURE_INFO := {
  tex_tag : string;
  tex_ID : GLuint;
}.

Record OBJECT_MATERIAL (float : Type) := {
  diffuseColor : vec3 float;
  specularColor : vec3 float;
  shininess : float;
  mat_tag : string;
}.
Arguments diffuseColor {float} _.
Arguments specularColor {float} _.
Arguments shininess {float} _.
Arguments mat_tag {float} _.

(** Modelled from the spec: the capacity of the array [m_textureIDs], which
    [SceneManager.h] declares; the registry has 16 slots. *)
Definition m_textureIDs_capacity : nat := 16.

Record SceneManager (float : Type) := {
  m_pShaderManager : pointer;
  m_textureIDs : list TEXTURE_INFO;
  m_loadedTextures : Z;
  m_objectMaterials : list (OBJECT_MATERIAL float);
}.
Arguments m_pShaderManager {float} _.
Arguments m_textureIDs {float} _.
Arguments m_loadedTextures {float} _.
Arguments m_objectMaterials {float} _.

(** The world outside the object: the texture names the GL context has
    handed out and not deleted, the next name it will hand out, the image
    files the decoder can read, the bytes an uninitialised local
    [OBJECT_MATERIAL] happens to hold, and the trace. *)
Record World (float mat4 : Type) := {
  gl_next_name : GLuint;
  gl_textures : list GLuint;
  disk : list (string * Image);
  indeterminate_material : OBJECT_MATERIAL float;
  trace : list (event float mat4);
}.
Arguments gl_next_name {float mat4} _.
Arguments gl_textures {float mat4} _.
Arguments disk {float mat4} _.
Arguments indeterminate_material {float mat4} _.
Arguments trace {float mat4} _.

Record State (float mat4 : Type) := {
  this : SceneManager float;
  world : World float mat4;
}.
Arguments this {float mat4} _.
Arguments world {float mat4} _.

(** ** The names of the uniforms (the anonymous namespace of the file) *)

Definition g_ModelName : string := "model".
Definition g_ColorValueName : string := "objectColor".
Definition g_TextureValueName : string := "objectTexture".
Definition g_UseTextureName : string := "bUseTexture".
Definition g_UseLightingName : string := "bUseLighting".

(** [stbi_load]: the decoded image of a readable file, [None] for a null
    result. *)
Fixpoint lookup_file (d : list (string * Image)) (filename : string) : option Image :=
  match d with
  | [] => None
  | (n, img) :: d' => if String.eqb n filename then Some img else lookup_file d' filename
  end.

Section Model.
Context {float mat4 : Type} `{FloatOps float} `{GLM float mat4}.

(** *** The monad of methods: state passing with faults *)

Definition M (A : Type) : Type :=
  State float mat4 -> result (A * State float mat4).

#[global] Instance M_ret : MRet M := fun A a st => Ok (a, st).

#[global] Instance M_bind : MBind M := fun A B f m st =>
  match m st with
  | Ok (a, st') => f a st'
  | Fault e => Fault e
  end.

Definition fail {A : Type} (f : fault) : M A := fun _ => Fault f.

Definition gets {A : Type} (f : SceneManager float -> A) : M A :=
  fun st => Ok (f (this st), st).

Definition put_this (s : SceneManager float) : M unit :=
  fun st => Ok (tt, {| this := s; world := world st |}).

Definition lift_result {A : Type} (r : result A) : M A :=
  fun st => match r with Ok a => Ok (a, st) | Fault e => Fault e end.

Definition world_log (e : event float mat4) (w : World float mat4) : World float mat4 :=
  {| gl_next_name := gl_next_name w;
     gl_textures := gl_textures w;
     disk := disk w;
     indeterminate_material := indeterminate_material w;
     trace := trace w ++ [e] |}.

Definition log (e : event float mat4) : M unit :=
  fun st => Ok (tt, {| this := this st; world := world_log e (world st) |}).

(** [for (int i = lo; i < hi; i++) body(i)] *)
Fixpoint for_loop (n : nat) (i : Z) (body : Z -> M unit) : M unit :=
  match n with
  | O => mret tt
  | S n' => body i;; for_loop n' (i + 1) body
  end.

Definition for_range (lo hi : Z) (body : Z -> M unit) : M unit :=
  for_loop (Z.to_nat (hi - lo)) lo body.

(** *** Calls through [m_pShaderManager]: the pointer is dereferenced *)

Definition via_shader (e : event float mat4) : M unit :=
  p ← gets m_pShaderManager;
  if is_null p then fail NullDereference else log e.

Definition setMat4Value (name : string) (m : mat4) : M unit :=
  via_shader (EvSetMat4Value name m).
Definition setIntValue (name : string) (v : Z) : M unit :=
  via_shader (EvSetIntValue name v).
Definition setBoolValue (name : string) (b : bool) : M unit :=
  via_shader (EvSetBoolValue name b).
Definition setFloatValue (name : string) (f : float) : M unit :=
  via_shader (EvSetFloatValue name f).
Definition setVec2Value (name : string) (v : vec2 float) : M unit :=
  via_shader (EvSetVec2Value name v).
Definition setVec3Value (name : string) (v : vec3 float) : M unit :=
  via_shader (EvSetVec3Value name v).
Definition setVec4Value (name : string) (v : vec4 float) : M unit :=
  via_shader (EvSetVec4Value name v).
Definition setSampler2DValue (name : string) (slot : Z) : M unit :=
  via_shader (EvSetSampler2DValue name slot).

(** *** Calls through [m_basicMeshes] *)

Definition LoadPlaneMesh : M unit := log (EvLoadMesh PlaneMesh).
Definition LoadBoxMesh : M unit := log (EvLoadMesh BoxMesh).
Definition LoadCylinderMesh : M unit := log (EvLoadMesh CylinderMesh).
Definition DrawPlaneMesh : M unit := log (EvDrawMesh PlaneMesh).
Definition DrawBoxMesh : M unit := log (EvDrawMesh BoxMesh).
Definition DrawCylinderMesh : M unit := log (EvDrawMesh CylinderMesh).

(** *** OpenGL and stb_image *)

(** [glGenTextures(1, &name)]: the context hands out a name and records
    it in [gl_textures].  OpenGL does not fix which name the driver picks;
    [gl_next_name] stands for that choice, and the properties of the
    prepare phase speak of the names returned, not of their values. *)
Definition glGenTextures : M GLuint := fun st =>
  let w := world st in
  let name := gl_next_name w in
  Ok (name,
      {| this := this st;
         world := {| gl_next_name := name + 1;
                     gl_textures := gl_textures w ++ [name];
                     disk := disk w;
                     indeterminate_material := indeterminate_material w;
                     trace := trace w ++ [EvGlGenTextures name] |} |}).

(** [glDeleteTextures(1, &name)]: the call that releases a texture.  The
    class never issues it; it is here to say what releasing means. *)
Definition glDeleteTextures (name : GLuint) : M unit := fun st =>
  let w := world st in
  Ok (tt,
      {| this := this st;
         world := {| gl_next_name := gl_next_name w;
                     gl_textures := filter (fun n => n ≠ name) (gl_textures w);
                     disk := disk w;
                     indeterminate_material := indeterminate_material w;
                     trace := trace w ++ [EvGlDeleteTextures name] |} |}).

Definition glBindTexture (target : gl_enum) (name : GLuint) : M unit :=
  log (EvGlBindTexture target name).
Definition glTexParameteri (target pname param : gl_enum) : M unit :=
  log (EvGlTexParameteri target pname param).
Definition glTexImage2D (internalformat : gl_enum) (width height : Z)
    (format : gl_enum) : M unit :=
  log (EvGlTexImage2D internalformat width height format).
Definition glGenerateMipmap (target : gl_enum) : M unit :=
  log (EvGlGenerateMipmap target).
Definition glActiveTexture (texunit : Z) : M unit :=
  log (EvGlActiveTexture texunit).

Definition stbi_set_flip_vertically_on_load (flag : bool) : M unit :=
  log (EvStbiSetFlip flag).
Definition stbi_load (filename : string) : M (option Image) :=
  fun st => Ok (lookup_file (disk (world st)) filename, st).
Definition stbi_image_free (img : Image) : M unit :=
  log (EvStbiImageFree img).

(** *** Writes into the array [m_textureIDs] *)

Definition with_textureIDs (l : list TEXTURE_INFO) (s : SceneManager float)
    : SceneManager float :=
  {| m_pShaderManager := m_pShaderManager s;
     m_textureIDs := l;
     m_loadedTextures := m_loadedTextures s;
     m_objectMaterials := m_objectMaterials s |}.

(** [m_textureIDs[index].f = v]; outside the array the write is undefined. *)
Definition write_texture (index : Z) (f : TEXTURE_INFO -> TEXTURE_INFO) : M unit :=
  s ← gets id;
  if decide (0 ≤ index < Z.of_nat (length (m_textureIDs s)))
  then put_this (with_textureIDs (alter f (Z.to_nat index) (m_textureIDs s)) s)
  else fail OutOfBounds.

Definition set_ID (v : GLuint) (e : TEXTURE_INFO) : TEXTURE_INFO :=
  {| tex_tag := tex_tag e; tex_ID := v |}.
Definition set_tag (v : string) (e : TEXTURE_INFO) : TEXTURE_INFO :=
  {| tex_tag := v; tex_ID := tex_ID e |}.

Definition incr_loadedTextures : M unit :=
  s ← gets id;
  put_this {| m_pShaderManager := m_pShaderManager s;
              m_textureIDs := m_textureIDs s;
              m_loadedTextures := m_loadedTextures s + 1;
              m_objectMaterials := m_objectMaterials s |}.

(** *** SceneManager::SceneManager *)

Definition new_SceneManager (pShaderManager : pointer) : SceneManager float :=
  {| m_pShaderManager := pShaderManager;
     m_textureIDs := replicate m_textureIDs_capacity {| tex_tag := ""; tex_ID := 0 |};
     m_loadedTextures := 0;
     m_objectMaterials := [] |}.

(** *** SceneManager::CreateGLTexture

    The writes to [std::cout] are left out. *)
Definition CreateGLTexture (filename : string) (tag : string) : M bool :=
  stbi_set_flip_vertically_on_load true;;
  image ← stbi_load filename;
  match image with
  | Some img =>
      textureID ← glGenTextures;
      glBindTexture GL_TEXTURE_2D textureID;;
      glTexParameteri GL_TEXTURE_2D GL_TEXTURE_WRAP_S GL_REPEAT;;
      glTexParameteri GL_TEXTURE_2D GL_TEXTURE_WRAP_T GL_REPEAT;;
      glTexParameteri GL_TEXTURE_2D GL_TEXTURE_MIN_FILTER GL_LINEAR;;
      glTexParameteri GL_TEXTURE_2D GL_TEXTURE_MAG_FILTER GL_LINEAR;;
      let register : M bool :=
        glGenerateMipmap GL_TEXTURE_2D;;
        stbi_image_free img;;
        glBindTexture GL_TEXTURE_2D 0;;
        n ← gets m_loadedTextures;
        write_texture n (set_ID textureID);;
        n ← gets m_loadedTextures;
        write_texture n (set_tag tag);;
        incr_loadedTextures;;
        mret true in
      if img_channels img =? 3 then
        glTexImage2D GL_RGB8 (img_width img) (img_height img) GL_RGB;;
        register
      else if img_channels img =? 4 then
        glTexImage2D GL_RGBA8 (img_width img) (img_height img) GL_RGBA;;
        register
      else
        mret false
  | None => mret false
  end.

(** *** SceneManager::BindGLTextures *)

Definition read_texture (index : Z) : M TEXTURE_INFO :=
  s ← gets id;
  match m_textureIDs s !! Z.to_nat index with
  | Some e => if decide (0 ≤ index) then mret e else fail OutOfBounds
  | None => fail OutOfBounds
  end.

Definition BindGLTextures : M unit :=
  n ← gets m_loadedTextures;
  for_range 0 n (fun i =>
    glActiveTexture i;;
    e ← read_texture i;
    glBindTexture GL_TEXTURE_2D (tex_ID e)).

(** *** SceneManager::DestroyGLTextures *)

Definition DestroyGLTextures : M unit :=
  n ← gets m_loadedTextures;
  for_range 0 n (fun i =>
    name ← glGenTextures;
    write_texture i (set_ID name)).

(** *** SceneManager::FindTextureID

    [n] counts the iterations the loop still has before
    [index < m_loadedTextures] fails; the function returns as soon as
    [bFound] is set. *)
Fixpoint FindTextureID_loop (s : SceneManager float) (tag : string)
    (n : nat) (index : Z) : result Z :=
  match n with
  | O => Ok (-1)
  | S n' =>
      match m_textureIDs s !! Z.to_nat index with
      | Some e =>
          if String.eqb (tex_tag e) tag
          then Ok (int_of_GLuint (tex_ID e))
          else FindTextureID_loop s tag n' (index + 1)
      | None => Fault OutOfBounds
      end
  end.

Definition FindTextureID (s : SceneManager float) (tag : string) : result Z :=
  FindTextureID_loop s tag (Z.to_nat (m_loadedTextures s)) 0.

(** *** SceneManager::FindTextureSlot *)
Fixpoint FindTextureSlot_loop (s : SceneManager float) (tag : string)
    (n : nat) (index : Z) : result Z :=
  match n with
  | O => Ok (-1)
  | S n' =>
      match m_textureIDs s !! Z.to_nat index with
      | Some e =>
          if String.eqb (tex_tag e) tag
          then Ok index
          else FindTextureSlot_loop s tag n' (index + 1)
      | None => Fault OutOfBounds
      end
  end.

Definition FindTextureSlot (s : SceneManager float) (tag : string) : result Z :=
  FindTextureSlot_loop s tag (Z.to_nat (m_loadedTextures s)) 0.

(** *** SceneManager::FindMaterial

    The loop walks the vector from index 0 and copies three fields of
    the first entry whose tag matches into the reference parameter. *)
Fixpoint FindMaterial_loop (l : list (OBJECT_MATERIAL float)) (tag : string)
    (material : OBJECT_MATERIAL float) : OBJECT_MATERIAL float :=
  match l with
  | [] => material
  | e :: l' =>
      if String.eqb (mat_tag e) tag
      then {| diffuseColor := diffuseColor e;
              specularColor := specularColor e;
              shininess := shininess e;
              mat_tag := mat_tag material |}
      else FindMaterial_loop l' tag material
  end.

Definition FindMaterial (s : SceneManager float) (tag : string)
    (material : OBJECT_MATERIAL float) : bool * OBJECT_MATERIAL float :=
  if decide (length (m_objectMaterials s) = 0%nat)
  then (false, material)
  else (true, FindMaterial_loop (m_objectMaterials s) tag material).

(** *** SceneManager::SetTransformations *)
Definition SetTransformations (scaleXYZ : vec3 float)
    (XrotationDegrees YrotationDegrees ZrotationDegrees : float)
    (positionXYZ : vec3 float) : M unit :=
  let scale := glm_scale scaleXYZ in
  let rotationX :=
    glm_rotate (glm_radians XrotationDegrees) (Vec3 (flit 1.0) (flit 0.0) (flit 0.0)) in
  let rotationY :=
    glm_rotate (glm_radians YrotationDegrees) (Vec3 (flit 0.0) (flit 1.0) (flit 0.0)) in
  let rotationZ :=
    glm_rotate (glm_radians ZrotationDegrees) (Vec3 (flit 0.0) (flit 0.0) (flit 1.0)) in
  let translation := glm_translate positionXYZ in
  let modelView :=
    mat4_mul (mat4_mul (mat4_mul (mat4_mul translation rotationZ) rotationY) rotationX)
             scale in
  p ← gets m_pShaderManager;
  if negb (is_null p) then setMat4Value g_ModelName modelView else mret tt.

(** *** SceneManager::SetShaderColor *)
Definition SetShaderColor
    (redColorValue greenColorValue blueColorValue alphaValue : float) : M unit :=
  let currentColor := Vec4 redColorValue greenColorValue blueColorValue alphaValue in
  p ← gets m_pShaderManager;
  if negb (is_null p) then
    setIntValue g_UseTextureName 0;;
    setVec4Value g_ColorValueName currentColor
  else mret tt.

(** *** SceneManager::SetShaderTexture *)
Definition SetShaderTexture (textureTag : string) : M unit :=
  p ← gets m_pShaderManager;
  if negb (is_null p) then
    setIntValue g_UseTextureName 1;;
    s ← gets id;
    textureID ← lift_result (FindTextureSlot s textureTag);
    setSampler2DValue g_TextureValueName textureID
  else mret tt.

(** *** SceneManager::SetTextureUVScale *)
Definition SetTextureUVScale (u v : float) : M unit :=
  p ← gets m_pShaderManager;
  if negb (is_null p) then setVec2Value "UVscale" (Vec2 u v) else mret tt.

(** *** SceneManager::SetShaderMaterial

    The local [material] is declared without an initialiser: what it
    holds is read from the world.  Nothing makes two calls read the same
    bytes, so a property that compares two calls is stated for every
    value of it ([with_indeterminate]). *)
Definition uninitialised_OBJECT_MATERIAL : M (OBJECT_MATERIAL float) :=
  fun st => Ok (indeterminate_material (world st), st).

Definition SetShaderMaterial (materialTag : string) : M unit :=
  s ← gets id;
  if decide (0 < length (m_objectMaterials s))%nat then
    material ← uninitialised_OBJECT_MATERIAL;
    let '(bReturn, material) := FindMaterial s materialTag material in
    if (bReturn : bool) then
      setVec3Value "material.diffuseColor" (diffuseColor material);;
      setVec3Value "material.specularColor" (specularColor material);;
      setFloatValue "material.shininess" (shininess material)
    else mret tt
  else mret tt.

(** *** SceneManager::SetupSceneLights *)
Definition SetupSceneLights : M unit :=
  setBoolValue g_UseLightingName true;;
  setVec3Value "directionalLight.direction" (Vec3 (flit (-0.2)) (flit (-1.0)) (flit (-0.3)));;
  setVec3Value "directionalLight.ambient" (Vec3 (flit 0.1) (flit 0.1) (flit 0.1));;
  setVec3Value "directionalLight.diffuse" (Vec3 (flit 0.6) (flit 0.6) (flit 0.6));;
  setVec3Value "directionalLight.specular" (Vec3 (flit 0.8) (flit 0.8) (flit 0.8));;
  setBoolValue "directionalLight.bActive" true;;
  setVec3Value "pointLights[0].position" (Vec3 (flit 0.0) (flit 12.0) (flit 0.0));;
  setVec3Value "pointLights[0].ambient" (Vec3 (flit 0.05) (flit 0.05) (flit 0.05));;
  setVec3Value "pointLights[0].diffuse" (Vec3 (flit 0.6) (flit 0.6) (flit 0.6));;
  setVec3Value "pointLights[0].specular" (Vec3 (flit 0.8) (flit 0.8) (flit 0.8));;
  setBoolValue "pointLights[0].bActive" true;;
  for_range 1 5 (fun i =>
    let uniformName := "pointLights[" +:+ pretty i +:+ "].bActive" in
    setBoolValue uniformName false).

(** *** SceneManager::DefineObjectMaterials *)
Definition push_back (m : OBJECT_MATERIAL float) : M unit :=
  s ← gets id;
  put_this {| m_pShaderManager := m_pShaderManager s;
              m_textureIDs := m_textureIDs s;
              m_loadedTextures := m_loadedTextures s;
              m_objectMaterials := m_objectMaterials s ++ [m] |}.

Definition woodMat : OBJECT_MATERIAL float :=
  {| diffuseColor := Vec3 (flit 1.0) (flit 1.0) (flit 1.0);
     specularColor := Vec3 (flit 0.3) (flit 0.3) (flit 0.3);
     shininess := flit 32.0;
     mat_tag := "woodMat" |}.
Definition blackWoodMat : OBJECT_MATERIAL float :=
  {| diffuseColor := Vec3 (flit 1.0) (flit 1.0) (flit 1.0);
     specularColor := Vec3 (flit 0.2) (flit 0.2) (flit 0.2);
     shininess := flit 16.0;
     mat_tag := "blackWoodMat" |}.
Definition blackMetalMat : OBJECT_MATERIAL float :=
  {| diffuseColor := Vec3 (flit 1.0) (flit 1.0) (flit 1.0);
     specularColor := Vec3 (flit 0.5) (flit 0.5) (flit 0.5);
     shininess := flit 64.0;
     mat_tag := "blackMetalMat" |}.
Definition monitorScreenMat : OBJECT_MATERIAL float :=
  {| diffuseColor := Vec3 (flit 1.0) (flit 1.0) (flit 1.0);
     specularColor := Vec3 (flit 1.0) (flit 1.0) (flit 1.0);
     shininess := flit 64.0;
     mat_tag := "monitorScreenMat" |}.
Definition whiteMat : OBJECT_MATERIAL float :=
  {| diffuseColor := Vec3 (flit 1.0) (flit 1.0) (flit 1.0);
     specularColor := Vec3 (flit 0.5) (flit 0.5) (flit 0.5);
     shininess := flit 1.0;
     mat_tag := "whiteMat" |}.

Definition DefineObjectMaterials : M unit :=
  push_back woodMat;;
  push_back blackWoodMat;;
  push_back blackMetalMat;;
  push_back monitorScreenMat;;
  push_back whiteMat.

(** *** SceneManager::RenderKeyboard *)
Definition RenderKeyboard : M unit :=
  let XrotationDegrees := flit 0.0 in
  let YrotationDegrees := flit 0.0 in
  let ZrotationDegrees := flit 0.0 in
  (* the keyboard base *)
  let scaleXYZ := Vec3 (flit 10.0) (flit 0.25) (flit 4.0) in
  let positionXYZ := Vec3 (flit 0.0) (flit 10.5) (flit 0.0) in
  SetTransformations scaleXYZ XrotationDegrees YrotationDegrees ZrotationDegrees positionXYZ;;
  SetShaderMaterial "blackMetalMat";;
  SetShaderTexture "black_metal";;
  SetTextureUVScale (flit 1.0) (flit 1.0);;
  DrawBoxMesh;;
  (* the keyboard keys *)
  for_range 0 6 (fun j =>
    for_range 0 17 (fun i =>
      let scaleXYZ := Vec3 (flit 0.35) (flit 0.35) (flit 0.35) in
      let positionXYZ :=
        Vec3 (fadd (flit (-4.0)) (fdiv (float_of_int i) (flit 2.0)))
             (flit 10.5)
             (fadd (flit (-1.0)) (fdiv (float_of_int j) (flit 2.0))) in
      SetTransformations scaleXYZ XrotationDegrees YrotationDegrees ZrotationDegrees
                         positionXYZ;;
      SetShaderMaterial "whiteMat";;
      SetShaderTexture "white";;
      SetTextureUVScale (flit 1.0) (flit 1.0);;
      DrawBoxMesh)).

(** *** SceneManager::PrepareScene

    The results of the five [CreateGLTexture] calls are dropped. *)
Definition PrepareScene : M unit :=
  DefineObjectMaterials;;
  SetupSceneLights;;
  LoadPlaneMesh;;
  LoadBoxMesh;;
  LoadCylinderMesh;;
  CreateGLTexture "textures/wood_texture.jpg" "wood";;
  CreateGLTexture "textures/black_wood_texture.jpg" "black_wood";;
  CreateGLTexture "textures/black_brushed_metal_texture.jpg" "black_metal";;
  CreateGLTexture "textures/snhu_one.jpg" "monitor_screen";;
  CreateGLTexture "textures/white_texture.jpg" "white";;
  BindGLTextures.
End Model.

(** ** Specification vocabulary *)

(** The uniform an event uploads, if it is an upload. *)
Definition event_uniform {float mat4 : Type} (e : event float mat4) : option string :=
  match e with
  | EvSetMat4Value n _ | EvSetIntValue n _ | EvSetBoolValue n _
  | EvSetFloatValue n _ | EvSetVec2Value n _ | EvSetVec3Value n _
  | EvSetVec4Value n _ | EvSetSampler2DValue n _ => Some n
  | _ => None
  end.

Definition uploads_to {float mat4 : Type} (name : string) (e : event float mat4) : bool :=
  match event_uniform e with
  | Some n => String.eqb n name
  | None => false
  end.

(** The value a uniform holds after a trace: its last upload. *)
Definition current_uniform {float mat4 : Type} (name : string)
    (tr : list (event float mat4)) : option (event float mat4) :=
  last (filter (fun e => uploads_to name e = true) tr).

(** The boolean uniforms a list of calls uploads, in order. *)
Definition bool_uploads {float mat4 : Type} (es : list (event float mat4))
    : list (string * bool) :=
  omap (fun e => match e with EvSetBoolValue n b => Some (n, b) | _ => None end) es.

Definition is_draw {float mat4 : Type} (e : event float mat4) : bool :=
  match e with EvDrawMesh _ => true | _ => false end.

Definition is_delete {float mat4 : Type} (e : event float mat4) : bool :=
  match e with EvGlDeleteTextures _ => true | _ => false end.

(** The entries of the registry: the first [m_loadedTextures] slots. *)
Definition registered {float : Type} (s : SceneManager float) : list TEXTURE_INFO :=
  take (Z.to_nat (m_loadedTextures s)) (m_textureIDs s).


(** The registry of an object the constructor built and [CreateGLTexture]
    filled: the array has its 16 slots, the counter is within it, and
    every registered name was handed out by the GL context. *)
Definition registry_inv {float mat4 : Type} (st : State float mat4) : Prop :=
  length (m_textureIDs (this st)) = m_textureIDs_capacity ∧
  0 ≤ m_loadedTextures (this st) ≤ Z.of_nat m_textureIDs_capacity ∧
  0 < gl_next_name (world st) ∧
  ∀ e, e ∈ registered (this st) → 0 < tex_ID e < gl_next_name (world st).

Definition registry_in_bounds {float : Type} (s : SceneManager float) : Prop :=
  m_loadedTextures s ≤ Z.of_nat (length (m_textureIDs s)).

(** The first registered entry that carries a tag, with its index. *)
Definition first_tagged {float : Type} (s : SceneManager float) (tag : string)
    : option (nat * TEXTURE_INFO) :=
  list_find (fun e => tex_tag e = tag) (registered s).

Definition texture_slot {float : Type} (s : SceneManager float) (tag : string) : Z :=
  match first_tagged s tag with
  | Some (i, _) => Z.of_nat i
  | None => -1
  end.

Definition texture_id {float : Type} (s : SceneManager float) (tag : string) : Z :=
  match first_tagged s tag with
  | Some (_, e) => int_of_GLuint (tex_ID e)
  | None => -1
  end.

(** One element of the display list of [RenderScene]: what is passed to
    [SetTransformations], [SetShaderMaterial], [SetShaderTexture],
    [SetTextureUVScale] and which mesh is drawn. *)
Record ObjectPart (float : Type) := {
  part_scale : vec3 float;
  part_Xrotation : float;
  part_Yrotation : float;
  part_Zrotation : float;
  part_position : vec3 float;
  part_material : string;
  part_texture : string;
  part_UVscale : vec2 float;
  part_mesh : mesh_kind;
}.
Arguments part_scale {float} _.
Arguments part_Xrotation {float} _.
Arguments part_Yrotation {float} _.
Arguments part_Zrotation {float} _.
Arguments part_position {float} _.
Arguments part_material {float} _.
Arguments part_texture {float} _.
Arguments part_UVscale {float} _.
Arguments part_mesh {float} _.

Section Vocabulary.
Context {float mat4 : Type} `{FloatOps float} `{GLM float mat4}.

(** The state after the collaborators received the calls [es]. *)
Definition emit (es : list (event float mat4)) (st : State float mat4)
    : State float mat4 :=
  {| this := this st;
     world := {| gl_next_name := gl_next_name (world st);
                 gl_textures := gl_textures (world st);
                 disk := disk (world st);
                 indeterminate_material := indeterminate_material (world st);
                 trace := trace (world st) ++ es |} |}.

Definition axis_X : vec3 float := Vec3 (flit 1.0) (flit 0.0) (flit 0.0).
Definition axis_Y : vec3 float := Vec3 (flit 0.0) (flit 1.0) (flit 0.0).
Definition axis_Z : vec3 float := Vec3 (flit 0.0) (flit 0.0) (flit 1.0).

(** The rotation by an angle given in degrees about a fixed axis. *)
Definition rotation_about (axis : vec3 float) (degrees : float) : mat4 :=
  glm_rotate (glm_radians degrees) axis.

Local Infix "·" := mat4_mul (at level 40, left associativity).

(** [T · Rz · Ry · Rx · S] *)
Definition model_matrix (scaleXYZ : vec3 float) (xdeg ydeg zdeg : float)
    (positionXYZ : vec3 float) : mat4 :=
  glm_translate positionXYZ
  · rotation_about axis_Z zdeg
  · rotation_about axis_Y ydeg
  · rotation_about axis_X xdeg
  · glm_scale scaleXYZ.

(** The material uniforms a table makes [SetShaderMaterial] upload: none
    for an empty table, else those of the first entry with the tag or,
    when there is none, the fields of the uninitialised local. *)
Definition material_uploads (table : list (OBJECT_MATERIAL float))
    (uninitialised : OBJECT_MATERIAL float) (tag : string)
    : list (event float mat4) :=
  match table with
  | [] => []
  | _ =>
      let m := match list_find (fun e => mat_tag e = tag) table with
               | Some (_, e) => e
               | None => uninitialised
               end in
      [EvSetVec3Value "material.diffuseColor" (diffuseColor m);
       EvSetVec3Value "material.specularColor" (specularColor m);
       EvSetFloatValue "material.shininess" (shininess m)]
  end.

(** The calls one object part sends to the collaborators. *)
Definition part_events (st : State float mat4) (p : ObjectPart float)
    : list (event float mat4) :=
  [EvSetMat4Value g_ModelName
     (model_matrix (part_scale p) (part_Xrotation p) (part_Yrotation p)
                   (part_Zrotation p) (part_position p))]
  ++ material_uploads (m_objectMaterials (this st))
                      (indeterminate_material (world st)) (part_material p)
  ++ [EvSetIntValue g_UseTextureName 1;
      EvSetSampler2DValue g_TextureValueName (texture_slot (this st) (part_texture p));
      EvSetVec2Value "UVscale" (part_UVscale p);
      EvDrawMesh (part_mesh p)].

Definition keyboard_base : ObjectPart float :=
  {| part_scale := Vec3 (flit 10.0) (flit 0.25) (flit 4.0);
     part_Xrotation := flit 0.0;
     part_Yrotation := flit 0.0;
     part_Zrotation := flit 0.0;
     part_position := Vec3 (flit 0.0) (flit 10.5) (flit 0.0);
     part_material := "blackMetalMat";
     part_texture := "black_metal";
     part_UVscale := Vec2 (flit 1.0) (flit 1.0);
     part_mesh := BoxMesh |}.

(** The key in column [i] of row [j]. *)
Definition key_part (i j : Z) : ObjectPart float :=
  {| part_scale := Vec3 (flit 0.35) (flit 0.35) (flit 0.35);
     part_Xrotation := flit 0.0;
     part_Yrotation := flit 0.0;
     part_Zrotation := flit 0.0;
     part_position :=
       Vec3 (fadd (flit (-4.0)) (fdiv (float_of_int i) (flit 2.0)))
            (flit 10.5)
            (fadd (flit (-1.0)) (fdiv (float_of_int j) (flit 2.0)));
     part_material := "whiteMat";
     part_texture := "white";
     part_UVscale := Vec2 (flit 1.0) (flit 1.0);
     part_mesh := BoxMesh |}.

(** The keys in the order they are drawn: row by row. *)
Definition keyboard_keys : list (ObjectPart float) :=
  concat (map (fun j => map (fun i => key_part i j) (seqZ 0 17)) (seqZ 0 6)).

(** The uploads of [SetupSceneLights], in order. *)
Definition light_rig_uploads : list (event float mat4) :=
  [EvSetBoolValue "bUseLighting" true;
   EvSetVec3Value "directionalLight.direction"
     (Vec3 (flit (-0.2)) (flit (-1.0)) (flit (-0.3)));
   EvSetVec3Value "directionalLight.ambient" (Vec3 (flit 0.1) (flit 0.1) (flit 0.1));
   EvSetVec3Value "directionalLight.diffuse" (Vec3 (flit 0.6) (flit 0.6) (flit 0.6));
   EvSetVec3Value "directionalLight.specular" (Vec3 (flit 0.8) (flit 0.8) (flit 0.8));
   EvSetBoolValue "directionalLight.bActive" true;
   EvSetVec3Value "pointLights[0].position" (Vec3 (flit 0.0) (flit 12.0) (flit 0.0));
   EvSetVec3Value "pointLights[0].ambient" (Vec3 (flit 0.05) (flit 0.05) (flit 0.05));
   EvSetVec3Value "pointLights[0].diffuse" (Vec3 (flit 0.6) (flit 0.6) (flit 0.6));
   EvSetVec3Value "pointLights[0].specular" (Vec3 (flit 0.8) (flit 0.8) (flit 0.8));
   EvSetBoolValue "pointLights[0].bActive" true;
   EvSetBoolValue "pointLights[1].bActive" false;
   EvSetBoolValue "pointLights[2].bActive" false;
   EvSetBoolValue "pointLights[3].bActive" false;
   EvSetBoolValue "pointLights[4].bActive" false].

(** The name of the flag that switches point light [i] on. *)
Definition point_light_active (i : Z) : string :=
  "pointLights[" +:+ pretty i +:+ "].bActive".
End Vocabulary.

(** ** Two concrete interpretations, to run the model *)

(** Exact rational arithmetic.  On the values the source computes itself
    (halves of small integers) single precision is exact as well. *)
#[global] Instance Q_FloatOps : FloatOps Q := {|
  flit q := q;
  float_of_int := inject_Z;
  fadd := Qplus;
  fdiv := Qdiv;
|}.

(** Matrices as the expressions that build them. *)
Inductive mat4_expr :=
  | MScale (v : vec3 Q)
  | MRotate (angle : Q) (axis : vec3 Q)
  | MTranslate (v : vec3 Q)
  | MMul (a b : mat4_expr).

#[global] Instance Q_GLM : GLM Q mat4_expr := {|
  glm_radians degrees := (degrees * 0.01745329251994329576923690768489)%Q;
  glm_scale := MScale;
  glm_rotate := MRotate;
  glm_translate := MTranslate;
  mat4_mul := MMul;
|}.

Definition garbage : OBJECT_MATERIAL Q :=
  {| diffuseColor := Vec3 7%Q 7%Q 7%Q;
     specularColor := Vec3 8%Q 8%Q 8%Q;
     shininess := 9%Q;
     mat_tag := "" |}.

Definition rgb_image : Image := {| img_width := 4; img_height := 4; img_channels := 3 |}.
Definition rgba_image : Image := {| img_width := 4; img_height := 4; img_channels := 4 |}.
Definition grey_image : Image := {| img_width := 4; img_height := 4; img_channels := 1 |}.

(** A fresh process: no texture handed out yet; on disk the five images
    of the scene, an RGBA image and a one-channel image. *)
Definition world0 : World Q mat4_expr :=
  {| gl_next_name := 1;
     gl_textures := [];
     disk := [("textures/wood_texture.jpg", rgb_image);
              ("textures/black_wood_texture.jpg", rgb_image);
              ("textures/black_brushed_metal_texture.jpg", rgb_image);
              ("textures/snhu_one.jpg", rgb_image);
              ("textures/white_texture.jpg", rgb_image);
              ("rgba.png", rgba_image);
              ("grey.jpg", grey_image)];
     indeterminate_material := garbage;
     trace := [] |}.

Definition state0 : State Q mat4_expr :=
  {| this := new_SceneManager (Addr 1); world := world0 |}.

Definition state0_null : State Q mat4_expr :=
  {| this := new_SceneManager NULL; world := world0 |}.

(** The state an action leaves, when it returns. *)
Definition exec {float mat4 A : Type} (m : M A) (st : State float mat4)
    : option (State float mat4) :=
  match m st with Ok (_, st') => Some st' | Fault _ => None end.

Definition run {A : Type} (m : M A) (st : State Q mat4_expr) : State Q mat4_expr :=
  match exec m st with Some st' => st' | None => st end.

(** After [PrepareScene]. *)
Definition prepared : State Q mat4_expr := Eval vm_compute in run PrepareScene state0.

(** One texture registered, under ["wood"]. *)
Definition wood_once : State Q mat4_expr := Eval vm_compute in
  run (CreateGLTexture "textures/wood_texture.jpg" "wood") state0.

(** Two textures registered. *)
Definition two_textures : State Q mat4_expr := Eval vm_compute in
  run (CreateGLTexture "textures/wood_texture.jpg" "wood";;
       CreateGLTexture "rgba.png" "white") state0.

(** Sixteen textures registered: every slot of the array is taken. *)
Definition sixteen_textures : State Q mat4_expr := Eval vm_compute in
  run (for_range 0 16 (fun i =>
         CreateGLTexture "textures/wood_texture.jpg" (pretty i);; mret tt)) state0.

(** Materials defined and ["woodMat"] uploaded. *)
Definition wood_material_set : State Q mat4_expr := Eval vm_compute in
  run (DefineObjectMaterials;; SetShaderMaterial "woodMat") state0.

(** Materials defined on an object without shader manager. *)
Definition materials_without_shader : State Q mat4_expr := Eval vm_compute in
  run DefineObjectMaterials state0_null.

(** ** The rest of the render phase *)

Section Rendering.
Context {float mat4 : Type} `{FloatOps float} `{GLM float mat4}.

(** *** SceneManager::RenderDesk *)
Definition RenderDesk : M unit :=
  let XrotationDegrees := flit 0.0 in
  let YrotationDegrees := flit 0.0 in
  let ZrotationDegrees := flit 0.0 in
  (* the tabletop *)
  let scaleXYZ := Vec3 (flit 24.0) (flit 0.75) (flit 16.0) in
  let positionXYZ := Vec3 (flit 0.0) (flit 10.0) (flit 0.0) in
  SetTransformations scaleXYZ XrotationDegrees YrotationDegrees ZrotationDegrees
                     positionXYZ;;
  SetShaderMaterial "blackWoodMat";;
  SetShaderTexture "black_wood";;
  SetTextureUVScale (flit 1.0) (flit 1.0);;
  DrawBoxMesh;;
  (* the left leg *)
  let scaleXYZ := Vec3 (flit 1.25) (flit 10.0) (flit 1.25) in
  let positionXYZ := Vec3 (flit (-9.0)) (flit 5.0) (flit 0.0) in
  SetTransformations scaleXYZ XrotationDegrees YrotationDegrees ZrotationDegrees
                     positionXYZ;;
  SetShaderMaterial "blackMetalMat";;
  SetShaderTexture "black_metal";;
  SetTextureUVScale (flit 1.0) (flit 1.0);;
  DrawBoxMesh;;
  (* the left leg, piece 1 *)
  let scaleXYZ := Vec3 (flit 1.25) (flit 1.25) (flit 1.25) in
  let positionXYZ := Vec3 (flit (-8.0)) (flit 9.0) (flit 0.0) in
  SetTransformations scaleXYZ XrotationDegrees YrotationDegrees ZrotationDegrees
                     positionXYZ;;
  SetShaderMaterial "blackMetalMat";;
  SetShaderTexture "black_metal";;
  SetTextureUVScale (flit 1.0) (flit 1.0);;
  DrawBoxMesh;;
  (* the left leg, piece 2 *)
  let scaleXYZ := Vec3 (flit 1.25) (flit 0.5) (flit 12.0) in
  let positionXYZ := Vec3 (flit (-8.0)) (flit 9.5) (flit 0.0) in
  SetTransformations scaleXYZ XrotationDegrees YrotationDegrees ZrotationDegrees
                     positionXYZ;;
  SetShaderMaterial "blackMetalMat";;
  SetShaderTexture "black_metal";;
  SetTextureUVScale (flit 1.0) (flit 1.0);;
  DrawBoxMesh;;
  (* the left leg, piece 3 *)
  let scaleXYZ := Vec3 (flit 1.25) (flit 0.5) (flit 12.0) in
  let positionXYZ := Vec3 (flit (-9.0)) (flit 0.25) (flit 0.0) in
  SetTransformations scaleXYZ XrotationDegrees YrotationDegrees ZrotationDegrees
                     positionXYZ;;
  SetShaderMaterial "blackMetalMat";;
  SetShaderTexture "black_metal";;
  SetTextureUVScale (flit 1.0) (flit 1.0);;
  DrawBoxMesh;;
  (* the right leg *)
  let scaleXYZ := Vec3 (flit 1.25) (flit 10.0) (flit 1.25) in
  let positionXYZ := Vec3 (flit 9.0) (flit 5.0) (flit 0.0) in
  SetTransformations scaleXYZ XrotationDegrees YrotationDegrees ZrotationDegrees
                     positionXYZ;;
  SetShaderMaterial "blackMetalMat";;
  SetShaderTexture "black_metal";;
  SetTextureUVScale (flit 1.0) (flit 1.0);;
  DrawBoxMesh;;
  (* the right leg, piece 1 *)
  let scaleXYZ := Vec3 (flit 1.25) (flit 1.25) (flit 1.25) in
  let positionXYZ := Vec3 (flit 8.0) (flit 9.0) (flit 0.0) in
  SetTransformations scaleXYZ XrotationDegrees YrotationDegrees ZrotationDegrees
                     positionXYZ;;
  SetShaderMaterial "blackMetalMat";;
  SetShaderTexture "black_metal";;
  SetTextureUVScale (flit 1.0) (flit 1.0);;
  DrawBoxMesh;;
  (* the right leg, piece 2 *)
  let scaleXYZ := Vec3 (flit 1.25) (flit 0.5) (flit 12.0) in
  let positionXYZ := Vec3 (flit 8.0) (flit 9.5) (flit 0.0) in
  SetTransformations scaleXYZ XrotationDegrees YrotationDegrees ZrotationDegrees
                     positionXYZ;;
  SetShaderMaterial "blackMetalMat";;
  SetShaderTexture "black_metal";;
  SetTextureUVScale (flit 1.0) (flit 1.0);;
  DrawBoxMesh;;
  (* the right leg, piece 3 *)
  let scaleXYZ := Vec3 (flit 1.25) (flit 0.5) (flit 15.0) in
  let positionXYZ := Vec3 (flit 9.0) (flit 0.25) (flit 0.0) in
  SetTransformations scaleXYZ XrotationDegrees YrotationDegrees ZrotationDegrees
                     positionXYZ;;
  SetShaderMaterial "blackMetalMat";;
  SetShaderTexture "black_metal";;
  SetTextureUVScale (flit 1.0) (flit 1.0);;
  DrawBoxMesh.

(** *** SceneManager::RenderMonitor

    The rotation variables keep their last value from part to part. *)
Definition RenderMonitor : M unit :=
  let XrotationDegrees := flit 0.0 in
  let YrotationDegrees := flit 0.0 in
  let ZrotationDegrees := flit 0.0 in
  (* the lower flat base of the stand *)
  let scaleXYZ := Vec3 (flit 2.0) (flit 0.25) (flit 2.0) in
  let positionXYZ := Vec3 (flit (-5.0)) (flit 10.5) (flit (-6.0)) in
  SetTransformations scaleXYZ XrotationDegrees YrotationDegrees ZrotationDegrees
                     positionXYZ;;
  SetShaderMaterial "blackMetalMat";;
  SetShaderTexture "black_metal";;
  SetTextureUVScale (flit 1.0) (flit 1.0);;
  DrawBoxMesh;;
  (* the upper base of the stand *)
  let scaleXYZ := Vec3 (flit 0.5) (flit 2.0) (flit 0.5) in
  let positionXYZ := Vec3 (flit (-5.0)) (flit 10.75) (flit (-6.0)) in
  SetTransformations scaleXYZ XrotationDegrees YrotationDegrees ZrotationDegrees
                     positionXYZ;;
  SetShaderMaterial "blackMetalMat";;
  SetShaderTexture "black_metal";;
  SetTextureUVScale (flit 1.0) (flit 1.0);;
  DrawCylinderMesh;;
  (* the tilted arm *)
  let scaleXYZ := Vec3 (flit 0.5) (flit 6.0) (flit 0.5) in
  let positionXYZ := Vec3 (flit (-5.0)) (flit 12.5) (flit (-6.0)) in
  let XrotationDegrees := (flit 0.0) in
  let YrotationDegrees := (flit 0.0) in
  let ZrotationDegrees := (flit (-30.0)) in
  SetTransformations scaleXYZ XrotationDegrees YrotationDegrees ZrotationDegrees
                     positionXYZ;;
  SetShaderMaterial "blackMetalMat";;
  SetShaderTexture "black_metal";;
  SetTextureUVScale (flit 1.0) (flit 1.0);;
  DrawCylinderMesh;;
  (* the upper flat base of the stand *)
  let scaleXYZ := Vec3 (flit 2.0) (flit 1.0) (flit 2.0) in
  let positionXYZ := Vec3 (flit (-1.5)) (flit 17.0) (flit (-5.5)) in
  let XrotationDegrees := (flit 90.0) in
  let YrotationDegrees := (flit 0.0) in
  let ZrotationDegrees := (flit 0.0) in
  SetTransformations scaleXYZ XrotationDegrees YrotationDegrees ZrotationDegrees
                     positionXYZ;;
  SetShaderMaterial "blackMetalMat";;
  SetShaderTexture "black_metal";;
  SetTextureUVScale (flit 1.0) (flit 1.0);;
  DrawBoxMesh;;
  (* the frame of the screen *)
  let scaleXYZ := Vec3 (flit 15.5) (flit 10.5) (flit 0.5) in
  let positionXYZ := Vec3 (flit 0.0) (flit 19.0) (flit (-5.0)) in
  let XrotationDegrees := (flit 0.0) in
  let YrotationDegrees := (flit 0.0) in
  let ZrotationDegrees := (flit 0.0) in
  SetTransformations scaleXYZ XrotationDegrees YrotationDegrees ZrotationDegrees
                     positionXYZ;;
  SetShaderMaterial "blackMetalMat";;
  SetShaderTexture "black_metal";;
  SetTextureUVScale (flit 1.0) (flit 1.0);;
  DrawBoxMesh;;
  (* the screen *)
  let scaleXYZ := Vec3 (flit 15.0) (flit 10.0) (flit 0.25) in
  let positionXYZ := Vec3 (flit 0.0) (flit 19.0) (flit (-4.85)) in
  SetTransformations scaleXYZ XrotationDegrees YrotationDegrees ZrotationDegrees
                     positionXYZ;;
  SetShaderMaterial "monitorScreenMat";;
  SetShaderTexture "monitor_screen";;
  SetTextureUVScale (flit 1.0) (flit 1.0);;
  DrawBoxMesh.

(** *** SceneManager::RenderMouse *)
Definition RenderMouse : M unit :=
  let XrotationDegrees := flit 0.0 in
  let YrotationDegrees := flit 0.0 in
  let ZrotationDegrees := flit 0.0 in
  (* the base *)
  let scaleXYZ := Vec3 (flit 1.25) (flit 0.5) (flit 1.75) in
  let positionXYZ := Vec3 (flit 7.0) (flit 10.5) (flit 0.0) in
  SetTransformations scaleXYZ XrotationDegrees YrotationDegrees ZrotationDegrees
                     positionXYZ;;
  SetShaderMaterial "blackMetalMat";;
  SetShaderTexture "black_metal";;
  SetTextureUVScale (flit 1.0) (flit 1.0);;
  DrawBoxMesh;;
  (* the hand rest *)
  let scaleXYZ := Vec3 (flit 1.25) (flit 0.75) (flit 0.875) in
  let positionXYZ := Vec3 (flit 7.0) (flit 10.5) (flit 0.45) in
  SetTransformations scaleXYZ XrotationDegrees YrotationDegrees ZrotationDegrees
                     positionXYZ;;
  SetShaderMaterial "blackMetalMat";;
  SetShaderTexture "black_metal";;
  SetTextureUVScale (flit 1.0) (flit 1.0);;
  DrawBoxMesh;;
  (* the primary button *)
  let scaleXYZ := Vec3 (flit 0.5) (flit 0.75) (flit 0.75) in
  let positionXYZ := Vec3 (flit 6.7) (flit 10.5) (flit (-0.45)) in
  SetTransformations scaleXYZ XrotationDegrees YrotationDegrees ZrotationDegrees
                     positionXYZ;;
  SetShaderMaterial "whiteMat";;
  SetShaderTexture "white";;
  SetTextureUVScale (flit 1.0) (flit 1.0);;
  DrawBoxMesh;;
  (* the secondary button *)
  let scaleXYZ := Vec3 (flit 0.5) (flit 0.75) (flit 0.75) in
  let positionXYZ := Vec3 (flit 7.3) (flit 10.5) (flit (-0.45)) in
  SetTransformations scaleXYZ XrotationDegrees YrotationDegrees ZrotationDegrees
                     positionXYZ;;
  SetShaderMaterial "whiteMat";;
  SetShaderTexture "white";;
  SetTextureUVScale (flit 1.0) (flit 1.0);;
  DrawBoxMesh;;
  (* the middle button *)
  let scaleXYZ := Vec3 (flit 0.05) (flit 1.00) (flit 0.6) in
  let positionXYZ := Vec3 (flit 7.0) (flit 10.5) (flit (-0.45)) in
  SetTransformations scaleXYZ XrotationDegrees YrotationDegrees ZrotationDegrees
                     positionXYZ;;
  SetShaderMaterial "blackMetalMat";;
  SetShaderTexture "black_metal";;
  SetTextureUVScale (flit 1.0) (flit 1.0);;
  DrawBoxMesh.

(** *** SceneManager::RenderScene *)
Definition RenderScene : M unit :=
  let XrotationDegrees := flit 0.0 in
  let YrotationDegrees := flit 0.0 in
  let ZrotationDegrees := flit 0.0 in
  (* the floor *)
  let scaleXYZ := Vec3 (flit 20.0) (flit 1.0) (flit 15.0) in
  let XrotationDegrees := (flit 0.0) in
  let YrotationDegrees := (flit 0.0) in
  let ZrotationDegrees := (flit 0.0) in
  let positionXYZ := Vec3 (flit 0.0) (flit 0.0) (flit 0.0) in
  SetTransformations scaleXYZ XrotationDegrees YrotationDegrees ZrotationDegrees
                     positionXYZ;;
  SetShaderMaterial "woodMat";;
  SetShaderTexture "wood";;
  SetTextureUVScale (flit 1.0) (flit 1.0);;
  DrawPlaneMesh;;
  (* the wall *)
  let scaleXYZ := Vec3 (flit 20.0) (flit 1.0) (flit 20.0) in
  let XrotationDegrees := (flit 90.0) in
  let YrotationDegrees := (flit 0.0) in
  let ZrotationDegrees := (flit 0.0) in
  let positionXYZ := Vec3 (flit 0.0) (flit 15.0) (flit (-15.0)) in
  SetTransformations scaleXYZ XrotationDegrees YrotationDegrees ZrotationDegrees
                     positionXYZ;;
  SetShaderMaterial "woodMat";;
  SetShaderTexture "wood";;
  SetTextureUVScale (flit 1.0) (flit 1.0);;
  DrawPlaneMesh;;
  RenderDesk;;
  RenderMonitor;;
  RenderKeyboard;;
  RenderMouse.

End Rendering.

(** ** The display lists, part by part *)

Section DisplayLists.
Context {float : Type} `{FloatOps float}.

(** A part with UV scale (1, 1): scale, rotations in degrees about x, y
    and z, position, material tag, texture tag, mesh. *)
Definition object_part (sx sy sz xdeg ydeg zdeg px py pz : Q)
    (material texture : string) (mesh : mesh_kind) : ObjectPart float :=
  {| part_scale := Vec3 (flit sx) (flit sy) (flit sz);
     part_Xrotation := flit xdeg;
     part_Yrotation := flit ydeg;
     part_Zrotation := flit zdeg;
     part_position := Vec3 (flit px) (flit py) (flit pz);
     part_material := material;
     part_texture := texture;
     part_UVscale := Vec2 (flit 1.0) (flit 1.0);
     part_mesh := mesh |}.

(** The floor and the wall, drawn by [RenderScene] itself. *)
Definition room_parts : list (ObjectPart float) :=
  [object_part 20.0 1.0 15.0  0.0 0.0 0.0  0.0 0.0 0.0
               "woodMat" "wood" PlaneMesh;
   object_part 20.0 1.0 20.0  90.0 0.0 0.0  0.0 15.0 (-15.0)
               "woodMat" "wood" PlaneMesh].

(** The parts of [RenderDesk]. *)
Definition desk_parts : list (ObjectPart float) :=
  [object_part 24.0 0.75 16.0  0.0 0.0 0.0  0.0 10.0 0.0
               "blackWoodMat" "black_wood" BoxMesh;
   object_part 1.25 10.0 1.25  0.0 0.0 0.0  (-9.0) 5.0 0.0
               "blackMetalMat" "black_metal" BoxMesh;
   object_part 1.25 1.25 1.25  0.0 0.0 0.0  (-8.0) 9.0 0.0
               "blackMetalMat" "black_metal" BoxMesh;
   object_part 1.25 0.5 12.0  0.0 0.0 0.0  (-8.0) 9.5 0.0
               "blackMetalMat" "black_metal" BoxMesh;
   object_part 1.25 0.5 12.0  0.0 0.0 0.0  (-9.0) 0.25 0.0
               "blackMetalMat" "black_metal" BoxMesh;
   object_part 1.25 10.0 1.25  0.0 0.0 0.0  9.0 5.0 0.0
               "blackMetalMat" "black_metal" BoxMesh;
   object_part 1.25 1.25 1.25  0.0 0.0 0.0  8.0 9.0 0.0
               "blackMetalMat" "black_metal" BoxMesh;
   object_part 1.25 0.5 12.0  0.0 0.0 0.0  8.0 9.5 0.0
               "blackMetalMat" "black_metal" BoxMesh;
   object_part 1.25 0.5 15.0  0.0 0.0 0.0  9.0 0.25 0.0
               "blackMetalMat" "black_metal" BoxMesh].

(** The parts of [RenderMonitor]. *)
Definition monitor_parts : list (ObjectPart float) :=
  [object_part 2.0 0.25 2.0  0.0 0.0 0.0  (-5.0) 10.5 (-6.0)
               "blackMetalMat" "black_metal" BoxMesh;
   object_part 0.5 2.0 0.5  0.0 0.0 0.0  (-5.0) 10.75 (-6.0)
               "blackMetalMat" "black_metal" CylinderMesh;
   object_part 0.5 6.0 0.5  0.0 0.0 (-30.0)  (-5.0) 12.5 (-6.0)
               "blackMetalMat" "black_metal" CylinderMesh;
   object_part 2.0 1.0 2.0  90.0 0.0 0.0  (-1.5) 17.0 (-5.5)
               "blackMetalMat" "black_metal" BoxMesh;
   object_part 15.5 10.5 0.5  0.0 0.0 0.0  0.0 19.0 (-5.0)
               "blackMetalMat" "black_metal" BoxMesh;
   object_part 15.0 10.0 0.25  0.0 0.0 0.0  0.0 19.0 (-4.85)
               "monitorScreenMat" "monitor_screen" BoxMesh].

(** The parts of [RenderMouse]. *)
Definition mouse_parts : list (ObjectPart float) :=
  [object_part 1.25 0.5 1.75  0.0 0.0 0.0  7.0 10.5 0.0
               "blackMetalMat" "black_metal" BoxMesh;
   object_part 1.25 0.75 0.875  0.0 0.0 0.0  7.0 10.5 0.45
               "blackMetalMat" "black_metal" BoxMesh;
   object_part 0.5 0.75 0.75  0.0 0.0 0.0  6.7 10.5 (-0.45)
               "whiteMat" "white" BoxMesh;
   object_part 0.5 0.75 0.75  0.0 0.0 0.0  7.3 10.5 (-0.45)
               "whiteMat" "white" BoxMesh;
   object_part 0.05 1.00 0.6  0.0 0.0 0.0  7.0 10.5 (-0.45)
               "blackMetalMat" "black_metal" BoxMesh].

(** Everything [RenderScene] draws, in order. *)
Definition scene_parts : list (ObjectPart float) :=
  room_parts ++ desk_parts ++ monitor_parts
  ++ (keyboard_base :: keyboard_keys) ++ mouse_parts.
End DisplayLists.

(** ** More specification vocabulary *)

Section Loads.
Context {float mat4 : Type}.

(** The calls of a load that registers an image under a GL name. *)
Definition load_events (img : Image) (name : GLuint) : list (event float mat4) :=
  [EvStbiSetFlip true;
   EvGlGenTextures name;
   EvGlBindTexture GL_TEXTURE_2D name;
   EvGlTexParameteri GL_TEXTURE_2D GL_TEXTURE_WRAP_S GL_REPEAT;
   EvGlTexParameteri GL_TEXTURE_2D GL_TEXTURE_WRAP_T GL_REPEAT;
   EvGlTexParameteri GL_TEXTURE_2D GL_TEXTURE_MIN_FILTER GL_LINEAR;
   EvGlTexParameteri GL_TEXTURE_2D GL_TEXTURE_MAG_FILTER GL_LINEAR;
   (if img_channels img =? 3
    then EvGlTexImage2D GL_RGB8 (img_width img) (img_height img) GL_RGB
    else EvGlTexImage2D GL_RGBA8 (img_width img) (img_height img) GL_RGBA);
   EvGlGenerateMipmap GL_TEXTURE_2D;
   EvStbiImageFree img;
   EvGlBindTexture GL_TEXTURE_2D 0].

(** The calls of a load that gives up at the channel test. *)
Definition rejected_load_events (name : GLuint) : list (event float mat4) :=
  [EvStbiSetFlip true;
   EvGlGenTextures name;
   EvGlBindTexture GL_TEXTURE_2D name;
   EvGlTexParameteri GL_TEXTURE_2D GL_TEXTURE_WRAP_S GL_REPEAT;
   EvGlTexParameteri GL_TEXTURE_2D GL_TEXTURE_WRAP_T GL_REPEAT;
   EvGlTexParameteri GL_TEXTURE_2D GL_TEXTURE_MIN_FILTER GL_LINEAR;
   EvGlTexParameteri GL_TEXTURE_2D GL_TEXTURE_MAG_FILTER GL_LINEAR].

(** The GL context after it handed out its next name and received [es]. *)
Definition allocate (es : list (event float mat4)) (w : World float mat4)
    : World float mat4 :=
  {| gl_next_name := gl_next_name w + 1;
     gl_textures := gl_textures w ++ [gl_next_name w];
     disk := disk w;
     indeterminate_material := indeterminate_material w;
     trace := trace w ++ es |}.

(** The object with one more registered entry. *)
Definition register (tag : string) (name : GLuint) (s : SceneManager float)
    : SceneManager float :=
  {| m_pShaderManager := m_pShaderManager s;
     m_textureIDs :=
       <[Z.to_nat (m_loadedTextures s) := {| tex_tag := tag; tex_ID := name |}]>
         (m_textureIDs s);
     m_loadedTextures := m_loadedTextures s + 1;
     m_objectMaterials := m_objectMaterials s |}.

(** The calls of [BindGLTextures] for the entries [l], the first of them
    going to texture unit [k]. *)
Fixpoint bind_events_from (k : nat) (l : list TEXTURE_INFO) : list (event float mat4) :=
  match l with
  | [] => []
  | e :: l' =>
      EvGlActiveTexture (Z.of_nat k) :: EvGlBindTexture GL_TEXTURE_2D (tex_ID e)
      :: bind_events_from (S k) l'
  end.

Definition is_sampler_miss (e : event float mat4) : bool :=
  match e with EvSetSampler2DValue _ slot => slot <? 0 | _ => false end.
End Loads.

(** A world in which the five images of the scene are readable, each with
    3 or 4 channels. *)
Definition scene_files : list string :=
  ["textures/wood_texture.jpg"; "textures/black_wood_texture.jpg";
   "textures/black_brushed_metal_texture.jpg"; "textures/snhu_one.jpg";
   "textures/white_texture.jpg"].

Definition readable (d : list (string * Image)) (filename : string) : Prop :=
  ∃ img, lookup_file d filename = Some img ∧ (img_channels img = 3 ∨ img_channels img = 4).

Section Materials.
Context {float : Type} `{FloatOps float}.

(** The five materials of [DefineObjectMaterials], in the order they are
    pushed. *)
Definition defined_materials : list (OBJECT_MATERIAL float) :=
  [woodMat; blackWoodMat; blackMetalMat; monitorScreenMat; whiteMat].

(** What [FindMaterial] leaves in the caller's record when it copies [e]. *)
Definition copy_material (e into : OBJECT_MATERIAL float) : OBJECT_MATERIAL float :=
  {| diffuseColor := diffuseColor e;
     specularColor := specularColor e;
     shininess := shininess e;
     mat_tag := mat_tag into |}.
End Materials.

(** ** GL names, loads of the prepare phase, the uninitialised local *)


(** Whether a load of [filename] registers a texture: the decoder reads
    the file and the image has 3 or 4 channels. *)
Definition loadable (d : list (string * Image)) (filename : string) : bool :=
  match lookup_file d filename with
  | Some img => (img_channels img =? 3) || (img_channels img =? 4)
  | None => false
  end.

(** The entry a load of [filename] under [tag] adds when the context
    hands out [name]: none when the file is not loadable. *)
Definition registered_if (d : list (string * Image)) (filename tag : string)
    (name : GLuint) : list TEXTURE_INFO :=
  if loadable d filename then [{| tex_tag := tag; tex_ID := name |}] else [].

(** The five loads of [PrepareScene], file and tag, in source order. *)
Definition scene_loads : list (string * string) :=
  [("textures/wood_texture.jpg", "wood");
   ("textures/black_wood_texture.jpg", "black_wood");
   ("textures/black_brushed_metal_texture.jpg", "black_metal");
   ("textures/snhu_one.jpg", "monitor_screen");
   ("textures/white_texture.jpg", "white")].

(** The same state with other bytes in the uninitialised local of
    [SetShaderMaterial]. *)
Definition with_indeterminate {float mat4 : Type} (m : OBJECT_MATERIAL float)
    (st : State float mat4) : State float mat4 :=
  {| this := this st;
     world := {| gl_next_name := gl_next_name (world st);
                 gl_textures := gl_textures (world st);
                 disk := disk (world st);
                 indeterminate_material := m;
                 trace := trace (world st) |} |}.

(** The material table is empty, or it holds an entry for every material
    tag of the scene: no part of the scene reads the uninitialised local. *)
Definition scene_materials_resolved {float : Type} `{FloatOps float}
    (s : SceneManager float) : Prop :=
  m_objectMaterials s = [] ∨
  Forall (fun p : ObjectPart float =>
            ∃ e, e ∈ m_objectMaterials s ∧ mat_tag e = part_material p)
         scene_parts.



(** A disk on which ["textures/black_wood_texture.jpg"] is missing and
    ["textures/snhu_one.jpg"] has one channel. *)
Definition state_partial_disk : State Q mat4_expr :=
  {| this := new_SceneManager (Addr 1);
     world := {| gl_next_name := 1;
                 gl_textures := [];
                 disk := [("textures/wood_texture.jpg", rgb_image);
                          ("textures/black_brushed_metal_texture.jpg", rgba_image);
                          ("textures/snhu_one.jpg", grey_image);
                          ("textures/white_texture.jpg", rgb_image)];
                 indeterminate_material := garbage;
                 trace := [] |} |}.

(** * Properties *)

Section Properties.
Context {float mat4 : Type} `{FloatOps float} `{GLM float mat4}.

Implicit Types (st : State float mat4) (s : SceneManager float)
  (es : list (event float mat4)) (tag : string).

(** ** The monad and the trace *)

Lemma bind_Ok {A B : Type} (m : M A) (f : A -> M B) st a st' :
  m st = Ok (a, st') -> (m ≫= f) st = f a st'.
Proof. intros Hm. unfold mbind, M_bind. by rewrite Hm. Qed.

Lemma bind_Fault {A B : Type} (m : M A) (f : A -> M B) st e :
  m st = Fault e -> (m ≫= f) st = Fault e.
Proof. intros Hm. unfold mbind, M_bind. by rewrite Hm. Qed.

Lemma emit_nil st : emit [] st = st.
Proof. destruct st as [s [? ? ? ? ?]]. unfold emit. simpl. by rewrite app_nil_r. Qed.

Lemma emit_emit es1 es2 st : emit es2 (emit es1 st) = emit (es1 ++ es2) st.
Proof. unfold emit. simpl. by rewrite app_assoc. Qed.

Lemma this_emit es st : this (emit es st) = this st.
Proof. reflexivity. Qed.

Lemma trace_emit es st : trace (world (emit es st)) = trace (world st) ++ es.
Proof. reflexivity. Qed.

Lemma log_emit (e : event float mat4) st : log e st = Ok (tt, emit [e] st).
Proof. reflexivity. Qed.

Lemma via_shader_null (e : event float mat4) st :
  m_pShaderManager (this st) = NULL -> via_shader e st = Fault NullDereference.
Proof.
  intros Hp. unfold via_shader, mbind, M_bind, gets. simpl. by rewrite Hp.
Qed.

Lemma via_shader_emit (e : event float mat4) st :
  m_pShaderManager (this st) ≠ NULL -> via_shader e st = Ok (tt, emit [e] st).
Proof.
  intros Hp. unfold via_shader, mbind, M_bind, gets. simpl.
  by destruct (m_pShaderManager (this st)).
Qed.

(** A loop whose iterations only talk to the collaborators sends the
    calls of its iterations one after the other. *)
Lemma for_loop_emit (body : Z -> M unit) (ev : Z -> list (event float mat4))
    (P : State float mat4 -> Prop) :
  (∀ st es, P st -> P (emit es st)) ->
  (∀ i st, P st -> body i st = Ok (tt, emit (ev i) st)) ->
  ∀ n lo st, P st ->
    for_loop n lo body st = Ok (tt, emit (concat (map ev (seqZ lo (Z.of_nat n)))) st).
Proof.
  intros HP Hbody n. induction n as [|n IH]; intros lo st Hst.
  - simpl. by rewrite emit_nil.
  - rewrite Nat2Z.inj_succ, seqZ_cons by lia. simpl.
    erewrite bind_Ok by (by apply Hbody).
    rewrite IH by (by apply HP). rewrite emit_emit.
    by replace (Z.pred (Z.succ (Z.of_nat n))) with (Z.of_nat n) by lia.
Qed.

Lemma current_uniform_app name (tr1 tr2 : list (event float mat4)) :
  current_uniform name (tr1 ++ tr2) =
    match current_uniform name tr2 with
    | Some e => Some e
    | None => current_uniform name tr1
    end.
Proof.
  unfold current_uniform. rewrite filter_app, last_app.
  by destruct (last (filter _ tr2)).
Qed.

(** ** Null shader manager *)

(** C10: with a null [m_pShaderManager], [SetTransformations],
    [SetShaderColor], [SetShaderTexture] and [SetTextureUVScale] return
    normally and leave the state, hence the trace, as it was;
    [SetShaderMaterial] on a non-empty material table and
    [SetupSceneLights] dereference the null pointer. *)
Theorem null_shader_manager_guard_asymmetry st :
  m_pShaderManager (this st) = NULL ->
  (∀ scaleXYZ xdeg ydeg zdeg positionXYZ,
      SetTransformations scaleXYZ xdeg ydeg zdeg positionXYZ st = Ok (tt, st)) ∧
  (∀ r g b a, SetShaderColor r g b a st = Ok (tt, st)) ∧
  (∀ tag, SetShaderTexture tag st = Ok (tt, st)) ∧
  (∀ u v, SetTextureUVScale u v st = Ok (tt, st)) ∧
  (∀ tag, m_objectMaterials (this st) ≠ [] ->
      SetShaderMaterial tag st = Fault NullDereference) ∧
  SetupSceneLights st = Fault NullDereference.
Proof.
  intros Hp. split_and!.
  - intros. unfold SetTransformations, mbind, M_bind, gets. simpl. by rewrite Hp.
  - intros. unfold SetShaderColor, mbind, M_bind, gets. simpl. by rewrite Hp.
  - intros. unfold SetShaderTexture, mbind, M_bind, gets. simpl. by rewrite Hp.
  - intros. unfold SetTextureUVScale, mbind, M_bind, gets. simpl. by rewrite Hp.
  - intros tag Hne. unfold SetShaderMaterial.
    unfold mbind at 1. unfold M_bind, gets. simpl.
    destruct (decide _) as [_|Hlen].
    + unfold mbind at 1. unfold M_bind, uninitialised_OBJECT_MATERIAL. simpl.
      unfold FindMaterial. destruct (decide _) as [Hlen|_].
      * by destruct (m_objectMaterials (this st)).
      * apply bind_Fault. unfold setVec3Value. by apply via_shader_null.
    + destruct (m_objectMaterials (this st)); [done | simpl in Hlen; lia].
  - unfold SetupSceneLights. apply bind_Fault.
    unfold setBoolValue. by apply via_shader_null.
Qed.

(** ** The transform composer *)

(** C4: when the shader manager is there, [SetTransformations] uploads
    one uniform, ["model"], and its value is [T · Rz · Ry · Rx · S] with
    each rotation built by [glm::rotate] from the angle converted by
    [glm::radians], about the x, y and z axis. *)
Theorem SetTransformations_uploads_model_matrix st scaleXYZ xdeg ydeg zdeg positionXYZ :
  m_pShaderManager (this st) ≠ NULL ->
  let T := glm_translate positionXYZ in
  let Rz := glm_rotate (glm_radians zdeg) (Vec3 (flit 0.0) (flit 0.0) (flit 1.0)) in
  let Ry := glm_rotate (glm_radians ydeg) (Vec3 (flit 0.0) (flit 1.0) (flit 0.0)) in
  let Rx := glm_rotate (glm_radians xdeg) (Vec3 (flit 1.0) (flit 0.0) (flit 0.0)) in
  let S := glm_scale scaleXYZ in
  let M := mat4_mul (mat4_mul (mat4_mul (mat4_mul T Rz) Ry) Rx) S in
  model_matrix scaleXYZ xdeg ydeg zdeg positionXYZ = M ∧
  SetTransformations scaleXYZ xdeg ydeg zdeg positionXYZ st
    = Ok (tt, emit [EvSetMat4Value "model" M] st) ∧
  current_uniform "model" (trace (world (emit [EvSetMat4Value "model" M] st)))
    = Some (EvSetMat4Value "model" M).
Proof.
  intros Hp T Rz Ry Rx S M. split_and!.
  - reflexivity.
  - unfold SetTransformations, mbind, M_bind, gets. simpl.
    destruct (m_pShaderManager (this st)) eqn:Hq; [done|]. simpl.
    unfold setMat4Value. rewrite via_shader_emit by (by rewrite Hq). done.
  - rewrite trace_emit, current_uniform_app. reflexivity.
Qed.

(** ** The texture registry *)

(** C6: a decoded image with a channel count other than 3 and 4 makes
    [CreateGLTexture] return [false]; the object, and with it the count
    and the entries of the registry, is as before the call. *)
Theorem CreateGLTexture_unsupported_channels st filename tag img :
  lookup_file (disk (world st)) filename = Some img ->
  img_channels img ≠ 3 -> img_channels img ≠ 4 ->
  ∃ st', CreateGLTexture filename tag st = Ok (false, st') ∧
         this st' = this st ∧
         m_loadedTextures (this st') = m_loadedTextures (this st) ∧
         registered (this st') = registered (this st).
Proof.
  intros Hfile H3 H4. unfold CreateGLTexture.
  unfold mbind, M_bind, stbi_set_flip_vertically_on_load, stbi_load, log. simpl.
  rewrite Hfile. simpl.
  destruct (Z.eqb_spec (img_channels img) 3) as [|_]; [done|].
  destruct (Z.eqb_spec (img_channels img) 4) as [|_]; [done|].
  eexists. split; [reflexivity|]. done.
Qed.

(** ** The light rig *)

Lemma SetupSceneLights_emit st :
  m_pShaderManager (this st) ≠ NULL ->
  SetupSceneLights st = Ok (tt, emit light_rig_uploads st).
Proof.
  intros Hp. unfold SetupSceneLights, setBoolValue, setVec3Value.
  do 11 (erewrite bind_Ok; [|by apply via_shader_emit]).
  unfold for_range. simpl.
  do 4 (erewrite bind_Ok; [|by apply via_shader_emit]).
  unfold mret, M_ret. rewrite !emit_emit. reflexivity.
Qed.

(** C7: [SetupSceneLights] uploads the flag of point light 0 as true and
    the flags of point lights 1 to 4 as false; these five are the only
    point-light flags among its uploads, so one slot is active. *)
Theorem SetupSceneLights_one_active_point_light st :
  m_pShaderManager (this st) ≠ NULL ->
  ∃ st', SetupSceneLights st = Ok (tt, st') ∧
    trace (world st') = trace (world st) ++ light_rig_uploads ∧
    bool_uploads (light_rig_uploads (float := float) (mat4 := mat4)) =
      [("bUseLighting", true); ("directionalLight.bActive", true);
       ("pointLights[0].bActive", true); ("pointLights[1].bActive", false);
       ("pointLights[2].bActive", false); ("pointLights[3].bActive", false);
       ("pointLights[4].bActive", false)] ∧
    current_uniform (point_light_active 0) (trace (world st'))
      = Some (EvSetBoolValue (point_light_active 0) true) ∧
    ∀ i, 1 ≤ i ≤ 4 ->
      current_uniform (point_light_active i) (trace (world st'))
      = Some (EvSetBoolValue (point_light_active i) false).
Proof.
  intros Hp. eexists. split; [by apply SetupSceneLights_emit|].
  rewrite trace_emit. split_and!; [done..| |].
  - rewrite current_uniform_app. reflexivity.
  - intros i Hi. rewrite current_uniform_app.
    assert (i = 1 ∨ i = 2 ∨ i = 3 ∨ i = 4) as [->|[->|[->| ->]]] by lia;
      reflexivity.
Qed.

(** ** Lookups in the registry: the loops find the first match *)


Lemma FindTextureSlot_loop_first s tag n k :
  (k + n ≤ length (m_textureIDs s))%nat ->
  FindTextureSlot_loop s tag n (Z.of_nat k) =
    Ok (match list_find (fun e => tex_tag e = tag) (take n (drop k (m_textureIDs s))) with
        | Some (i, _) => Z.of_nat (k + i)
        | None => -1
        end).
Proof.
  revert k. induction n as [|n IH]; intros k Hk; [done|].
  simpl. rewrite Nat2Z.id.
  destruct (lookup_lt_is_Some_2 (m_textureIDs s) k) as [e He]; [lia|].
  rewrite He, (drop_S _ _ _ He). simpl.
  destruct (String.eqb_spec (tex_tag e) tag) as [Heq|Hne].
  - rewrite decide_True by done. simpl. by rewrite Nat.add_0_r.
  - rewrite decide_False by done.
    replace (Z.of_nat k + 1) with (Z.of_nat (S k)) by lia.
    rewrite IH by lia.
    destruct (list_find _ _) as [[i x]|]; simpl; [|done].
    do 2 f_equal. lia.
Qed.

Lemma FindTextureID_loop_first s tag n k :
  (k + n ≤ length (m_textureIDs s))%nat ->
  FindTextureID_loop s tag n (Z.of_nat k) =
    Ok (match list_find (fun e => tex_tag e = tag) (take n (drop k (m_textureIDs s))) with
        | Some (_, e) => int_of_GLuint (tex_ID e)
        | None => -1
        end).
Proof.
  revert k. induction n as [|n IH]; intros k Hk; [done|].
  simpl. rewrite Nat2Z.id.
  destruct (lookup_lt_is_Some_2 (m_textureIDs s) k) as [e He]; [lia|].
  rewrite He, (drop_S _ _ _ He). simpl.
  destruct (String.eqb_spec (tex_tag e) tag) as [Heq|Hne].
  - by rewrite decide_True by done.
  - rewrite decide_False by done.
    replace (Z.of_nat k + 1) with (Z.of_nat (S k)) by lia.
    rewrite IH by lia.
    by destruct (list_find _ _) as [[i x]|].
Qed.

Lemma FindTextureSlot_first s tag :
  registry_in_bounds s -> FindTextureSlot s tag = Ok (texture_slot s tag).
Proof.
  intros Hb. unfold FindTextureSlot, texture_slot, first_tagged, registered.
  change 0 with (Z.of_nat 0). rewrite FindTextureSlot_loop_first.
  - by rewrite drop_0.
  - unfold registry_in_bounds in Hb. lia.
Qed.

Lemma FindTextureID_first s tag :
  registry_in_bounds s -> FindTextureID s tag = Ok (texture_id s tag).
Proof.
  intros Hb. unfold FindTextureID, texture_id, first_tagged, registered.
  change 0 with (Z.of_nat 0). rewrite FindTextureID_loop_first.
  - by rewrite drop_0.
  - unfold registry_in_bounds in Hb. lia.
Qed.

(** ** What a successful [CreateGLTexture] does to the registry *)

Lemma write_texture_Ok index f st :
  0 ≤ index < Z.of_nat (length (m_textureIDs (this st))) ->
  write_texture index f st =
    Ok (tt, {| this := with_textureIDs (alter f (Z.to_nat index) (m_textureIDs (this st)))
                                       (this st);
               world := world st |}).
Proof.
  intros Hi. unfold write_texture, mbind, M_bind, gets. simpl.
  by rewrite decide_True by done.
Qed.

Lemma write_texture_Fault index f st :
  ¬ (0 ≤ index < Z.of_nat (length (m_textureIDs (this st)))) ->
  write_texture index f st = Fault OutOfBounds.
Proof.
  intros Hi. unfold write_texture, mbind, M_bind, gets. simpl.
  by rewrite decide_False by done.
Qed.

Lemma alter_tag_ID (l : list TEXTURE_INFO) i tag name :
  alter (set_tag tag) i (alter (set_ID name) i l)
  = <[i := {| tex_tag := tag; tex_ID := name |}]> l.
Proof.
  rewrite list_alter_alter_eq, list_insert_alter.
  by apply list_alter_ext.
Qed.

(** The part of [CreateGLTexture] after the channel test. *)
Lemma CreateGLTexture_cases st filename tag :
  match lookup_file (disk (world st)) filename with
  | None => ∃ st', CreateGLTexture filename tag st = Ok (false, st') ∧
                   this st' = this st ∧
                   gl_next_name (world st') = gl_next_name (world st)
  | Some img =>
      if decide (img_channels img = 3 ∨ img_channels img = 4) then
        let n := m_loadedTextures (this st) in
        if decide (0 ≤ n < Z.of_nat (length (m_textureIDs (this st)))) then
          ∃ st', CreateGLTexture filename tag st = Ok (true, st') ∧
            m_pShaderManager (this st') = m_pShaderManager (this st) ∧
            m_objectMaterials (this st') = m_objectMaterials (this st) ∧
            m_loadedTextures (this st') = n + 1 ∧
            m_textureIDs (this st') =
              <[Z.to_nat n := {| tex_tag := tag; tex_ID := gl_next_name (world st) |}]>
                (m_textureIDs (this st)) ∧
            gl_next_name (world st') = gl_next_name (world st) + 1 ∧
            gl_textures (world st') = gl_textures (world st) ++ [gl_next_name (world st)]
        else CreateGLTexture filename tag st = Fault OutOfBounds
      else ∃ st', CreateGLTexture filename tag st = Ok (false, st') ∧
                  this st' = this st ∧
                  gl_next_name (world st') = gl_next_name (world st) + 1
  end.
Proof.
  unfold CreateGLTexture.
  erewrite bind_Ok by reflexivity.
  erewrite bind_Ok by reflexivity. cbn [disk world world_log].
  destruct (lookup_file (disk (world st)) filename) as [img|]; [|eexists; split; [reflexivity|done]].
  do 6 (erewrite bind_Ok by reflexivity).
  destruct (Z.eqb_spec (img_channels img) 3) as [H3|H3];
    [|destruct (Z.eqb_spec (img_channels img) 4) as [H4|H4]].
  3: { rewrite decide_False by lia. eexists; split; [reflexivity|done]. }
  all: rewrite (decide_True (P := _ ∨ _)) by auto.
  all: cbv zeta.
  all: do 5 (erewrite bind_Ok by reflexivity).
  all: cbn [this m_loadedTextures].
  all: destruct (decide (0 ≤ m_loadedTextures (this st) < _)) as [Hn|Hn].
  all: try (erewrite bind_Fault; [done|]; by apply write_texture_Fault).
  all: erewrite bind_Ok by (by apply write_texture_Ok).
  all: erewrite bind_Ok by reflexivity.
  all: erewrite bind_Ok by (apply write_texture_Ok; simpl; by rewrite length_alter).
  all: erewrite bind_Ok by reflexivity.
  all: eexists; split; [reflexivity|]; simpl.
  all: by rewrite alter_tag_ID.
Qed.

Lemma CreateGLTexture_true st filename tag st' :
  CreateGLTexture filename tag st = Ok (true, st') ->
  let n := m_loadedTextures (this st) in
  0 ≤ n < Z.of_nat (length (m_textureIDs (this st))) ∧
  m_loadedTextures (this st') = n + 1 ∧
  m_textureIDs (this st') =
    <[Z.to_nat n := {| tex_tag := tag; tex_ID := gl_next_name (world st) |}]>
      (m_textureIDs (this st)) ∧
  gl_next_name (world st') = gl_next_name (world st) + 1.
Proof.
  intros Hload n. pose proof (CreateGLTexture_cases st filename tag) as Hc.
  destruct (lookup_file _ _) as [img|].
  - destruct (decide (_ ∨ _)).
    + simpl in Hc. destruct (decide _) as [Hn|Hn].
      * destruct Hc as (st1 & Hst1 & _ & _ & ? & ? & ? & _).
        rewrite Hload in Hst1. by simplify_eq.
      * rewrite Hload in Hc. done.
    + destruct Hc as (st1 & Hst1 & _). rewrite Hload in Hst1. done.
  - destruct Hc as (st1 & Hst1 & _). rewrite Hload in Hst1. done.
Qed.

Lemma registered_snoc s s' (new : TEXTURE_INFO) :
  0 ≤ m_loadedTextures s < Z.of_nat (length (m_textureIDs s)) ->
  m_loadedTextures s' = m_loadedTextures s + 1 ->
  m_textureIDs s' = <[Z.to_nat (m_loadedTextures s) := new]> (m_textureIDs s) ->
  registered s' = registered s ++ [new].
Proof.
  intros Hn Hcount Harr. unfold registered. rewrite Hcount, Harr.
  replace (Z.to_nat (m_loadedTextures s + 1)) with (S (Z.to_nat (m_loadedTextures s)))
    by lia.
  rewrite (take_S_r _ _ new) by (apply list_lookup_insert_eq; lia).
  by rewrite take_insert_ge by lia.
Qed.

Lemma CreateGLTexture_registered st filename tag st' :
  CreateGLTexture filename tag st = Ok (true, st') ->
  registered (this st') =
    registered (this st) ++ [{| tex_tag := tag; tex_ID := gl_next_name (world st) |}] ∧
  registry_in_bounds (this st').
Proof.
  intros (Hn & Hcount & Harr & _)%CreateGLTexture_true. split.
  - by apply registered_snoc.
  - unfold registry_in_bounds. rewrite Hcount, Harr, length_insert. lia.
Qed.

(** The registry and the GL context stay consistent across loads. *)
Lemma new_SceneManager_registry_inv p (w : World float mat4) :
  0 < gl_next_name w ->
  registry_inv {| this := new_SceneManager p; world := w |}.
Proof.
  intros Hw. unfold registry_inv. simpl.
  split_and!; [done|done|done|done|]. intros e He. by apply elem_of_nil in He.
Qed.


(** A readable 3- or 4-channel image is registered when a slot is left. *)
Lemma CreateGLTexture_succeeds st filename tag img :
  lookup_file (disk (world st)) filename = Some img ->
  img_channels img = 3 ∨ img_channels img = 4 ->
  0 ≤ m_loadedTextures (this st) < Z.of_nat (length (m_textureIDs (this st))) ->
  ∃ st', CreateGLTexture filename tag st = Ok (true, st').
Proof.
  intros Hfile Hch Hn. pose proof (CreateGLTexture_cases st filename tag) as Hc.
  rewrite Hfile, decide_True in Hc by done. simpl in Hc.
  rewrite decide_True in Hc by done. destruct Hc as (st' & ? & _). eauto.
Qed.

(** With all slots taken, the next registration writes past the array. *)
Lemma CreateGLTexture_registry_full st filename tag img :
  lookup_file (disk (world st)) filename = Some img ->
  img_channels img = 3 ∨ img_channels img = 4 ->
  m_loadedTextures (this st) = Z.of_nat (length (m_textureIDs (this st))) ->
  CreateGLTexture filename tag st = Fault OutOfBounds.
Proof.
  intros Hfile Hch Hn. pose proof (CreateGLTexture_cases st filename tag) as Hc.
  rewrite Hfile, decide_True in Hc by done. simpl in Hc.
  by rewrite decide_False in Hc by lia.
Qed.

(** C9: a load under a tag that is already registered (of a readable
    image with 3 or 4 channels, a slot being left) returns [true] and
    appends a second entry with that tag; [FindTextureSlot] and
    [FindTextureID] return, as before the load, the index and the name
    of the first entry with the tag, which was registered earlier. *)
Theorem CreateGLTexture_duplicate_tag st filename tag img old :
  old ∈ registered (this st) ->
  tex_tag old = tag ->
  lookup_file (disk (world st)) filename = Some img ->
  img_channels img = 3 ∨ img_channels img = 4 ->
  m_loadedTextures (this st) < Z.of_nat (length (m_textureIDs (this st))) ->
  ∃ st' i e,
    CreateGLTexture filename tag st = Ok (true, st') ∧
    registered (this st') =
      registered (this st) ++ [{| tex_tag := tag; tex_ID := gl_next_name (world st) |}] ∧
    (i < length (registered (this st)))%nat ∧
    registered (this st) !! i = Some e ∧
    registered (this st') !! i = Some e ∧
    tex_tag e = tag ∧
    (∀ j e', registered (this st') !! j = Some e' -> tex_tag e' = tag -> (i ≤ j)%nat) ∧
    FindTextureSlot (this st') tag = Ok (Z.of_nat i) ∧
    FindTextureID (this st') tag = Ok (int_of_GLuint (tex_ID e)) ∧
    FindTextureSlot (this st) tag = Ok (Z.of_nat i) ∧
    FindTextureID (this st) tag = Ok (int_of_GLuint (tex_ID e)).
Proof.
  intros Hold Htag Hfile Hch Hroom.
  assert (0 ≤ m_loadedTextures (this st)) as Hpos.
  { unfold registered in Hold.
    destruct (Z.to_nat (m_loadedTextures (this st))) eqn:Hn; [|lia].
    rewrite take_0 in Hold. by apply elem_of_nil in Hold. }
  destruct (CreateGLTexture_succeeds st filename tag img) as [st' Hload];
    [done|done|lia|].
  destruct (CreateGLTexture_registered _ _ _ _ Hload) as [Hreg Hb'].
  assert (registry_in_bounds (this st)) as Hb by (unfold registry_in_bounds; lia).
  destruct (list_find_elem_of (fun e => tex_tag e = tag) (registered (this st)) old)
    as [[i e] Hfind]; [done..|].
  pose proof (list_find_app_l _ _ [{| tex_tag := tag; tex_ID := gl_next_name (world st) |}]
                _ _ Hfind) as Hfind'.
  rewrite <- Hreg in Hfind'.
  exists st', i, e.
  rewrite (FindTextureSlot_first _ _ Hb), (FindTextureSlot_first _ _ Hb').
  rewrite (FindTextureID_first _ _ Hb), (FindTextureID_first _ _ Hb').
  unfold texture_slot, texture_id, first_tagged. rewrite Hfind, Hfind'.
  apply list_find_Some in Hfind as (Hi & He & _).
  apply list_find_Some in Hfind' as (Hi' & _ & Hleast).
  split_and!; try done.
  - by eapply lookup_lt_Some.
  - intros j e' Hj Hj'. destruct (decide (i ≤ j)%nat); [done|].
    destruct (Hleast j e' Hj); [lia|done].
Qed.

(** ** Shader state setters with a shader manager *)

Lemma SetTransformations_emit st scaleXYZ xdeg ydeg zdeg positionXYZ :
  m_pShaderManager (this st) ≠ NULL ->
  SetTransformations scaleXYZ xdeg ydeg zdeg positionXYZ st
  = Ok (tt, emit [EvSetMat4Value g_ModelName
                    (model_matrix scaleXYZ xdeg ydeg zdeg positionXYZ)] st).
Proof.
  intros Hp. unfold SetTransformations. erewrite bind_Ok by reflexivity.
  destruct (m_pShaderManager (this st)) eqn:Hq; [done|]. simpl.
  unfold setMat4Value. rewrite via_shader_emit by (by rewrite Hq). done.
Qed.

Lemma FindMaterial_loop_first (l : list (OBJECT_MATERIAL float)) tag m :
  let found := FindMaterial_loop l tag m in
  let source := match list_find (fun e => mat_tag e = tag) l with
                | Some (_, e) => e
                | None => m
                end in
  diffuseColor found = diffuseColor source ∧
  specularColor found = specularColor source ∧
  shininess found = shininess source.
Proof.
  induction l as [|e l IH]; simpl; [done|].
  destruct (String.eqb_spec (mat_tag e) tag) as [Heq|Hne].
  - by rewrite decide_True by done.
  - rewrite decide_False by done. simpl in IH.
    by destruct (list_find _ l) as [[i x]|].
Qed.

Lemma SetShaderMaterial_emit st tag :
  m_pShaderManager (this st) ≠ NULL ->
  SetShaderMaterial tag st
  = Ok (tt, emit (material_uploads (m_objectMaterials (this st))
                                   (indeterminate_material (world st)) tag) st).
Proof.
  intros Hp. unfold SetShaderMaterial. erewrite bind_Ok by reflexivity. unfold id.
  destruct (m_objectMaterials (this st)) as [|m0 table] eqn:Htable.
  { rewrite decide_False by (simpl; lia). by rewrite emit_nil. }
  rewrite decide_True by (simpl; lia).
  erewrite bind_Ok by reflexivity.
  unfold FindMaterial. rewrite Htable, decide_False by done.
  destruct (FindMaterial_loop_first (m0 :: table) tag (indeterminate_material (world st)))
    as (-> & -> & ->).
  unfold setVec3Value, setFloatValue.
  do 2 (erewrite bind_Ok; [|by apply via_shader_emit]).
  rewrite via_shader_emit by done. by rewrite !emit_emit.
Qed.

Lemma SetShaderTexture_emit st tag :
  m_pShaderManager (this st) ≠ NULL ->
  registry_in_bounds (this st) ->
  SetShaderTexture tag st
  = Ok (tt, emit [EvSetIntValue g_UseTextureName 1;
                  EvSetSampler2DValue g_TextureValueName (texture_slot (this st) tag)] st).
Proof.
  intros Hp Hb. unfold SetShaderTexture. erewrite bind_Ok by reflexivity.
  destruct (m_pShaderManager (this st)) eqn:Hq; [done|]. simpl.
  unfold setIntValue, setSampler2DValue.
  erewrite bind_Ok; [|apply via_shader_emit; by rewrite Hq].
  erewrite bind_Ok by reflexivity.
  erewrite bind_Ok;
    [|unfold id; rewrite this_emit, (FindTextureSlot_first _ _ Hb); reflexivity].
  rewrite via_shader_emit by (by rewrite this_emit, Hq). by rewrite emit_emit.
Qed.

Lemma SetTextureUVScale_emit st u v :
  m_pShaderManager (this st) ≠ NULL ->
  SetTextureUVScale u v st = Ok (tt, emit [EvSetVec2Value "UVscale" (Vec2 u v)] st).
Proof.
  intros Hp. unfold SetTextureUVScale. erewrite bind_Ok by reflexivity.
  destruct (m_pShaderManager (this st)) eqn:Hq; [done|]. simpl.
  unfold setVec2Value. by rewrite via_shader_emit by (by rewrite Hq).
Qed.

(** ** The keyboard *)

Lemma concat_map_concat {A B C : Type} (f : B -> list C) (g : A -> list B) (l : list A) :
  concat (map f (concat (map g l))) = concat (map (fun a => concat (map f (g a))) l).
Proof.
  induction l as [|a l IH]; simpl; [done|].
  by rewrite map_app, concat_app, IH.
Qed.

Lemma part_events_one_draw st (p : ObjectPart float) :
  filter (fun e => is_draw e = true) (part_events st p) = [EvDrawMesh (part_mesh p)].
Proof.
  unfold part_events, material_uploads.
  by destruct (m_objectMaterials (this st)).
Qed.

Lemma draws_of_parts st (l : list (ObjectPart float)) :
  filter (fun e => is_draw e = true) (concat (map (part_events st) l))
  = map (fun p => EvDrawMesh (part_mesh p)) l.
Proof.
  induction l as [|p l IH]; [done|].
  cbn [map concat]. by rewrite filter_app, part_events_one_draw, IH.
Qed.

Lemma keyboard_keys_by_index :
  keyboard_keys (float := float) =
    map (fun k => key_part (k `mod` 17) (k `div` 17)) (seqZ 0 102).
Proof. reflexivity. Qed.

Lemma keyboard_keys_lookup i j :
  0 ≤ i < 17 -> 0 ≤ j < 6 ->
  keyboard_keys (float := float) !! Z.to_nat (17 * j + i) = Some (key_part i j).
Proof.
  intros Hi Hj. rewrite keyboard_keys_by_index.
  change (map ?f ?l) with (f <$> l).
  rewrite list_lookup_fmap, lookup_seqZ_lt by lia.
  rewrite Z.add_0_l, Z2Nat.id by lia.
  cbn [fmap option_fmap option_map]. cbv beta.
  rewrite <- (Z.mod_unique (17 * j + i) 17 j i) by lia.
  by rewrite <- (Z.div_unique (17 * j + i) 17 j i) by lia.
Qed.

(** One object part with a box mesh, as [RenderKeyboard] issues it. *)
Lemma draw_box_part st0 es (p : ObjectPart float) :
  m_pShaderManager (this st0) ≠ NULL ->
  registry_in_bounds (this st0) ->
  part_mesh p = BoxMesh ->
  (SetTransformations (part_scale p) (part_Xrotation p) (part_Yrotation p)
                      (part_Zrotation p) (part_position p);;
   SetShaderMaterial (part_material p);;
   SetShaderTexture (part_texture p);;
   SetTextureUVScale (v2_x (part_UVscale p)) (v2_y (part_UVscale p));;
   DrawBoxMesh) (emit es st0)
  = Ok (tt, emit (part_events st0 p) (emit es st0)).
Proof.
  intros Hp Hb Hmesh.
  erewrite bind_Ok; [|by apply SetTransformations_emit].
  erewrite bind_Ok; [|by apply SetShaderMaterial_emit].
  erewrite bind_Ok; [|by apply SetShaderTexture_emit].
  erewrite bind_Ok; [|by apply SetTextureUVScale_emit].
  unfold DrawBoxMesh. rewrite log_emit, !emit_emit. unfold part_events.
  rewrite Hmesh. by destruct (part_UVscale p).
Qed.

Lemma RenderKeyboard_emit st :
  m_pShaderManager (this st) ≠ NULL ->
  registry_in_bounds (this st) ->
  RenderKeyboard st
  = Ok (tt, emit (part_events st keyboard_base
                  ++ concat (map (part_events st) keyboard_keys)) st).
Proof.
  intros Hp Hb. unfold RenderKeyboard. cbv zeta.
  erewrite bind_Ok; [|by apply SetTransformations_emit].
  erewrite bind_Ok; [|by apply SetShaderMaterial_emit].
  erewrite bind_Ok; [|by apply SetShaderTexture_emit].
  erewrite bind_Ok; [|by apply SetTextureUVScale_emit].
  erewrite bind_Ok; [|by apply log_emit].
  rewrite !emit_emit. unfold for_range.
  set (P := fun st' : State float mat4 => ∃ es, st' = emit es st).
  assert (∀ st' es, P st' -> P (emit es st')) as HP.
  { intros st' es' [es ->]. exists (es ++ es'). by rewrite emit_emit. }
  rewrite (for_loop_emit _
             (fun j => concat (map (fun i => part_events st (key_part i j)) (seqZ 0 17))) P).
  - rewrite emit_emit. unfold keyboard_keys. rewrite concat_map_concat.
    do 2 f_equal.
  - done.
  - intros j st' Hst'. apply (for_loop_emit _ _ P HP); [|done].
    intros i st'' [es ->]. by apply (draw_box_part st es (key_part i j)).
  - by eexists.
Qed.

(** C5: with a shader manager and a registry within its array,
    [RenderKeyboard] sends the calls of the keyboard base and then those
    of 102 keys, row by row; key [17 * j + i] is the key of column [i]
    and row [j], placed at [(-4 + i/2, 10.5, -1 + j/2)] with scale
    [(0.35, 0.35, 0.35)], material tag ["whiteMat"] and texture tag
    ["white"]; each key ends in one draw call, so 102 key draws. *)
Theorem RenderKeyboard_key_grid st :
  m_pShaderManager (this st) ≠ NULL ->
  registry_in_bounds (this st) ->
  RenderKeyboard st
    = Ok (tt, emit (part_events st keyboard_base
                    ++ concat (map (part_events st) keyboard_keys)) st) ∧
  length (keyboard_keys (float := float)) = 102%nat ∧
  filter (fun e => is_draw e = true) (concat (map (part_events st) keyboard_keys))
    = replicate 102 (EvDrawMesh BoxMesh) ∧
  ∀ i j, 0 ≤ i < 17 -> 0 ≤ j < 6 ->
    keyboard_keys !! Z.to_nat (17 * j + i) = Some (key_part i j) ∧
    part_position (key_part i j)
      = Vec3 (fadd (flit (-4.0)) (fdiv (float_of_int i) (flit 2.0)))
             (flit 10.5)
             (fadd (flit (-1.0)) (fdiv (float_of_int j) (flit 2.0))) ∧
    part_scale (key_part i j) = Vec3 (flit 0.35) (flit 0.35) (flit 0.35) ∧
    part_material (key_part i j) = "whiteMat" ∧
    part_texture (key_part i j) = "white" ∧
    part_mesh (key_part i j) = BoxMesh ∧
    filter (fun e => is_draw e = true) (part_events st (key_part i j))
      = [EvDrawMesh BoxMesh].
Proof.
  intros Hp Hb. split_and!.
  - by apply RenderKeyboard_emit.
  - reflexivity.
  - rewrite draws_of_parts. reflexivity.
  - intros i j Hi Hj. split_and!; try reflexivity.
    + by apply keyboard_keys_lookup.
    + by rewrite part_events_one_draw.
Qed.

(** ** The missing tag and the teardown *)

(** [FindMaterial] reports success for every tag once the table is not
    empty, so [SetShaderMaterial] uploads the uninitialised local when
    the tag is absent. *)
Lemma SetShaderMaterial_absent_tag st tag :
  m_pShaderManager (this st) ≠ NULL ->
  m_objectMaterials (this st) ≠ [] ->
  Forall (fun m => mat_tag m ≠ tag) (m_objectMaterials (this st)) ->
  let garbage := indeterminate_material (world st) in
  fst (FindMaterial (this st) tag garbage) = true ∧
  SetShaderMaterial tag st
  = Ok (tt, emit [EvSetVec3Value "material.diffuseColor" (diffuseColor garbage);
                  EvSetVec3Value "material.specularColor" (specularColor garbage);
                  EvSetFloatValue "material.shininess" (shininess garbage)] st).
Proof.
  intros Hp Hne Habsent garbage. split.
  - unfold FindMaterial. destruct (m_objectMaterials (this st)); [done|].
    by rewrite decide_False by done.
  - rewrite SetShaderMaterial_emit by done. unfold material_uploads.
    apply (list_find_None (fun e => mat_tag e = tag)) in Habsent.
    rewrite Habsent. by destruct (m_objectMaterials (this st)).
Qed.

Lemma for_loop_inv (body : Z -> M unit) (P : State float mat4 -> Prop) :
  (∀ i st st', P st -> body i st = Ok (tt, st') -> P st') ->
  ∀ n lo st st', P st -> for_loop n lo body st = Ok (tt, st') -> P st'.
Proof.
  intros Hbody n. induction n as [|n IH]; intros lo st st' Hst Hrun.
  - simpl in Hrun. unfold mret, M_ret in Hrun. by simplify_eq.
  - simpl in Hrun. unfold mbind, M_bind in Hrun.
    destruct (body lo st) as [[[] st1]|] eqn:Hstep; [|done].
    eapply IH; [|exact Hrun]. by eapply Hbody.
Qed.

(** [DestroyGLTextures] only asks the GL context for new names: every
    texture allocated before the call is allocated after it, and the
    call adds no [glDeleteTextures] to the trace. *)
Lemma DestroyGLTextures_keeps_textures st st' :
  DestroyGLTextures st = Ok (tt, st') ->
  gl_textures (world st) ⊆ gl_textures (world st') ∧
  filter (fun e => is_delete e = true) (trace (world st'))
  = filter (fun e => is_delete e = true) (trace (world st)).
Proof.
  unfold DestroyGLTextures, for_range. rewrite (bind_Ok _ _ _ _ st eq_refl).
  apply (for_loop_inv _ (fun st1 =>
    gl_textures (world st) ⊆ gl_textures (world st1) ∧
    filter (fun e => is_delete e = true) (trace (world st1))
    = filter (fun e => is_delete e = true) (trace (world st)))); [|done].
  intros i st1 st2 [Hsub Hdel] Hstep.
  erewrite bind_Ok in Hstep by reflexivity.
  unfold write_texture in Hstep. erewrite bind_Ok in Hstep by reflexivity.
  cbn [id this] in Hstep. destruct (decide _); [|done].
  unfold put_this in Hstep. simplify_eq. simpl. split.
  - intros name Hname. apply elem_of_app. left. by apply Hsub.
  - by rewrite filter_app, Hdel, app_nil_r.
Qed.
End Properties.

(** ** The model at concrete inputs *)

(** On the exact interpretation the keys sit on the half-integer grid. *)
Example key_position_3_2 :
  let p := part_position (key_part (float := Q) 3 2) in
  (v3_x p == -5 # 2)%Q ∧ (v3_y p == 21 # 2)%Q ∧ (v3_z p == 0)%Q.
Proof. by vm_compute. Qed.

Example prepared_registry :
  registered (this prepared) =
    [{| tex_tag := "wood"; tex_ID := 1 |};
     {| tex_tag := "black_wood"; tex_ID := 2 |};
     {| tex_tag := "black_metal"; tex_ID := 3 |};
     {| tex_tag := "monitor_screen"; tex_ID := 4 |};
     {| tex_tag := "white"; tex_ID := 5 |}].
Proof. reflexivity. Qed.

(** C1 (the code uploads): with the five materials defined and
    ["woodMat"] uploaded, [SetShaderMaterial "nonexistent"] appends three
    material uploads, taken from the uninitialised local, and the
    shininess uniform changes from 32 to what that local held. *)
Theorem SetShaderMaterial_nonexistent_uploads :
  exec (DefineObjectMaterials;; SetShaderMaterial "woodMat") state0
    = Some wood_material_set ∧
  m_pShaderManager (this wood_material_set) ≠ NULL ∧
  map mat_tag (m_objectMaterials (this wood_material_set))
    = ["woodMat"; "blackWoodMat"; "blackMetalMat"; "monitorScreenMat"; "whiteMat"] ∧
  current_uniform "material.shininess" (trace (world wood_material_set))
    = Some (EvSetFloatValue "material.shininess" 32.0%Q) ∧
  ∃ st', SetShaderMaterial "nonexistent" wood_material_set = Ok (tt, st') ∧
    trace (world st') =
      trace (world wood_material_set)
      ++ [EvSetVec3Value "material.diffuseColor" (diffuseColor garbage);
          EvSetVec3Value "material.specularColor" (specularColor garbage);
          EvSetFloatValue "material.shininess" (shininess garbage)] ∧
    current_uniform "material.shininess" (trace (world st'))
      = Some (EvSetFloatValue "material.shininess" 9%Q).
Proof.
  split_and!; [reflexivity | done | reflexivity | reflexivity |].
  eexists. split_and!; [vm_compute; reflexivity| reflexivity | reflexivity].
Qed.

(** C2 (the code releases nothing): with two textures registered,
    [DestroyGLTextures] calls [glGenTextures] twice and never
    [glDeleteTextures]; names 1 and 2 stay allocated, two more are
    allocated, and the registry now holds the new names. *)
Theorem DestroyGLTextures_generates_names :
  exec (CreateGLTexture "textures/wood_texture.jpg" "wood";;
        CreateGLTexture "rgba.png" "white") state0 = Some two_textures ∧
  registered (this two_textures)
    = [{| tex_tag := "wood"; tex_ID := 1 |}; {| tex_tag := "white"; tex_ID := 2 |}] ∧
  gl_textures (world two_textures) = [1; 2] ∧
  ∃ st', DestroyGLTextures two_textures = Ok (tt, st') ∧
    trace (world st') = trace (world two_textures) ++ [EvGlGenTextures 3; EvGlGenTextures 4] ∧
    filter (fun e => is_delete e = true) (trace (world st')) = [] ∧
    gl_textures (world st') = [1; 2; 3; 4] ∧
    registered (this st')
      = [{| tex_tag := "wood"; tex_ID := 3 |}; {| tex_tag := "white"; tex_ID := 4 |}].
Proof.
  split_and!; [reflexivity | reflexivity | reflexivity |].
  eexists. split_and!; [vm_compute; reflexivity | reflexivity..].
Qed.

(** C3 (the code has no cap): after sixteen registrations the counter is
    16, the length of the array, and a seventeenth load of a readable
    RGB image writes [m_textureIDs[16]], outside the array. *)
Theorem seventeenth_texture_overruns_array :
  exec (for_range 0 16 (fun i =>
          CreateGLTexture "textures/wood_texture.jpg" (pretty i);; mret tt)) state0
    = Some sixteen_textures ∧
  m_loadedTextures (this sixteen_textures) = 16 ∧
  length (m_textureIDs (this sixteen_textures)) = m_textureIDs_capacity ∧
  length (registered (this sixteen_textures)) = 16%nat ∧
  lookup_file (disk (world sixteen_textures)) "textures/wood_texture.jpg" = Some rgb_image ∧
  CreateGLTexture "textures/wood_texture.jpg" "one_more" sixteen_textures
    = Fault OutOfBounds.
Proof. split_and!; reflexivity. Qed.

(** ** The theorems at concrete states *)

Lemma null_shader_manager_guard_asymmetry_witness :
  m_pShaderManager (this materials_without_shader) = NULL ∧
  m_objectMaterials (this materials_without_shader) ≠ [] ∧
  SetTransformations (Vec3 (flit 20.0) (flit 1.0) (flit 20.0))(flit 90.0) (flit 0.0) (flit 0.0) (Vec3 (flit 0.0) (flit 15.0) (flit (-15.0)))
    materials_without_shader = Ok (tt, materials_without_shader) ∧
  SetShaderTexture "wood" materials_without_shader = Ok (tt, materials_without_shader) ∧
  SetShaderMaterial "woodMat" materials_without_shader = Fault NullDereference ∧
  SetupSceneLights materials_without_shader = Fault NullDereference.
Proof.
  assert (m_pShaderManager (this materials_without_shader) = NULL) as Hnull
    by reflexivity.
  assert (m_objectMaterials (this materials_without_shader) ≠ []) as Hmat
    by (vm_compute; discriminate).
  destruct (null_shader_manager_guard_asymmetry materials_without_shader Hnull)
    as (Htr & _ & Htex & _ & Hmaterial & Hlights).
  split_and!; [exact Hnull|exact Hmat|apply Htr|apply Htex|by apply Hmaterial|exact Hlights].
Defined.

Lemma SetTransformations_uploads_model_matrix_witness :
  m_pShaderManager (this state0) ≠ NULL ∧
  SetTransformations (Vec3 (flit 20.0) (flit 1.0) (flit 20.0))(flit 90.0) (flit 0.0) (flit 0.0) (Vec3 (flit 0.0) (flit 15.0) (flit (-15.0))) state0
  = Ok (tt, emit [EvSetMat4Value "model"
                    (MMul (MMul (MMul (MMul
                       (MTranslate (Vec3 (flit 0.0) (flit 15.0) (flit (-15.0))) )
                       (MRotate (glm_radians (flit 0.0))
                                (Vec3 (flit 0.0) (flit 0.0) (flit 1.0)) ))
                       (MRotate (glm_radians (flit 0.0))
                                (Vec3 (flit 0.0) (flit 1.0) (flit 0.0)) ))
                       (MRotate (glm_radians (flit 90.0))
                                (Vec3 (flit 1.0) (flit 0.0) (flit 0.0)) ))
                       (MScale (Vec3 (flit 20.0) (flit 1.0) (flit 20.0)) ))] state0).
Proof.
  assert (m_pShaderManager (this state0) ≠ NULL) as Hp by discriminate.
  split; [exact Hp|].
  exact (proj1 (proj2 (SetTransformations_uploads_model_matrix state0
    (Vec3 (flit 20.0) (flit 1.0) (flit 20.0)) (flit 90.0) (flit 0.0) (flit 0.0) (Vec3 (flit 0.0) (flit 15.0) (flit (-15.0))) Hp))).
Defined.

Lemma RenderKeyboard_key_grid_witness :
  m_pShaderManager (this prepared) ≠ NULL ∧
  registry_in_bounds (this prepared) ∧
  RenderKeyboard prepared
    = Ok (tt, emit (part_events prepared keyboard_base
                    ++ concat (map (part_events prepared) keyboard_keys)) prepared) ∧
  keyboard_keys (float := Q) !! 37%nat = Some (key_part 3 2).
Proof.
  assert (m_pShaderManager (this prepared) ≠ NULL) as Hp by discriminate.
  assert (registry_in_bounds (this prepared)) as Hb
    by (unfold registry_in_bounds; vm_compute; discriminate).
  destruct (RenderKeyboard_key_grid prepared Hp Hb) as (Hrun & _ & _ & Hkeys).
  destruct (Hkeys 3 2 ltac:(lia) ltac:(lia)) as (Hkey & _).
  split_and!; [exact Hp|exact Hb|exact Hrun|exact Hkey].
Defined.

Lemma CreateGLTexture_unsupported_channels_witness :
  lookup_file (disk (world state0)) "grey.jpg" = Some grey_image ∧
  img_channels grey_image ≠ 3 ∧ img_channels grey_image ≠ 4 ∧
  ∃ st', CreateGLTexture "grey.jpg" "grey" state0 = Ok (false, st') ∧
         this st' = this state0 ∧
         m_loadedTextures (this st') = m_loadedTextures (this state0) ∧
         registered (this st') = registered (this state0).
Proof.
  assert (lookup_file (disk (world state0)) "grey.jpg" = Some grey_image) as Hfile
    by reflexivity.
  assert (img_channels grey_image ≠ 3) as H3 by (simpl; lia).
  assert (img_channels grey_image ≠ 4) as H4 by (simpl; lia).
  split_and!; [exact Hfile|exact H3|exact H4|].
  exact (CreateGLTexture_unsupported_channels state0 "grey.jpg" "grey" grey_image
           Hfile H3 H4).
Defined.

Lemma SetupSceneLights_one_active_point_light_witness :
  m_pShaderManager (this state0) ≠ NULL ∧
  ∃ st', SetupSceneLights state0 = Ok (tt, st') ∧
    current_uniform "pointLights[0].bActive" (trace (world st'))
      = Some (EvSetBoolValue "pointLights[0].bActive" true) ∧
    current_uniform "pointLights[3].bActive" (trace (world st'))
      = Some (EvSetBoolValue "pointLights[3].bActive" false).
Proof.
  assert (m_pShaderManager (this state0) ≠ NULL) as Hp by discriminate.
  split; [exact Hp|].
  destruct (SetupSceneLights_one_active_point_light state0 Hp)
    as (st' & Hrun & _ & _ & H0 & Hrest).
  exists st'. split_and!; [exact Hrun|exact H0|exact (Hrest 3 ltac:(lia))].
Defined.

Lemma CreateGLTexture_duplicate_tag_witness :
  {| tex_tag := "wood"; tex_ID := 1 |} ∈ registered (this wood_once) ∧
  lookup_file (disk (world wood_once)) "rgba.png" = Some rgba_image ∧
  (img_channels rgba_image = 3 ∨ img_channels rgba_image = 4) ∧
  m_loadedTextures (this wood_once) < Z.of_nat (length (m_textureIDs (this wood_once))) ∧
  ∃ st',
    CreateGLTexture "rgba.png" "wood" wood_once = Ok (true, st') ∧
    registered (this st')
      = registered (this wood_once) ++ [{| tex_tag := "wood"; tex_ID := 2 |}] ∧
    FindTextureSlot (this st') "wood" = FindTextureSlot (this wood_once) "wood" ∧
    FindTextureID (this st') "wood" = FindTextureID (this wood_once) "wood".
Proof.
  assert ({| tex_tag := "wood"; tex_ID := 1 |} ∈ registered (this wood_once)) as Hold
    by (vm_compute; apply list_elem_of_here).
  assert (lookup_file (disk (world wood_once)) "rgba.png" = Some rgba_image) as Hfile
    by reflexivity.
  assert (img_channels rgba_image = 3 ∨ img_channels rgba_image = 4) as Hch
    by (right; reflexivity).
  assert (m_loadedTextures (this wood_once)
          < Z.of_nat (length (m_textureIDs (this wood_once)))) as Hroom
    by (vm_compute; reflexivity).
  destruct (CreateGLTexture_duplicate_tag wood_once "rgba.png" "wood" rgba_image
              _ Hold eq_refl Hfile Hch Hroom)
    as (st' & i & e & Hload & Hreg & _ & _ & _ & _ & _ & Hslot' & Hid' & Hslot & Hid).
  split_and!; [exact Hold|exact Hfile|exact Hch|exact Hroom|].
  exists st'. split_and!; [exact Hload|exact Hreg|congruence|congruence].
Defined.

(** * Further properties *)

Section MoreProperties.
Context {float mat4 : Type} `{FloatOps float} `{GLM float mat4}.

Implicit Types (st : State float mat4) (s : SceneManager float)
  (es : list (event float mat4)) (tag : string).

(** ** Lookups by tag *)

Lemma registered_lookup s (i : nat) e :
  registered s !! i = Some e ->
  m_textureIDs s !! i = Some e ∧ Z.of_nat i < m_loadedTextures s.
Proof.
  unfold registered. intros [Hi Hlt]%lookup_take_Some. split; [done|lia].
Qed.

(** X1: in a registry within its array, [FindTextureSlot] returns -1
    exactly when no registered entry carries the tag, and then
    [FindTextureID] returns -1 as well. *)
Theorem lookup_miss_iff_unregistered s tag :
  registry_in_bounds s ->
  (FindTextureSlot s tag = Ok (-1) ↔ Forall (fun e => tex_tag e ≠ tag) (registered s)) ∧
  (Forall (fun e => tex_tag e ≠ tag) (registered s) -> FindTextureID s tag = Ok (-1)).
Proof.
  intros Hb. rewrite (FindTextureSlot_first _ _ Hb), (FindTextureID_first _ _ Hb).
  unfold texture_slot, texture_id, first_tagged.
  rewrite <- (list_find_None (fun e => tex_tag e = tag)). split.
  - destruct (list_find _ _) as [[i e]|]; [|done]. split; [|done].
    intros [=]. lia.
  - by intros ->.
Qed.

(** X2: when [FindTextureSlot] returns a slot other than -1, that slot is
    below [m_loadedTextures], its entry carries the tag, no entry before
    it does, and [FindTextureID] returns the name stored in that entry. *)
Theorem lookup_hit_is_first_registered s tag k :
  registry_in_bounds s ->
  FindTextureSlot s tag = Ok k ->
  k ≠ -1 ->
  0 ≤ k < m_loadedTextures s ∧
  ∃ e, m_textureIDs s !! Z.to_nat k = Some e ∧
       tex_tag e = tag ∧
       FindTextureID s tag = Ok (int_of_GLuint (tex_ID e)) ∧
       ∀ j e', 0 ≤ j < k -> m_textureIDs s !! Z.to_nat j = Some e' -> tex_tag e' ≠ tag.
Proof.
  intros Hb. rewrite (FindTextureSlot_first _ _ Hb), (FindTextureID_first _ _ Hb).
  unfold texture_slot, texture_id, first_tagged.
  destruct (list_find _ _) as [[i e]|] eqn:Hfind; [|by intros [= <-]].
  intros [= <-] _. apply list_find_Some in Hfind as (Hi & Htag & Hleast).
  destruct (registered_lookup _ _ _ Hi) as [Harr Hlt].
  split; [lia|]. exists e. rewrite Nat2Z.id. split_and!; [done..|].
  intros j e' Hj Hj'. apply (Hleast (Z.to_nat j)); [|lia].
  unfold registered. apply lookup_take_Some. split; [done|lia].
Qed.

(** ** Loads *)

Ltac tidy_state :=
  cbn [this world world_log with_textureIDs m_pShaderManager m_textureIDs
       m_loadedTextures m_objectMaterials gl_next_name gl_textures disk
       indeterminate_material trace id].

Lemma CreateGLTexture_unreadable_state st filename tag :
  lookup_file (disk (world st)) filename = None ->
  CreateGLTexture filename tag st = Ok (false, emit [EvStbiSetFlip true] st).
Proof.
  intros Hfile. unfold CreateGLTexture.
  erewrite bind_Ok by reflexivity.
  erewrite bind_Ok by reflexivity. cbn [disk world world_log].
  by rewrite Hfile.
Qed.

Lemma CreateGLTexture_rejected_state st filename tag img :
  lookup_file (disk (world st)) filename = Some img ->
  img_channels img ≠ 3 -> img_channels img ≠ 4 ->
  CreateGLTexture filename tag st
  = Ok (false, {| this := this st;
                  world := allocate (rejected_load_events (gl_next_name (world st)))
                                    (world st) |}).
Proof.
  intros Hfile H3 H4. unfold CreateGLTexture.
  erewrite bind_Ok by reflexivity.
  erewrite bind_Ok by reflexivity. cbn [disk world world_log].
  rewrite Hfile. do 6 (erewrite bind_Ok by reflexivity).
  destruct (Z.eqb_spec (img_channels img) 3) as [|_]; [done|].
  destruct (Z.eqb_spec (img_channels img) 4) as [|_]; [done|].
  unfold mret, M_ret, allocate, world_log, rejected_load_events. simpl.
  by rewrite <- !app_assoc.
Qed.

Lemma CreateGLTexture_registered_state st filename tag img :
  lookup_file (disk (world st)) filename = Some img ->
  img_channels img = 3 ∨ img_channels img = 4 ->
  0 ≤ m_loadedTextures (this st) < Z.of_nat (length (m_textureIDs (this st))) ->
  CreateGLTexture filename tag st
  = Ok (true, {| this := register tag (gl_next_name (world st)) (this st);
                 world := allocate (load_events img (gl_next_name (world st)))
                                   (world st) |}).
Proof.
  intros Hfile Hch Hn. unfold CreateGLTexture.
  erewrite bind_Ok by reflexivity.
  erewrite bind_Ok by reflexivity. tidy_state.
  rewrite Hfile. do 6 (erewrite bind_Ok by reflexivity). tidy_state.
  unfold load_events.
  destruct (Z.eqb_spec (img_channels img) 3) as [H3|H3];
    [|destruct (Z.eqb_spec (img_channels img) 4) as [H4|H4]; [|lia]].
  all: cbv zeta.
  all: do 5 (erewrite bind_Ok by reflexivity); tidy_state.
  all: erewrite bind_Ok by (by apply write_texture_Ok).
  all: tidy_state.
  all: erewrite bind_Ok by reflexivity.
  all: erewrite bind_Ok by (apply write_texture_Ok; tidy_state; by rewrite length_alter).
  all: tidy_state.
  all: erewrite bind_Ok by reflexivity.
  all: unfold mret, M_ret, register, allocate.
  all: cbv [world_log gl_next_name gl_textures disk indeterminate_material trace].
  all: by rewrite alter_tag_ID, <- !app_assoc.
Qed.



(** X3: when the decoder cannot read the file, [CreateGLTexture] returns
    [false] after [stbi_set_flip_vertically_on_load] alone: no GL call is
    made, no texture name is handed out, the object is untouched. *)
Theorem CreateGLTexture_unreadable_file st filename tag :
  lookup_file (disk (world st)) filename = None ->
  ∃ st', CreateGLTexture filename tag st = Ok (false, st') ∧
         this st' = this st ∧
         trace (world st') = trace (world st) ++ [EvStbiSetFlip true] ∧
         gl_textures (world st') = gl_textures (world st) ∧
         gl_next_name (world st') = gl_next_name (world st).
Proof.
  intros Hfile. eexists. split; [by apply CreateGLTexture_unreadable_state|done].
Qed.

(** X4: when the channel test rejects the image, [CreateGLTexture] has
    already generated and bound a texture name: the name stays allocated,
    it is not registered, and the call returns right after the filter
    parameters, without [glGenerateMipmap] and without
    [stbi_image_free]. *)
Theorem CreateGLTexture_rejected_image_leaks st filename tag img :
  lookup_file (disk (world st)) filename = Some img ->
  img_channels img ≠ 3 -> img_channels img ≠ 4 ->
  let name := gl_next_name (world st) in
  ∃ st', CreateGLTexture filename tag st = Ok (false, st') ∧
         this st' = this st ∧
         gl_textures (world st') = gl_textures (world st) ++ [name] ∧
         gl_next_name (world st') = name + 1 ∧
         trace (world st') = trace (world st) ++ rejected_load_events name ∧
         last (trace (world st'))
           = Some (EvGlTexParameteri GL_TEXTURE_2D GL_TEXTURE_MAG_FILTER GL_LINEAR) ∧
         (EvStbiImageFree img ∉ rejected_load_events (float := float) (mat4 := mat4) name) ∧
         (EvGlGenerateMipmap GL_TEXTURE_2D
            ∉ rejected_load_events (float := float) (mat4 := mat4) name).
Proof.
  intros Hfile H3 H4 name. eexists.
  split; [by apply (CreateGLTexture_rejected_state st filename tag img)|]. simpl.
  split_and!; [done..| | |].
  - unfold rejected_load_events. by rewrite last_app.
  - unfold rejected_load_events. rewrite !elem_of_cons, elem_of_nil.
    intros Hin. repeat (destruct Hin as [Hin|Hin]; [discriminate Hin|]). done.
  - unfold rejected_load_events. rewrite !elem_of_cons, elem_of_nil.
    intros Hin. repeat (destruct Hin as [Hin|Hin]; [discriminate Hin|]). done.
Qed.

(** X5: a readable image with 3 or 4 channels, a slot being left, is
    uploaded with repeat wrapping and linear filtering, as [GL_RGB8] for 3
    channels and [GL_RGBA8] for 4, mipmapped, freed and unbound; the new
    name and the tag are stored in slot [m_loadedTextures], which is then
    incremented. *)
Theorem CreateGLTexture_registers st filename tag img :
  lookup_file (disk (world st)) filename = Some img ->
  img_channels img = 3 ∨ img_channels img = 4 ->
  0 ≤ m_loadedTextures (this st) < Z.of_nat (length (m_textureIDs (this st))) ->
  let name := gl_next_name (world st) in
  ∃ st', CreateGLTexture filename tag st = Ok (true, st') ∧
    this st' = register tag name (this st) ∧
    m_textureIDs (this st') !! Z.to_nat (m_loadedTextures (this st))
      = Some {| tex_tag := tag; tex_ID := name |} ∧
    trace (world st') = trace (world st) ++ load_events img name ∧
    load_events (float := float) (mat4 := mat4) img name !! 7%nat
      = Some (if decide (img_channels img = 3)
              then EvGlTexImage2D GL_RGB8 (img_width img) (img_height img) GL_RGB
              else EvGlTexImage2D GL_RGBA8 (img_width img) (img_height img) GL_RGBA) ∧
    gl_textures (world st') = gl_textures (world st) ++ [name].
Proof.
  intros Hfile Hch Hn name. eexists.
  split; [by apply (CreateGLTexture_registered_state st filename tag img)|].
  cbn [this world register allocate m_textureIDs trace gl_textures].
  split_and!; [done| |done| |done].
  - apply list_lookup_insert_eq. lia.
  - unfold load_events. cbn [lookup list_lookup].
    destruct (Z.eqb_spec (img_channels img) 3);
      [by rewrite decide_True|by rewrite decide_False].
Qed.


(** X7: after a load under a tag that no registered entry carries,
    [FindTextureSlot] of the tag is the count before the load and
    [FindTextureID] is the new name; the lookups of every other tag
    return what they returned before the load. *)
Theorem CreateGLTexture_then_lookups st filename tag img :
  lookup_file (disk (world st)) filename = Some img ->
  img_channels img = 3 ∨ img_channels img = 4 ->
  0 ≤ m_loadedTextures (this st) < Z.of_nat (length (m_textureIDs (this st))) ->
  ∃ st', CreateGLTexture filename tag st = Ok (true, st') ∧
    (Forall (fun e => tex_tag e ≠ tag) (registered (this st)) ->
       FindTextureSlot (this st') tag = Ok (m_loadedTextures (this st)) ∧
       FindTextureID (this st') tag = Ok (int_of_GLuint (gl_next_name (world st)))) ∧
    ∀ tag', tag' ≠ tag ->
      FindTextureSlot (this st') tag' = FindTextureSlot (this st) tag' ∧
      FindTextureID (this st') tag' = FindTextureID (this st) tag'.
Proof.
  intros Hfile Hch Hn.
  destruct (CreateGLTexture_succeeds st filename tag img Hfile Hch Hn) as [st' Hload].
  destruct (CreateGLTexture_registered _ _ _ _ Hload) as [Hreg Hb'].
  assert (registry_in_bounds (this st)) as Hb by (unfold registry_in_bounds; lia).
  exists st'. split; [done|]. split.
  - intros Hnew%(list_find_None (fun e => tex_tag e = tag)).
    rewrite (FindTextureSlot_first _ _ Hb'), (FindTextureID_first _ _ Hb').
    unfold texture_slot, texture_id, first_tagged.
    rewrite Hreg, (list_find_app_r _ _ _ Hnew). cbn [list_find].
    rewrite decide_True by done. cbn.
    unfold registered. rewrite length_take_le by lia. split; [f_equal; lia|done].
  - intros tag' Hne.
    rewrite !(FindTextureSlot_first _ _ Hb'), !(FindTextureID_first _ _ Hb').
    rewrite !(FindTextureSlot_first _ _ Hb), !(FindTextureID_first _ _ Hb).
    unfold texture_slot, texture_id, first_tagged. rewrite Hreg.
    destruct (list_find (fun e => tex_tag e = tag') (registered (this st)))
      as [[i e]|] eqn:Hfind.
    + by rewrite (list_find_app_l _ _ _ _ _ Hfind).
    + rewrite (list_find_app_r _ _ _ Hfind). cbn [list_find].
      rewrite decide_False by (simpl; congruence). done.
Qed.

(** ** Binding *)

Lemma bind_events_lookup (l : list TEXTURE_INFO) k i e :
  l !! i = Some e ->
  bind_events_from (float := float) (mat4 := mat4) k l !! (2 * i)%nat
    = Some (EvGlActiveTexture (Z.of_nat (k + i))) ∧
  bind_events_from (float := float) (mat4 := mat4) k l !! (2 * i + 1)%nat
    = Some (EvGlBindTexture GL_TEXTURE_2D (tex_ID e)).
Proof.
  revert k i. induction l as [|x l IH]; intros k i Hi; [done|].
  destruct i as [|i].
  - simpl in Hi. simplify_eq. simpl. by rewrite Nat.add_0_r.
  - simpl in Hi. destruct (IH (S k) i Hi) as [Ha Hb].
    replace (2 * S i)%nat with (S (S (2 * i))) by lia.
    replace (S (S (2 * i)) + 1)%nat with (S (S (2 * i + 1))) by lia.
    cbn [bind_events_from].
    change ((?a :: ?b :: ?l') !! S (S ?n)) with (l' !! n).
    rewrite Ha, Hb. split; [|done]. do 2 f_equal. lia.
Qed.

Lemma bind_events_length (l : list TEXTURE_INFO) k :
  length (bind_events_from (float := float) (mat4 := mat4) k l) = (2 * length l)%nat.
Proof. revert k. induction l as [|x l IH]; intros k; simpl; [done|]. rewrite IH. lia. Qed.

Lemma read_texture_Ok st index e :
  0 ≤ index ->
  m_textureIDs (this st) !! Z.to_nat index = Some e ->
  read_texture index st = Ok (e, st).
Proof.
  intros Hi He. unfold read_texture. erewrite bind_Ok by reflexivity.
  unfold id. rewrite He. by rewrite decide_True by done.
Qed.

Lemma BindGLTextures_loop s n k :
  (k + n ≤ length (m_textureIDs s))%nat ->
  ∀ st, this st = s ->
    for_loop n (Z.of_nat k)
      (fun i => glActiveTexture i;;
                e ← read_texture i;
                glBindTexture GL_TEXTURE_2D (tex_ID e)) st
    = Ok (tt, emit (bind_events_from k (take n (drop k (m_textureIDs s)))) st).
Proof.
  revert k. induction n as [|n IH]; intros k Hk st Hst.
  - simpl. by rewrite emit_nil.
  - destruct (lookup_lt_is_Some_2 (m_textureIDs s) k) as [e He]; [lia|].
    rewrite (drop_S _ _ _ He). cbn [for_loop take bind_events_from].
    erewrite bind_Ok.
    2: { unfold glActiveTexture. erewrite bind_Ok by apply log_emit.
         erewrite bind_Ok.
         2: { apply read_texture_Ok; [lia|]. by rewrite this_emit, Hst, Nat2Z.id. }
         unfold glBindTexture. apply log_emit. }
    replace (Z.of_nat k + 1) with (Z.of_nat (S k)) by lia.
    rewrite IH by (done || lia). by rewrite !emit_emit.
Qed.

Lemma BindGLTextures_emit st :
  registry_in_bounds (this st) ->
  BindGLTextures st = Ok (tt, emit (bind_events_from 0 (registered (this st))) st).
Proof.
  intros Hb. unfold BindGLTextures, for_range.
  erewrite bind_Ok by reflexivity. rewrite Z.sub_0_r.
  change 0 with (Z.of_nat 0). rewrite (BindGLTextures_loop (this st)); [|..|done].
  - by rewrite drop_0.
  - unfold registry_in_bounds in Hb. lia.
Qed.

(** X8: [BindGLTextures] binds the registered textures by position: for
    entry [i] it selects texture unit [i] and binds the name stored in the
    entry, in registry order, and nothing else; the object stays as it
    is. *)
Theorem BindGLTextures_binds_by_position st :
  registry_in_bounds (this st) ->
  let binds := bind_events_from 0 (registered (this st)) in
  BindGLTextures st = Ok (tt, emit binds st) ∧
  length binds = (2 * length (registered (this st)))%nat ∧
  ∀ (i : nat) e, registered (this st) !! i = Some e ->
    binds !! (2 * i)%nat = Some (EvGlActiveTexture (Z.of_nat i)) ∧
    binds !! (2 * i + 1)%nat = Some (EvGlBindTexture GL_TEXTURE_2D (tex_ID e)).
Proof.
  intros Hb binds. split_and!.
  - by apply BindGLTextures_emit.
  - apply bind_events_length.
  - intros i e Hi. by apply (bind_events_lookup _ 0 i e).
Qed.

(** X9: the slot [FindTextureSlot] returns for a tag is the texture unit
    on which [BindGLTextures] binds the texture whose name
    [FindTextureID] returns for that tag: among the calls of
    [BindGLTextures], call [2k] selects unit [k] and call [2k + 1] binds
    that name. *)
Theorem slot_is_bound_unit st tag k :
  registry_in_bounds (this st) ->
  FindTextureSlot (this st) tag = Ok k ->
  k ≠ -1 ->
  ∃ st' name,
    BindGLTextures st = Ok (tt, st') ∧
    FindTextureID (this st) tag = Ok (int_of_GLuint name) ∧
    trace (world st') !! (length (trace (world st)) + 2 * Z.to_nat k)%nat
      = Some (EvGlActiveTexture k) ∧
    trace (world st') !! (length (trace (world st)) + 2 * Z.to_nat k + 1)%nat
      = Some (EvGlBindTexture GL_TEXTURE_2D name).
Proof.
  intros Hb. rewrite (FindTextureSlot_first _ _ Hb), (FindTextureID_first _ _ Hb).
  unfold texture_slot, texture_id, first_tagged.
  destruct (list_find _ _) as [[i e]|] eqn:Hfind; [|by intros [= <-]].
  intros [= <-] _. apply list_find_Some in Hfind as (Hi & _ & _).
  destruct (bind_events_lookup (registered (this st)) 0 i e Hi) as [Ha Hbind].
  eexists _, (tex_ID e). split; [by apply BindGLTextures_emit|]. split; [done|].
  rewrite trace_emit, Nat2Z.id, !lookup_app_r by lia.
  replace (length (trace (world st)) + 2 * i - length (trace (world st)))%nat
    with (2 * i)%nat by lia.
  replace (length (trace (world st)) + 2 * i + 1 - length (trace (world st)))%nat
    with (2 * i + 1)%nat by lia.
  by rewrite Ha, Hbind.
Qed.

(** ** Materials *)

Lemma FindMaterial_loop_exact (l : list (OBJECT_MATERIAL float)) tag m :
  FindMaterial_loop l tag m =
    match list_find (fun e => mat_tag e = tag) l with
    | Some (_, e) => copy_material e m
    | None => m
    end.
Proof.
  induction l as [|e l IH]; simpl; [done|].
  destruct (String.eqb_spec (mat_tag e) tag) as [Heq|Hne].
  - by rewrite decide_True by done.
  - rewrite decide_False by done. rewrite IH.
    by destruct (list_find _ l) as [[i x]|].
Qed.

Lemma first_match_find (l : list (OBJECT_MATERIAL float)) tag (i : nat) e :
  l !! i = Some e ->
  mat_tag e = tag ->
  (∀ (j : nat) e', (j < i)%nat -> l !! j = Some e' -> mat_tag e' ≠ tag) ->
  list_find (fun x => mat_tag x = tag) l = Some (i, e).
Proof.
  intros Hi Htag Hleast. apply list_find_Some. split_and!; [done..|].
  intros j y Hj Hlt. by apply (Hleast j).
Qed.

(** X10: on an empty table [FindMaterial] returns [false] and leaves the
    caller's record alone; when entry [i] is the first with the tag it
    returns [true] and copies the colours and the shininess of that
    entry, but not its tag, into the caller's record. *)
Theorem FindMaterial_copies_first_match s tag m :
  (m_objectMaterials s = [] -> FindMaterial s tag m = (false, m)) ∧
  (∀ (i : nat) e,
     m_objectMaterials s !! i = Some e ->
     mat_tag e = tag ->
     (∀ (j : nat) e', (j < i)%nat -> m_objectMaterials s !! j = Some e' ->
                      mat_tag e' ≠ tag) ->
     FindMaterial s tag m = (true, copy_material e m) ∧
     mat_tag (snd (FindMaterial s tag m)) = mat_tag m).
Proof.
  split.
  - intros Hnil. unfold FindMaterial. by rewrite Hnil.
  - intros i e Hi Htag Hleast. unfold FindMaterial.
    rewrite decide_False by (apply lookup_lt_Some in Hi; lia).
    rewrite FindMaterial_loop_exact, (first_match_find _ _ _ _ Hi Htag Hleast).
    done.
Qed.

(** X11: with a shader manager, [SetShaderMaterial] of a tag that entry
    [i] is the first to carry uploads the diffuse colour, the specular
    colour and the shininess of that entry, in this order; later entries
    with the same tag are never uploaded. *)
Theorem SetShaderMaterial_uploads_first_match st tag (i : nat) e :
  m_pShaderManager (this st) ≠ NULL ->
  m_objectMaterials (this st) !! i = Some e ->
  mat_tag e = tag ->
  (∀ (j : nat) e', (j < i)%nat -> m_objectMaterials (this st) !! j = Some e' ->
                   mat_tag e' ≠ tag) ->
  SetShaderMaterial tag st
  = Ok (tt, emit [EvSetVec3Value "material.diffuseColor" (diffuseColor e);
                  EvSetVec3Value "material.specularColor" (specularColor e);
                  EvSetFloatValue "material.shininess" (shininess e)] st).
Proof.
  intros Hp Hi Htag Hleast. rewrite SetShaderMaterial_emit by done.
  unfold material_uploads. rewrite (first_match_find _ _ _ _ Hi Htag Hleast).
  by destruct (m_objectMaterials (this st)).
Qed.

(** X12: on an empty material table [SetShaderMaterial] returns at once:
    nothing is uploaded and the shader manager is not dereferenced, so
    the call is safe with a null pointer as well. *)
Theorem SetShaderMaterial_empty_table st tag :
  m_objectMaterials (this st) = [] ->
  SetShaderMaterial tag st = Ok (tt, st).
Proof.
  intros Hnil. unfold SetShaderMaterial. erewrite bind_Ok by reflexivity.
  unfold id. rewrite Hnil. by rewrite decide_False by (simpl; lia).
Qed.

Lemma DefineObjectMaterials_state st :
  DefineObjectMaterials st
  = Ok (tt, {| this := {| m_pShaderManager := m_pShaderManager (this st);
                          m_textureIDs := m_textureIDs (this st);
                          m_loadedTextures := m_loadedTextures (this st);
                          m_objectMaterials :=
                            m_objectMaterials (this st) ++ defined_materials |};
               world := world st |}).
Proof.
  unfold DefineObjectMaterials, push_back, defined_materials.
  repeat (erewrite bind_Ok; [|erewrite bind_Ok by reflexivity; reflexivity];
          unfold id; cbn [this world m_pShaderManager m_textureIDs m_loadedTextures
                          m_objectMaterials]).
  erewrite bind_Ok by reflexivity. unfold put_this, id.
  cbn [this world m_pShaderManager m_textureIDs m_loadedTextures m_objectMaterials].
  by rewrite <- !app_assoc.
Qed.

(** X13: [DefineObjectMaterials] appends its five materials to the table
    and touches nothing else; each of the five tags that the table did
    not carry before then resolves to the material defined for it. *)
Theorem DefineObjectMaterials_resolves st :
  ∃ st', DefineObjectMaterials st = Ok (tt, st') ∧
    m_objectMaterials (this st') = m_objectMaterials (this st) ++ defined_materials ∧
    m_textureIDs (this st') = m_textureIDs (this st) ∧
    m_loadedTextures (this st') = m_loadedTextures (this st) ∧
    m_pShaderManager (this st') = m_pShaderManager (this st) ∧
    world st' = world st ∧
    ∀ m into, m ∈ defined_materials ->
      Forall (fun e => mat_tag e ≠ mat_tag m) (m_objectMaterials (this st)) ->
      FindMaterial (this st') (mat_tag m) into = (true, copy_material m into).
Proof.
  eexists. split; [apply DefineObjectMaterials_state|].
  cbn [this world m_pShaderManager m_textureIDs m_loadedTextures m_objectMaterials].
  split_and!; [done..|].
  intros m into Hm Hold. unfold FindMaterial.
  cbn [this m_objectMaterials].
  rewrite decide_False by (rewrite length_app; simpl; lia).
  rewrite FindMaterial_loop_exact.
  apply (list_find_None (fun e => mat_tag e = mat_tag m)) in Hold.
  rewrite (list_find_app_r _ _ _ Hold).
  unfold defined_materials in *.
  repeat (apply elem_of_cons in Hm as [->|Hm]; [reflexivity|]).
  by apply elem_of_nil in Hm.
Qed.

(** X14: calling [DefineObjectMaterials] a second time doubles the table
    but changes no lookup: for every tag [FindMaterial] returns what it
    returned after the first call. *)
Theorem DefineObjectMaterials_twice st :
  ∃ st1 st2,
    DefineObjectMaterials st = Ok (tt, st1) ∧
    DefineObjectMaterials st1 = Ok (tt, st2) ∧
    length (m_objectMaterials (this st2))
      = (length (m_objectMaterials (this st)) + 10)%nat ∧
    ∀ tag into, FindMaterial (this st2) tag into = FindMaterial (this st1) tag into.
Proof.
  eexists _, _. split; [apply DefineObjectMaterials_state|].
  split; [apply DefineObjectMaterials_state|].
  cbn [this world m_pShaderManager m_textureIDs m_loadedTextures m_objectMaterials].
  split; [rewrite !length_app; simpl; lia|].
  intros tag into. unfold FindMaterial. cbn [this m_objectMaterials].
  rewrite !decide_False by (rewrite !length_app; simpl; lia).
  f_equal. rewrite !FindMaterial_loop_exact.
  destruct (list_find (fun e => mat_tag e = tag)
              (m_objectMaterials (this st) ++ defined_materials)) as [[i e]|] eqn:Hfind.
  - by rewrite (list_find_app_l _ _ _ _ _ Hfind).
  - rewrite (list_find_app_r _ _ _ Hfind).
    apply list_find_app_None in Hfind as [_ ->]. done.
Qed.

(** ** Colour and texture *)

Lemma SetShaderColor_emit st r g b a :
  m_pShaderManager (this st) ≠ NULL ->
  SetShaderColor r g b a st
  = Ok (tt, emit [EvSetIntValue g_UseTextureName 0;
                  EvSetVec4Value g_ColorValueName (Vec4 r g b a)] st).
Proof.
  intros Hp. unfold SetShaderColor. erewrite bind_Ok by reflexivity.
  destruct (m_pShaderManager (this st)) eqn:Hq; [done|]. simpl.
  unfold setIntValue, setVec4Value.
  erewrite bind_Ok; [|apply via_shader_emit; by rewrite Hq].
  rewrite via_shader_emit by (by rewrite this_emit, Hq). by rewrite emit_emit.
Qed.

(** X15: colour and texture exclude each other and the later call wins:
    after [SetShaderTexture] then [SetShaderColor] the shader has
    [bUseTexture] 0 and the colour; after [SetShaderColor] then
    [SetShaderTexture] it has [bUseTexture] 1 and the slot of the tag. *)
Theorem color_and_texture_last_call_wins st tag r g b a :
  m_pShaderManager (this st) ≠ NULL ->
  registry_in_bounds (this st) ->
  ∃ st1 st2,
    (SetShaderTexture tag;; SetShaderColor r g b a) st = Ok (tt, st1) ∧
    current_uniform "bUseTexture" (trace (world st1))
      = Some (EvSetIntValue "bUseTexture" 0) ∧
    current_uniform "objectColor" (trace (world st1))
      = Some (EvSetVec4Value "objectColor" (Vec4 r g b a)) ∧
    (SetShaderColor r g b a;; SetShaderTexture tag) st = Ok (tt, st2) ∧
    current_uniform "bUseTexture" (trace (world st2))
      = Some (EvSetIntValue "bUseTexture" 1) ∧
    current_uniform "objectTexture" (trace (world st2))
      = Some (EvSetSampler2DValue "objectTexture" (texture_slot (this st) tag)).
Proof.
  intros Hp Hb. eexists _, _. split_and!.
  - erewrite bind_Ok; [|by apply SetShaderTexture_emit].
    rewrite SetShaderColor_emit by done. by rewrite emit_emit.
  - rewrite trace_emit, current_uniform_app. reflexivity.
  - rewrite trace_emit, current_uniform_app. reflexivity.
  - erewrite bind_Ok; [|by apply SetShaderColor_emit].
    rewrite SetShaderTexture_emit by done. by rewrite emit_emit.
  - rewrite trace_emit, current_uniform_app. reflexivity.
  - rewrite trace_emit, current_uniform_app. reflexivity.
Qed.

(** X16: [SetShaderTexture] of a tag that no registered entry carries
    still switches texturing on and uploads -1 as the sampler. *)
Theorem SetShaderTexture_unregistered_tag st tag :
  m_pShaderManager (this st) ≠ NULL ->
  registry_in_bounds (this st) ->
  Forall (fun e => tex_tag e ≠ tag) (registered (this st)) ->
  SetShaderTexture tag st
  = Ok (tt, emit [EvSetIntValue "bUseTexture" 1;
                  EvSetSampler2DValue "objectTexture" (-1)] st).
Proof.
  intros Hp Hb Hmiss%(list_find_None (fun e => tex_tag e = tag)).
  rewrite SetShaderTexture_emit by done.
  unfold texture_slot, first_tagged. by rewrite Hmiss.
Qed.

(** ** The render phase *)

Lemma draw_part_then {B : Type} st0 es sc rx ry rz pos mat tex u v kind (k : M B) :
  m_pShaderManager (this st0) ≠ NULL ->
  registry_in_bounds (this st0) ->
  (SetTransformations sc rx ry rz pos;;
   SetShaderMaterial mat;;
   SetShaderTexture tex;;
   SetTextureUVScale u v;;
   log (EvDrawMesh kind);;
   k) (emit es st0)
  = k (emit (es ++ part_events st0
                     {| part_scale := sc; part_Xrotation := rx; part_Yrotation := ry;
                        part_Zrotation := rz; part_position := pos;
                        part_material := mat; part_texture := tex;
                        part_UVscale := Vec2 u v; part_mesh := kind |}) st0).
Proof.
  intros Hp Hb.
  erewrite bind_Ok; [|by apply SetTransformations_emit].
  erewrite bind_Ok; [|by apply SetShaderMaterial_emit].
  erewrite bind_Ok; [|by apply SetShaderTexture_emit].
  erewrite bind_Ok; [|by apply SetTextureUVScale_emit].
  erewrite bind_Ok; [|by apply log_emit].
  rewrite !emit_emit. unfold part_events. cbn [part_scale part_Xrotation part_Yrotation
    part_Zrotation part_position part_material part_texture part_UVscale part_mesh
    this world emit indeterminate_material].
  by rewrite <- ?app_assoc.
Qed.

Lemma draw_part_last st0 es sc rx ry rz pos mat tex u v kind :
  m_pShaderManager (this st0) ≠ NULL ->
  registry_in_bounds (this st0) ->
  (SetTransformations sc rx ry rz pos;;
   SetShaderMaterial mat;;
   SetShaderTexture tex;;
   SetTextureUVScale u v;;
   log (EvDrawMesh kind)) (emit es st0)
  = Ok (tt, emit (es ++ part_events st0
                     {| part_scale := sc; part_Xrotation := rx; part_Yrotation := ry;
                        part_Zrotation := rz; part_position := pos;
                        part_material := mat; part_texture := tex;
                        part_UVscale := Vec2 u v; part_mesh := kind |}) st0).
Proof.
  intros Hp Hb.
  erewrite bind_Ok; [|by apply SetTransformations_emit].
  erewrite bind_Ok; [|by apply SetShaderMaterial_emit].
  erewrite bind_Ok; [|by apply SetShaderTexture_emit].
  erewrite bind_Ok; [|by apply SetTextureUVScale_emit].
  rewrite log_emit, !emit_emit. unfold part_events. cbn [part_scale part_Xrotation
    part_Yrotation part_Zrotation part_position part_material part_texture part_UVscale
    part_mesh this world emit indeterminate_material].
  by rewrite <- ?app_assoc.
Qed.

Ltac draw_parts Hp Hb :=
  unfold DrawPlaneMesh, DrawBoxMesh, DrawCylinderMesh; cbv zeta;
  repeat (rewrite (draw_part_then _ _ _ _ _ _ _ _ _ _ _ _ _ Hp Hb)).

Lemma RenderDesk_from st0 es :
  m_pShaderManager (this st0) ≠ NULL ->
  registry_in_bounds (this st0) ->
  RenderDesk (emit es st0)
  = Ok (tt, emit (es ++ concat (map (part_events st0) desk_parts)) st0).
Proof.
  intros Hp Hb. unfold RenderDesk. draw_parts Hp Hb.
  rewrite (draw_part_last _ _ _ _ _ _ _ _ _ _ _ _ Hp Hb).
  unfold desk_parts. cbn [map concat]. by rewrite app_nil_r, <- !app_assoc.
Qed.

Lemma RenderMonitor_from st0 es :
  m_pShaderManager (this st0) ≠ NULL ->
  registry_in_bounds (this st0) ->
  RenderMonitor (emit es st0)
  = Ok (tt, emit (es ++ concat (map (part_events st0) monitor_parts)) st0).
Proof.
  intros Hp Hb. unfold RenderMonitor. draw_parts Hp Hb.
  rewrite (draw_part_last _ _ _ _ _ _ _ _ _ _ _ _ Hp Hb).
  unfold monitor_parts. cbn [map concat]. by rewrite app_nil_r, <- !app_assoc.
Qed.

Lemma RenderMouse_from st0 es :
  m_pShaderManager (this st0) ≠ NULL ->
  registry_in_bounds (this st0) ->
  RenderMouse (emit es st0)
  = Ok (tt, emit (es ++ concat (map (part_events st0) mouse_parts)) st0).
Proof.
  intros Hp Hb. unfold RenderMouse. draw_parts Hp Hb.
  rewrite (draw_part_last _ _ _ _ _ _ _ _ _ _ _ _ Hp Hb).
  unfold mouse_parts. cbn [map concat]. by rewrite app_nil_r, <- !app_assoc.
Qed.

Lemma RenderKeyboard_from st0 es :
  m_pShaderManager (this st0) ≠ NULL ->
  registry_in_bounds (this st0) ->
  RenderKeyboard (emit es st0)
  = Ok (tt, emit (es ++ concat (map (part_events st0) (keyboard_base :: keyboard_keys)))
                 st0).
Proof.
  intros Hp Hb. rewrite (RenderKeyboard_emit (emit es st0)) by done.
  by rewrite emit_emit.
Qed.

Lemma RenderScene_emit st :
  m_pShaderManager (this st) ≠ NULL ->
  registry_in_bounds (this st) ->
  RenderScene st = Ok (tt, emit (concat (map (part_events st) scene_parts)) st).
Proof.
  intros Hp Hb. rewrite <- (emit_nil st) at 1. unfold RenderScene.
  draw_parts Hp Hb.
  erewrite bind_Ok; [|by apply RenderDesk_from].
  erewrite bind_Ok; [|by apply RenderMonitor_from].
  erewrite bind_Ok; [|by apply RenderKeyboard_from].
  rewrite RenderMouse_from by done.
  unfold scene_parts. rewrite !map_app, !concat_app.
  unfold room_parts at 1. cbn [map concat]. by rewrite app_nil_r, <- !app_assoc.
Qed.

(** X17: with a shader manager and a registry within its array,
    [RenderScene] sends the calls of 125 object parts: the floor and the
    wall (planes), the nine boxes of the desk, the six parts of the
    monitor (box, two cylinders, three boxes), the keyboard base with its
    102 keys, and the five boxes of the mouse; each part ends in its
    draw call. *)
Theorem RenderScene_display_list st :
  m_pShaderManager (this st) ≠ NULL ->
  registry_in_bounds (this st) ->
  RenderScene st = Ok (tt, emit (concat (map (part_events st) scene_parts)) st) ∧
  length (scene_parts (float := float)) = 125%nat ∧
  filter (fun e => is_draw e = true) (concat (map (part_events st) scene_parts))
    = map EvDrawMesh (replicate 2 PlaneMesh ++ replicate 10 BoxMesh
                      ++ replicate 2 CylinderMesh ++ replicate 111 BoxMesh).
Proof.
  intros Hp Hb. split_and!.
  - by apply RenderScene_emit.
  - reflexivity.
  - rewrite draws_of_parts. reflexivity.
Qed.

Lemma material_uploads_resolved (table : list (OBJECT_MATERIAL float)) m m' tag :
  table = [] ∨ (∃ e, e ∈ table ∧ mat_tag e = tag) ->
  material_uploads (mat4 := mat4) table m tag = material_uploads table m' tag.
Proof.
  intros [->|(e & He & Htag)]; [done|]. unfold material_uploads.
  destruct (list_find_elem_of (fun e => mat_tag e = tag) table e) as [[i x] Hfind];
    [done..|].
  by rewrite Hfind.
Qed.

Lemma scene_events_resolved st m es :
  scene_materials_resolved (this st) ->
  concat (map (part_events (with_indeterminate m (emit es st))) scene_parts)
  = concat (map (part_events st) scene_parts).
Proof.
  intros Hres. f_equal.
  assert (Forall (fun p : ObjectPart float =>
            m_objectMaterials (this st) = [] ∨
            ∃ e, e ∈ m_objectMaterials (this st) ∧ mat_tag e = part_material p)
          scene_parts) as Hall.
  { destruct Hres as [Hnil|Hall]; [by apply Forall_true; left|].
    eapply Forall_impl; [exact Hall|]. intros p Hp. by right. }
  induction Hall as [|p l Hp _ IH]; [done|]. cbn [map]. rewrite IH. f_equal.
  unfold part_events. cbn [this world with_indeterminate emit indeterminate_material].
  do 2 f_equal. by apply material_uploads_resolved.
Qed.

(** X18: when no part of the scene reads the uninitialised local of
    [SetShaderMaterial] (the material table is empty, or it holds every
    material tag of the scene), a frame changes neither the object nor
    the GL context, and a second [RenderScene] sends the same calls
    again, whatever that local holds by then. *)
Theorem RenderScene_repeatable st :
  m_pShaderManager (this st) ≠ NULL ->
  registry_in_bounds (this st) ->
  scene_materials_resolved (this st) ->
  ∃ st' frame,
    RenderScene st = Ok (tt, st') ∧
    this st' = this st ∧
    gl_textures (world st') = gl_textures (world st) ∧
    gl_next_name (world st') = gl_next_name (world st) ∧
    trace (world st') = trace (world st) ++ frame ∧
    RenderScene st' = Ok (tt, emit frame st') ∧
    ∀ m, RenderScene (with_indeterminate m st')
         = Ok (tt, emit frame (with_indeterminate m st')).
Proof.
  intros Hp Hb Hres. eexists _, _. split; [by apply RenderScene_emit|].
  split_and!; [done..| |].
  - by rewrite (RenderScene_emit (emit _ st)) by done.
  - intros m. rewrite RenderScene_emit by done.
    by rewrite scene_events_resolved.
Qed.

(** ** The prepare phase *)

Lemma CreateGLTexture_returns st filename tag :
  0 ≤ m_loadedTextures (this st) < Z.of_nat (length (m_textureIDs (this st))) ->
  ∃ b st', CreateGLTexture filename tag st = Ok (b, st') ∧
    m_pShaderManager (this st') = m_pShaderManager (this st) ∧
    m_objectMaterials (this st') = m_objectMaterials (this st) ∧
    length (m_textureIDs (this st')) = length (m_textureIDs (this st)) ∧
    m_loadedTextures (this st) ≤ m_loadedTextures (this st')
      ≤ m_loadedTextures (this st) + 1.
Proof.
  intros Hn. pose proof (CreateGLTexture_cases st filename tag) as Hc.
  destruct (lookup_file _ _) as [img|].
  - destruct (decide (_ ∨ _)).
    + cbv zeta in Hc. rewrite decide_True in Hc by done.
      destruct Hc as (st' & Hrun & ? & ? & Hcount & Harr & _).
      exists true, st'. rewrite Harr, length_insert, Hcount.
      split_and!; try done; lia.
    + destruct Hc as (st' & Hrun & Hthis & _). exists false, st'.
      rewrite Hthis. split_and!; try done; lia.
  - destruct Hc as (st' & Hrun & Hthis & _). exists false, st'.
    rewrite Hthis. split_and!; try done; lia.
Qed.

Lemma CreateGLTexture_step st filename tag :
  readable (disk (world st)) filename ->
  0 ≤ m_loadedTextures (this st) < Z.of_nat (length (m_textureIDs (this st))) ->
  ∃ st', CreateGLTexture filename tag st = Ok (true, st') ∧
    registered (this st')
      = registered (this st) ++ [{| tex_tag := tag; tex_ID := gl_next_name (world st) |}] ∧
    m_loadedTextures (this st') = m_loadedTextures (this st) + 1 ∧
    length (m_textureIDs (this st')) = length (m_textureIDs (this st)) ∧
    m_pShaderManager (this st') = m_pShaderManager (this st) ∧
    m_objectMaterials (this st') = m_objectMaterials (this st) ∧
    gl_next_name (world st') = gl_next_name (world st) + 1 ∧
    disk (world st') = disk (world st).
Proof.
  intros (img & Hfile & Hch) Hn. eexists.
  split; [by apply (CreateGLTexture_registered_state st filename tag img)|].
  cbn [this world register allocate m_pShaderManager m_textureIDs m_loadedTextures
       m_objectMaterials gl_next_name disk].
  split_and!; [|done|by rewrite length_insert|done..].
  by apply registered_snoc.
Qed.

(** The steps of [PrepareScene] before the textures are loaded. *)
Lemma PrepareScene_prologue st :
  m_pShaderManager (this st) ≠ NULL ->
  ∃ st0,
    (∀ (k : M unit),
       (DefineObjectMaterials;; SetupSceneLights;; LoadPlaneMesh;; LoadBoxMesh;;
        LoadCylinderMesh;; k) st = k st0) ∧
    m_pShaderManager (this st0) = m_pShaderManager (this st) ∧
    m_textureIDs (this st0) = m_textureIDs (this st) ∧
    m_loadedTextures (this st0) = m_loadedTextures (this st) ∧
    m_objectMaterials (this st0) = m_objectMaterials (this st) ++ defined_materials ∧
    gl_next_name (world st0) = gl_next_name (world st) ∧
    disk (world st0) = disk (world st) ∧
    trace (world st0)
      = trace (world st) ++ light_rig_uploads
        ++ [EvLoadMesh PlaneMesh; EvLoadMesh BoxMesh; EvLoadMesh CylinderMesh] ∧
    gl_textures (world st0) = gl_textures (world st).
Proof.
  intros Hp. eexists. split.
  - intros k. erewrite bind_Ok by apply DefineObjectMaterials_state.
    erewrite bind_Ok; [|by apply SetupSceneLights_emit].
    unfold LoadPlaneMesh, LoadBoxMesh, LoadCylinderMesh.
    do 3 (erewrite bind_Ok by apply log_emit). rewrite !emit_emit. reflexivity.
  - cbn [this world emit m_pShaderManager m_textureIDs m_loadedTextures
         m_objectMaterials gl_next_name gl_textures disk trace].
    split_and!; try done; by rewrite <- !app_assoc.
Qed.

Lemma length_registered_if d filename tag (name : GLuint) :
  (length (registered_if d filename tag name) ≤ 1)%nat.
Proof. unfold registered_if. destruct (loadable d filename); simpl; lia. Qed.

Lemma loadable_readable d filename :
  loadable d filename = true ↔ readable d filename.
Proof.
  unfold loadable, readable. destruct (lookup_file d filename) as [img|].
  - rewrite orb_true_iff, !Z.eqb_eq. split; [by eauto|].
    by intros (? & [= <-] & ?).
  - split; [done|]. by intros (? & ? & _).
Qed.

(** One load, whatever the file is. *)
Lemma CreateGLTexture_outcome st filename tag :
  0 ≤ m_loadedTextures (this st) < Z.of_nat (length (m_textureIDs (this st))) ->
  let new := registered_if (disk (world st)) filename tag (gl_next_name (world st)) in
  ∃ st' gen,
    CreateGLTexture filename tag st = Ok (loadable (disk (world st)) filename, st') ∧
    registered (this st') = registered (this st) ++ new ∧
    m_loadedTextures (this st') = m_loadedTextures (this st) + Z.of_nat (length new) ∧
    length (m_textureIDs (this st')) = length (m_textureIDs (this st)) ∧
    m_pShaderManager (this st') = m_pShaderManager (this st) ∧
    m_objectMaterials (this st') = m_objectMaterials (this st) ∧
    disk (world st') = disk (world st) ∧
    gl_textures (world st') = gl_textures (world st) ++ gen ∧
    Forall (fun e => tex_ID e ∈ gen) new ∧
    (loadable (disk (world st)) filename = true -> gen = [gl_next_name (world st)]).
Proof.
  intros Hn new. subst new. unfold registered_if, loadable.
  destruct (lookup_file (disk (world st)) filename) as [img|] eqn:Hfile.
  - destruct (decide (img_channels img = 3 ∨ img_channels img = 4)) as [Hch|Hch].
    + assert ((img_channels img =? 3) || (img_channels img =? 4) = true) as ->.
      { apply orb_true_iff. rewrite !Z.eqb_eq. done. }
      eexists _, [gl_next_name (world st)].
      split; [by apply (CreateGLTexture_registered_state st filename tag img)|].
      cbn [this world register allocate m_pShaderManager m_textureIDs m_loadedTextures
           m_objectMaterials gl_next_name gl_textures disk length].
      split_and!; try done.
      * by apply registered_snoc.
      * by rewrite length_insert.
      * apply Forall_singleton. by apply list_elem_of_singleton.
    + assert ((img_channels img =? 3) || (img_channels img =? 4) = false) as ->.
      { apply orb_false_iff. rewrite !Z.eqb_neq. split; intros ?; apply Hch; by eauto. }
      eexists _, [gl_next_name (world st)].
      split; [apply (CreateGLTexture_rejected_state st filename tag img);
              [done|intros ?; apply Hch; by left|intros ?; apply Hch; by right]|].
      cbn [this world allocate gl_textures disk length].
      rewrite app_nil_r, Z.add_0_r. split_and!; done.
  - eexists _, [].
    split; [by apply CreateGLTexture_unreadable_state|].
    cbn [this world emit gl_textures disk length].
    rewrite !app_nil_r, Z.add_0_r. split_and!; done.
Qed.

(** [PrepareScene], whatever the five files are: [n0] to [n4] are the
    names the context would hand out at the five loads. *)
Lemma PrepareScene_outcome st :
  m_pShaderManager (this st) ≠ NULL ->
  0 ≤ m_loadedTextures (this st) ->
  m_loadedTextures (this st) + 5 ≤ Z.of_nat (length (m_textureIDs (this st))) ->
  ∃ st' n0 n1 n2 n3 n4 gens,
    let d := disk (world st) in
    let new := registered_if d "textures/wood_texture.jpg" "wood" n0
               ++ registered_if d "textures/black_wood_texture.jpg" "black_wood" n1
               ++ registered_if d "textures/black_brushed_metal_texture.jpg"
                    "black_metal" n2
               ++ registered_if d "textures/snhu_one.jpg" "monitor_screen" n3
               ++ registered_if d "textures/white_texture.jpg" "white" n4 in
    PrepareScene st = Ok (tt, st') ∧
    registered (this st') = registered (this st) ++ new ∧
    m_loadedTextures (this st') = m_loadedTextures (this st) + Z.of_nat (length new) ∧
    gl_textures (world st') = gl_textures (world st) ++ gens ∧
    Forall (fun e => tex_ID e ∈ gens) new ∧
    (Forall (fun f => loadable d f = true) scene_files -> gens = [n0; n1; n2; n3; n4]) ∧
    registry_in_bounds (this st') ∧
    m_objectMaterials (this st') = m_objectMaterials (this st) ++ defined_materials ∧
    m_pShaderManager (this st') = m_pShaderManager (this st) ∧
    ∃ tr, trace (world st') = tr ++ bind_events_from 0 (registered (this st')).
Proof.
  intros Hp Hn Hroom. unfold PrepareScene.
  destruct (PrepareScene_prologue st Hp)
    as (st0 & -> & Hp0 & Harr0 & Hn0 & Hm0 & _ & Hd0 & _ & Ht0).
  destruct (CreateGLTexture_outcome st0 "textures/wood_texture.jpg" "wood")
    as (st1 & gen1 & Hrun1 & Hr1 & Hn1 & Harr1 & Hp1 & Hm1 & Hd1 & Ht1 & Hin1 & Hg1);
    [rewrite Harr0; lia|].
  erewrite bind_Ok by exact Hrun1.
  pose proof (length_registered_if (disk (world st0)) "textures/wood_texture.jpg" "wood"
                (gl_next_name (world st0))) as Hl1.
  destruct (CreateGLTexture_outcome st1 "textures/black_wood_texture.jpg" "black_wood")
    as (st2 & gen2 & Hrun2 & Hr2 & Hn2 & Harr2 & Hp2 & Hm2 & Hd2 & Ht2 & Hin2 & Hg2);
    [rewrite Harr1, Harr0; lia|].
  erewrite bind_Ok by exact Hrun2.
  pose proof (length_registered_if (disk (world st1)) "textures/black_wood_texture.jpg"
                "black_wood" (gl_next_name (world st1))) as Hl2.
  destruct (CreateGLTexture_outcome st2 "textures/black_brushed_metal_texture.jpg"
              "black_metal")
    as (st3 & gen3 & Hrun3 & Hr3 & Hn3 & Harr3 & Hp3 & Hm3 & Hd3 & Ht3 & Hin3 & Hg3);
    [rewrite Harr2, Harr1, Harr0; lia|].
  erewrite bind_Ok by exact Hrun3.
  pose proof (length_registered_if (disk (world st2))
                "textures/black_brushed_metal_texture.jpg" "black_metal"
                (gl_next_name (world st2))) as Hl3.
  destruct (CreateGLTexture_outcome st3 "textures/snhu_one.jpg" "monitor_screen")
    as (st4 & gen4 & Hrun4 & Hr4 & Hn4 & Harr4 & Hp4 & Hm4 & Hd4 & Ht4 & Hin4 & Hg4);
    [rewrite Harr3, Harr2, Harr1, Harr0; lia|].
  erewrite bind_Ok by exact Hrun4.
  pose proof (length_registered_if (disk (world st3)) "textures/snhu_one.jpg"
                "monitor_screen" (gl_next_name (world st3))) as Hl4.
  destruct (CreateGLTexture_outcome st4 "textures/white_texture.jpg" "white")
    as (st5 & gen5 & Hrun5 & Hr5 & Hn5 & Harr5 & Hp5 & Hm5 & Hd5 & Ht5 & Hin5 & Hg5);
    [rewrite Harr4, Harr3, Harr2, Harr1, Harr0; lia|].
  erewrite bind_Ok by exact Hrun5.
  pose proof (length_registered_if (disk (world st4)) "textures/white_texture.jpg"
                "white" (gl_next_name (world st4))) as Hl5.
  assert (registry_in_bounds (this st5)) as Hb5.
  { unfold registry_in_bounds. rewrite Harr5, Harr4, Harr3, Harr2, Harr1, Harr0. lia. }
  rewrite BindGLTextures_emit by done.
  rewrite Hd4, Hd3, Hd2, Hd1, Hd0 in *.
  exists (emit (bind_events_from 0 (registered (this st5))) st5),
    (gl_next_name (world st0)), (gl_next_name (world st1)), (gl_next_name (world st2)),
    (gl_next_name (world st3)), (gl_next_name (world st4)),
    (gen1 ++ gen2 ++ gen3 ++ gen4 ++ gen5).
  cbv zeta. rewrite this_emit, trace_emit.
  cbn [world emit gl_textures].
  split_and!; [reflexivity| | | | | |done|congruence|congruence|by eexists].
  - rewrite Hr5, Hr4, Hr3, Hr2, Hr1. unfold registered at 1.
    rewrite Hn0, Harr0. fold (registered (this st)). by rewrite <- !app_assoc.
  - rewrite !length_app, Hn5, Hn4, Hn3, Hn2, Hn1, Hn0. lia.
  - rewrite Ht5, Ht4, Ht3, Ht2, Ht1, Ht0. by rewrite <- !app_assoc.
  - repeat apply Forall_app_2;
      [eapply Forall_impl; [exact Hin1|]
      |eapply Forall_impl; [exact Hin2|]
      |eapply Forall_impl; [exact Hin3|]
      |eapply Forall_impl; [exact Hin4|]
      |eapply Forall_impl; [exact Hin5|]];
      intros e He; cbv beta in He |- *; rewrite !elem_of_app; by eauto 10.
  - unfold scene_files. intros Hall.
    apply Forall_cons in Hall as [Hf1 Hall].
    apply Forall_cons in Hall as [Hf2 Hall].
    apply Forall_cons in Hall as [Hf3 Hall].
    apply Forall_cons in Hall as [Hf4 Hall].
    apply Forall_cons in Hall as [Hf5 _].
    by rewrite (Hg1 Hf1), (Hg2 Hf2), (Hg3 Hf3), (Hg4 Hf4), (Hg5 Hf5).
Qed.

(** X19: one missing or unsupported image does not stop the preparation:
    with a shader manager and five slots left, [PrepareScene] returns
    whatever the files are.  It appends to the registry one entry for
    each of its five files that the decoder reads with 3 or 4 channels,
    in source order and under the tag of that load, also when an earlier
    file failed; the names of these entries were handed out by the GL
    context; the call ends by binding every registered texture to the
    unit of its slot; the five materials are defined and the registry
    stays within its array. *)
Theorem PrepareScene_returns st :
  m_pShaderManager (this st) ≠ NULL ->
  0 ≤ m_loadedTextures (this st) ->
  m_loadedTextures (this st) + 5 ≤ Z.of_nat (length (m_textureIDs (this st))) ->
  ∃ st' new,
    PrepareScene st = Ok (tt, st') ∧
    registered (this st') = registered (this st) ++ new ∧
    map tex_tag new
      = map snd (filter (fun l => loadable (disk (world st)) l.1 = true) scene_loads) ∧
    Forall (fun e => tex_ID e ∈ gl_textures (world st')) new ∧
    (∃ tr, trace (world st') = tr ++ bind_events_from 0 (registered (this st'))) ∧
    m_loadedTextures (this st') = m_loadedTextures (this st) + Z.of_nat (length new) ∧
    m_loadedTextures (this st) ≤ m_loadedTextures (this st')
      ≤ m_loadedTextures (this st) + 5 ∧
    registry_in_bounds (this st') ∧
    m_objectMaterials (this st') = m_objectMaterials (this st) ++ defined_materials ∧
    m_pShaderManager (this st') = m_pShaderManager (this st).
Proof.
  intros Hp Hn Hroom.
  destruct (PrepareScene_outcome st Hp Hn Hroom)
    as (st' & n0 & n1 & n2 & n3 & n4 & gens & Hrun & Hreg & Hcount & Hgl & Hin & _
        & Hb & Hm & Hp' & Htr).
  cbv zeta in *. eexists st', _.
  split_and!; [exact Hrun|exact Hreg| | |exact Htr|exact Hcount| | |exact Hb|exact Hm|exact Hp'].
  - unfold registered_if, scene_loads. rewrite !filter_cons, filter_nil. cbn [fst].
    destruct (loadable _ "textures/wood_texture.jpg");
      destruct (loadable _ "textures/black_wood_texture.jpg");
      destruct (loadable _ "textures/black_brushed_metal_texture.jpg");
      destruct (loadable _ "textures/snhu_one.jpg");
      destruct (loadable _ "textures/white_texture.jpg");
      reflexivity.
  - eapply Forall_impl; [exact Hin|]. intros e He. cbv beta in He |- *.
    rewrite Hgl. apply elem_of_app. by right.
  - lia.
  - rewrite Hcount, !length_app.
    pose proof (length_registered_if (disk (world st)) "textures/wood_texture.jpg"
                  "wood" n0).
    pose proof (length_registered_if (disk (world st)) "textures/black_wood_texture.jpg"
                  "black_wood" n1).
    pose proof (length_registered_if (disk (world st))
                  "textures/black_brushed_metal_texture.jpg" "black_metal" n2).
    pose proof (length_registered_if (disk (world st)) "textures/snhu_one.jpg"
                  "monitor_screen" n3).
    pose proof (length_registered_if (disk (world st)) "textures/white_texture.jpg"
                  "white" n4).
    lia.
Qed.

Lemma PrepareScene_readable st :
  m_pShaderManager (this st) ≠ NULL ->
  m_loadedTextures (this st) = 0 ->
  (5 ≤ length (m_textureIDs (this st)))%nat ->
  Forall (readable (disk (world st))) scene_files ->
  let g := gl_next_name (world st) in
  ∃ st', PrepareScene st = Ok (tt, st') ∧
    registered (this st')
      = [{| tex_tag := "wood"; tex_ID := g |};
         {| tex_tag := "black_wood"; tex_ID := g + 1 |};
         {| tex_tag := "black_metal"; tex_ID := g + 2 |};
         {| tex_tag := "monitor_screen"; tex_ID := g + 3 |};
         {| tex_tag := "white"; tex_ID := g + 4 |}] ∧
    registry_in_bounds (this st') ∧
    m_objectMaterials (this st') = m_objectMaterials (this st) ++ defined_materials ∧
    m_pShaderManager (this st') = m_pShaderManager (this st) ∧
    ∃ tr, trace (world st') = tr ++ bind_events_from 0 (registered (this st')).
Proof.
  intros Hp Hn Hlen Hfiles g. unfold PrepareScene, scene_files in *.
  apply Forall_cons in Hfiles as [Hf1 Hfiles].
  apply Forall_cons in Hfiles as [Hf2 Hfiles].
  apply Forall_cons in Hfiles as [Hf3 Hfiles].
  apply Forall_cons in Hfiles as [Hf4 Hfiles].
  apply Forall_cons in Hfiles as [Hf5 _].
  destruct (PrepareScene_prologue st Hp)
    as (st0 & -> & Hp0 & Harr0 & Hn0 & Hm0 & Hg0 & Hd0 & _).
  assert (registered (this st0) = []) as Hr0.
  { unfold registered. by rewrite Hn0, Hn. }
  destruct (CreateGLTexture_step st0 "textures/wood_texture.jpg" "wood")
    as (st1 & Hrun1 & Hr1 & Hn1 & Harr1 & Hp1 & Hm1 & Hg1 & Hd1);
    [by rewrite Hd0|rewrite Harr0; lia|].
  erewrite bind_Ok by exact Hrun1.
  destruct (CreateGLTexture_step st1 "textures/black_wood_texture.jpg" "black_wood")
    as (st2 & Hrun2 & Hr2 & Hn2 & Harr2 & Hp2 & Hm2 & Hg2 & Hd2);
    [by rewrite Hd1, Hd0|rewrite Harr1, Harr0; lia|].
  erewrite bind_Ok by exact Hrun2.
  destruct (CreateGLTexture_step st2 "textures/black_brushed_metal_texture.jpg"
              "black_metal")
    as (st3 & Hrun3 & Hr3 & Hn3 & Harr3 & Hp3 & Hm3 & Hg3 & Hd3);
    [by rewrite Hd2, Hd1, Hd0|rewrite Harr2, Harr1, Harr0; lia|].
  erewrite bind_Ok by exact Hrun3.
  destruct (CreateGLTexture_step st3 "textures/snhu_one.jpg" "monitor_screen")
    as (st4 & Hrun4 & Hr4 & Hn4 & Harr4 & Hp4 & Hm4 & Hg4 & Hd4);
    [by rewrite Hd3, Hd2, Hd1, Hd0|rewrite Harr3, Harr2, Harr1, Harr0; lia|].
  erewrite bind_Ok by exact Hrun4.
  destruct (CreateGLTexture_step st4 "textures/white_texture.jpg" "white")
    as (st5 & Hrun5 & Hr5 & Hn5 & Harr5 & Hp5 & Hm5 & Hg5 & Hd5);
    [by rewrite Hd4, Hd3, Hd2, Hd1, Hd0|rewrite Harr4, Harr3, Harr2, Harr1, Harr0; lia|].
  erewrite bind_Ok by exact Hrun5.
  assert (registry_in_bounds (this st5)) as Hb5.
  { unfold registry_in_bounds. rewrite Harr5, Harr4, Harr3, Harr2, Harr1, Harr0. lia. }
  rewrite BindGLTextures_emit by done. eexists. split; [reflexivity|].
  rewrite this_emit, trace_emit. split_and!; [|done|congruence|congruence|by eexists].
  rewrite Hr5, Hr4, Hr3, Hr2, Hr1, Hr0, Hg4, Hg3, Hg2, Hg1, Hg0. simpl.
  subst g. rewrite <- !Z.add_assoc. reflexivity.
Qed.

(** X20: on an object with no texture registered yet, with a shader
    manager and the five images readable, [PrepareScene] registers
    ["wood"], ["black_wood"], ["black_metal"], ["monitor_screen"] and
    ["white"] in slots 0 to 4, in this order, under the five names the GL
    context hands out during the call, and ends by binding these names
    to the texture units 0 to 4. *)
Theorem PrepareScene_registers_five st :
  m_pShaderManager (this st) ≠ NULL ->
  m_loadedTextures (this st) = 0 ->
  (5 ≤ length (m_textureIDs (this st)))%nat ->
  Forall (readable (disk (world st))) scene_files ->
  ∃ st' n0 n1 n2 n3 n4,
    PrepareScene st = Ok (tt, st') ∧
    m_loadedTextures (this st') = 5 ∧
    registered (this st')
      = [{| tex_tag := "wood"; tex_ID := n0 |};
         {| tex_tag := "black_wood"; tex_ID := n1 |};
         {| tex_tag := "black_metal"; tex_ID := n2 |};
         {| tex_tag := "monitor_screen"; tex_ID := n3 |};
         {| tex_tag := "white"; tex_ID := n4 |}] ∧
    gl_textures (world st') = gl_textures (world st) ++ [n0; n1; n2; n3; n4] ∧
    FindTextureSlot (this st') "wood" = Ok 0 ∧
    FindTextureSlot (this st') "black_wood" = Ok 1 ∧
    FindTextureSlot (this st') "black_metal" = Ok 2 ∧
    FindTextureSlot (this st') "monitor_screen" = Ok 3 ∧
    FindTextureSlot (this st') "white" = Ok 4 ∧
    ∃ tr, trace (world st')
          = tr ++ [EvGlActiveTexture 0; EvGlBindTexture GL_TEXTURE_2D n0;
                   EvGlActiveTexture 1; EvGlBindTexture GL_TEXTURE_2D n1;
                   EvGlActiveTexture 2; EvGlBindTexture GL_TEXTURE_2D n2;
                   EvGlActiveTexture 3; EvGlBindTexture GL_TEXTURE_2D n3;
                   EvGlActiveTexture 4; EvGlBindTexture GL_TEXTURE_2D n4].
Proof.
  intros Hp Hn Hlen Hfiles.
  destruct (PrepareScene_outcome st Hp ltac:(lia) ltac:(lia))
    as (st' & n0 & n1 & n2 & n3 & n4 & gens & Hrun & Hreg & Hcount & Hgl & _ & Hgens
        & Hb & _ & _ & tr & Htr).
  cbv zeta in *.
  assert (Forall (fun f => loadable (disk (world st)) f = true) scene_files) as Hall.
  { eapply Forall_impl; [exact Hfiles|]. intros f. apply loadable_readable. }
  rewrite (Hgens Hall) in Hgl. clear Hgens.
  unfold scene_files in Hall.
  apply Forall_cons in Hall as [Hf1 Hall].
  apply Forall_cons in Hall as [Hf2 Hall].
  apply Forall_cons in Hall as [Hf3 Hall].
  apply Forall_cons in Hall as [Hf4 Hall].
  apply Forall_cons in Hall as [Hf5 _].
  unfold registered_if in Hreg, Hcount. rewrite Hf1, Hf2, Hf3, Hf4, Hf5 in Hreg, Hcount.
  assert (registered (this st) = []) as Hr0 by (unfold registered; by rewrite Hn).
  rewrite Hr0 in Hreg. cbn [app length] in Hreg, Hcount.
  exists st', n0, n1, n2, n3, n4. rewrite !(FindTextureSlot_first _ _ Hb).
  unfold texture_slot, first_tagged. rewrite Htr, Hreg.
  split_and!; try done; [lia|by exists tr].
Qed.

Lemma scene_tags :
  Forall (fun p : ObjectPart float =>
            part_texture p ∈ ["wood"; "black_wood"; "black_metal"; "monitor_screen"; "white"]
            ∧ part_material p ∈ map mat_tag (defined_materials (float := float)))
         scene_parts.
Proof. apply (bool_decide_unpack _). by vm_compute. Qed.

Lemma part_events_no_miss st (p : ObjectPart float) :
  0 ≤ texture_slot (this st) (part_texture p) ->
  filter (fun e => is_sampler_miss e = true) (part_events st p) = [].
Proof.
  intros Hslot. unfold part_events, material_uploads.
  rewrite !filter_app.
  assert (filter (fun e => is_sampler_miss e = true)
            [EvSetIntValue g_UseTextureName 1;
             EvSetSampler2DValue g_TextureValueName
               (texture_slot (this st) (part_texture p));
             EvSetVec2Value (mat4 := mat4) "UVscale" (part_UVscale p);
             EvDrawMesh (part_mesh p)] = []) as ->.
  { rewrite filter_cons_False by (simpl; congruence).
    rewrite filter_cons_False; [done|]. simpl.
    destruct (Z.ltb_spec (texture_slot (this st) (part_texture p)) 0); [lia|congruence]. }
  by destruct (m_objectMaterials (this st)).
Qed.

(** X21: the scene is consistent with its preparation: after
    [PrepareScene] on an object with no texture registered yet (shader
    manager present, the five images readable), [RenderScene] returns;
    every texture tag it uses resolves to one of the slots 0 to 4 and
    every material tag it uses is in the table, so no frame uploads the
    sampler -1 or an uninitialised material. *)
Theorem prepared_scene_resolves_every_tag st :
  m_pShaderManager (this st) ≠ NULL ->
  m_loadedTextures (this st) = 0 ->
  (5 ≤ length (m_textureIDs (this st)))%nat ->
  Forall (readable (disk (world st))) scene_files ->
  ∃ st1 frame,
    PrepareScene st = Ok (tt, st1) ∧
    RenderScene st1 = Ok (tt, emit frame st1) ∧
    frame = concat (map (part_events st1) scene_parts) ∧
    filter (fun e => is_sampler_miss e = true) frame = [] ∧
    Forall (fun p =>
              0 ≤ texture_slot (this st1) (part_texture p) < 5 ∧
              ∃ i m, list_find (fun e => mat_tag e = part_material p)
                       (m_objectMaterials (this st1)) = Some (i, m))
           scene_parts.
Proof.
  intros Hp Hn Hlen Hfiles.
  destruct (PrepareScene_readable st Hp Hn Hlen Hfiles)
    as (st1 & Hrun & Hreg & Hb & Hm & Hp1 & _).
  assert (Forall (fun p : ObjectPart float =>
              0 ≤ texture_slot (this st1) (part_texture p) < 5 ∧
              ∃ i m, list_find (fun e => mat_tag e = part_material p)
                       (m_objectMaterials (this st1)) = Some (i, m))
           scene_parts) as Hall.
  { eapply Forall_impl; [apply scene_tags|]. intros p [Htex Hmat]. split.
    - unfold texture_slot, first_tagged. rewrite Hreg.
      repeat (apply elem_of_cons in Htex as [->|Htex]; [by vm_compute|]).
      by apply elem_of_nil in Htex.
    - apply list_elem_of_fmap in Hmat as (m0 & Htag & Hm0).
      destruct (list_find_elem_of (fun e => mat_tag e = part_material p)
                  (m_objectMaterials (this st1)) m0) as [[i m] Hfind]; [|done|by eauto].
      rewrite Hm. apply elem_of_app. by right. }
  exists st1, (concat (map (part_events st1) scene_parts)).
  split_and!; [done| |done| |done].
  - apply RenderScene_emit; [by rewrite Hp1|done].
  - induction Hall as [|p l [Hslot _] _ IH]; [done|].
    cbn [map concat]. rewrite filter_app, IH, app_nil_r.
    apply part_events_no_miss. lia.
Qed.


(** ** The constructor *)

(** X23: a freshly constructed object has an empty registry and an empty
    material table, whatever the 16 slots of [m_textureIDs], which the
    constructor does not initialise, happen to hold: every texture lookup
    returns -1, [FindMaterial] returns [false], and [SetShaderMaterial]
    and [BindGLTextures] do nothing, for every pointer passed in. *)
Theorem new_SceneManager_finds_nothing p (slots : list TEXTURE_INFO) tag m
    (w : World float mat4) :
  let s := with_textureIDs slots (new_SceneManager (float := float) p) in
  let st := {| this := s; world := w |} in
  registered s = [] ∧
  FindTextureSlot s tag = Ok (-1) ∧
  FindTextureID s tag = Ok (-1) ∧
  FindMaterial s tag m = (false, m) ∧
  SetShaderMaterial tag st = Ok (tt, st) ∧
  BindGLTextures st = Ok (tt, st).
Proof. by split_and!. Qed.
End MoreProperties.


(** ** The further properties at concrete states *)

Lemma prepared_in_bounds : registry_in_bounds (this prepared).
Proof. unfold registry_in_bounds. by vm_compute. Defined.

Lemma prepared_has_shader : m_pShaderManager (this prepared) ≠ NULL.
Proof. discriminate. Defined.

Lemma state0_files_readable : Forall (readable (disk (world state0))) scene_files.
Proof.
  unfold scene_files.
  repeat (apply List.Forall_cons; [eexists; split; [reflexivity|by left]|]).
  apply List.Forall_nil.
Defined.

Lemma lookup_miss_iff_unregistered_witness :
  registry_in_bounds (this prepared) ∧
  FindTextureSlot (this prepared) "marble" = Ok (-1) ∧
  FindTextureID (this prepared) "marble" = Ok (-1).
Proof.
  assert (Forall (fun e => tex_tag e ≠ "marble") (registered (this prepared))) as Hall
    by (apply (bool_decide_unpack _); by vm_compute).
  destruct (lookup_miss_iff_unregistered (this prepared) "marble" prepared_in_bounds)
    as [Hslot Hid].
  split_and!; [exact prepared_in_bounds|exact (proj2 Hslot Hall)|exact (Hid Hall)].
Defined.

Lemma lookup_hit_is_first_registered_witness :
  registry_in_bounds (this prepared) ∧
  FindTextureSlot (this prepared) "black_metal" = Ok 2 ∧
  2 ≠ -1 ∧
  ∃ e, m_textureIDs (this prepared) !! 2%nat = Some e ∧
       tex_tag e = "black_metal" ∧
       FindTextureID (this prepared) "black_metal" = Ok (int_of_GLuint (tex_ID e)).
Proof.
  assert (FindTextureSlot (this prepared) "black_metal" = Ok 2) as Hslot by reflexivity.
  assert (2 ≠ -1) as Hne by lia.
  destruct (lookup_hit_is_first_registered (this prepared) "black_metal" 2
              prepared_in_bounds Hslot Hne) as (_ & e & He & Htag & Hid & _).
  split_and!; [exact prepared_in_bounds|exact Hslot|exact Hne|].
  exists e. split_and!; [exact He|exact Htag|exact Hid].
Defined.

Lemma CreateGLTexture_unreadable_file_witness :
  lookup_file (disk (world state0)) "missing.png" = None ∧
  ∃ st', CreateGLTexture "missing.png" "marble" state0 = Ok (false, st') ∧
         this st' = this state0 ∧
         trace (world st') = trace (world state0) ++ [EvStbiSetFlip true] ∧
         gl_textures (world st') = gl_textures (world state0) ∧
         gl_next_name (world st') = gl_next_name (world state0).
Proof.
  assert (lookup_file (disk (world state0)) "missing.png" = None) as Hfile by reflexivity.
  split; [exact Hfile|].
  exact (CreateGLTexture_unreadable_file state0 "missing.png" "marble" Hfile).
Defined.

Lemma CreateGLTexture_rejected_image_leaks_witness :
  lookup_file (disk (world state0)) "grey.jpg" = Some grey_image ∧
  img_channels grey_image ≠ 3 ∧ img_channels grey_image ≠ 4 ∧
  ∃ st', CreateGLTexture "grey.jpg" "grey" state0 = Ok (false, st') ∧
         this st' = this state0 ∧
         gl_textures (world st') = gl_textures (world state0) ++ [1].
Proof.
  assert (lookup_file (disk (world state0)) "grey.jpg" = Some grey_image) as Hfile
    by reflexivity.
  assert (img_channels grey_image ≠ 3) as H3 by (simpl; lia).
  assert (img_channels grey_image ≠ 4) as H4 by (simpl; lia).
  destruct (CreateGLTexture_rejected_image_leaks state0 "grey.jpg" "grey" grey_image
              Hfile H3 H4) as (st' & Hrun & Hthis & Hgl & _).
  split_and!; [exact Hfile|exact H3|exact H4|].
  exists st'. split_and!; [exact Hrun|exact Hthis|exact Hgl].
Defined.

Lemma CreateGLTexture_registers_witness :
  lookup_file (disk (world state0)) "rgba.png" = Some rgba_image ∧
  (img_channels rgba_image = 3 ∨ img_channels rgba_image = 4) ∧
  0 ≤ m_loadedTextures (this state0)
    < Z.of_nat (length (m_textureIDs (this state0))) ∧
  ∃ st', CreateGLTexture "rgba.png" "glass" state0 = Ok (true, st') ∧
    m_textureIDs (this st') !! 0%nat = Some {| tex_tag := "glass"; tex_ID := 1 |} ∧
    trace (world st') = trace (world state0) ++ load_events rgba_image 1.
Proof.
  assert (lookup_file (disk (world state0)) "rgba.png" = Some rgba_image) as Hfile
    by reflexivity.
  assert (img_channels rgba_image = 3 ∨ img_channels rgba_image = 4) as Hch
    by (right; reflexivity).
  assert (0 ≤ m_loadedTextures (this state0)
          < Z.of_nat (length (m_textureIDs (this state0)))) as Hn
    by (split; by vm_compute).
  destruct (CreateGLTexture_registers state0 "rgba.png" "glass" rgba_image Hfile Hch Hn)
    as (st' & Hrun & _ & Hslot & Htrace & _).
  refine (conj Hfile (conj Hch (conj Hn _))).
  exists st'. split_and!; [exact Hrun|exact Hslot|exact Htrace].
Defined.



Lemma CreateGLTexture_then_lookups_witness :
  lookup_file (disk (world wood_once)) "rgba.png" = Some rgba_image ∧
  (img_channels rgba_image = 3 ∨ img_channels rgba_image = 4) ∧
  0 ≤ m_loadedTextures (this wood_once)
    < Z.of_nat (length (m_textureIDs (this wood_once))) ∧
  ∃ st', CreateGLTexture "rgba.png" "white" wood_once = Ok (true, st') ∧
    FindTextureSlot (this st') "white" = Ok 1 ∧
    FindTextureSlot (this st') "wood" = FindTextureSlot (this wood_once) "wood".
Proof.
  assert (lookup_file (disk (world wood_once)) "rgba.png" = Some rgba_image) as Hfile
    by reflexivity.
  assert (img_channels rgba_image = 3 ∨ img_channels rgba_image = 4) as Hch
    by (right; reflexivity).
  assert (0 ≤ m_loadedTextures (this wood_once)
          < Z.of_nat (length (m_textureIDs (this wood_once)))) as Hn
    by (split; by vm_compute).
  assert (Forall (fun e => tex_tag e ≠ "white") (registered (this wood_once))) as Hnew
    by (apply (bool_decide_unpack _); by vm_compute).
  destruct (CreateGLTexture_then_lookups wood_once "rgba.png" "white" rgba_image
              Hfile Hch Hn) as (st' & Hrun & Hfresh & Hother).
  refine (conj Hfile (conj Hch (conj Hn _))).
  exists st'. split_and!; [exact Hrun|exact (proj1 (Hfresh Hnew))|].
  exact (proj1 (Hother "wood" ltac:(discriminate))).
Defined.

Lemma BindGLTextures_binds_by_position_witness :
  registry_in_bounds (this prepared) ∧
  BindGLTextures prepared
    = Ok (tt, emit (bind_events_from 0 (registered (this prepared))) prepared) ∧
  bind_events_from (float := Q) (mat4 := mat4_expr) 0 (registered (this prepared)) !! 6%nat
    = Some (EvGlActiveTexture 3).
Proof.
  destruct (BindGLTextures_binds_by_position prepared prepared_in_bounds)
    as (Hrun & _ & Hpos).
  destruct (Hpos 3%nat {| tex_tag := "monitor_screen"; tex_ID := 4 |} eq_refl)
    as [Hunit _].
  split_and!; [exact prepared_in_bounds|exact Hrun|exact Hunit].
Defined.

Lemma slot_is_bound_unit_witness :
  registry_in_bounds (this prepared) ∧
  FindTextureSlot (this prepared) "white" = Ok 4 ∧
  4 ≠ -1 ∧
  ∃ st' name,
    BindGLTextures prepared = Ok (tt, st') ∧
    FindTextureID (this prepared) "white" = Ok (int_of_GLuint name) ∧
    trace (world st') !! (length (trace (world prepared)) + 2 * Z.to_nat 4 + 1)%nat
      = Some (EvGlBindTexture GL_TEXTURE_2D name).
Proof.
  assert (FindTextureSlot (this prepared) "white" = Ok 4) as Hslot by reflexivity.
  assert (4 ≠ -1) as Hne by lia.
  destruct (slot_is_bound_unit prepared "white" 4 prepared_in_bounds Hslot Hne)
    as (st' & name & Hrun & Hid & _ & Hbind).
  split_and!; [exact prepared_in_bounds|exact Hslot|exact Hne|].
  exists st', name. split_and!; [exact Hrun|exact Hid|exact Hbind].
Defined.

Lemma FindMaterial_copies_first_match_witness :
  m_objectMaterials (this wood_material_set) !! 2%nat = Some blackMetalMat ∧
  FindMaterial (this wood_material_set) "blackMetalMat" garbage
    = (true, copy_material blackMetalMat garbage) ∧
  (m_objectMaterials (this state0) = [] ->
   FindMaterial (this state0) "blackMetalMat" garbage = (false, garbage)).
Proof.
  assert (m_objectMaterials (this wood_material_set) !! 2%nat = Some blackMetalMat) as Hi
    by reflexivity.
  assert (∀ (j : nat) e', (j < 2)%nat ->
            m_objectMaterials (this wood_material_set) !! j = Some e' ->
            mat_tag e' ≠ "blackMetalMat") as Hleast.
  { intros [|[|j]] e' Hj He'; [| |lia]; injection He' as <-; discriminate. }
  destruct (FindMaterial_copies_first_match (this wood_material_set) "blackMetalMat" garbage)
    as [_ Hfound].
  destruct (FindMaterial_copies_first_match (this state0) "blackMetalMat" garbage)
    as [Hempty _].
  split_and!; [exact Hi|exact (proj1 (Hfound 2%nat blackMetalMat Hi eq_refl Hleast))|
               exact Hempty].
Defined.

Lemma SetShaderMaterial_uploads_first_match_witness :
  m_pShaderManager (this wood_material_set) ≠ NULL ∧
  m_objectMaterials (this wood_material_set) !! 4%nat = Some whiteMat ∧
  SetShaderMaterial "whiteMat" wood_material_set
  = Ok (tt, emit [EvSetVec3Value "material.diffuseColor" (diffuseColor whiteMat);
                  EvSetVec3Value "material.specularColor" (specularColor whiteMat);
                  EvSetFloatValue "material.shininess" (shininess whiteMat)]
                 wood_material_set).
Proof.
  assert (m_pShaderManager (this wood_material_set) ≠ NULL) as Hp by discriminate.
  assert (m_objectMaterials (this wood_material_set) !! 4%nat = Some whiteMat) as Hi
    by reflexivity.
  assert (∀ (j : nat) e', (j < 4)%nat ->
            m_objectMaterials (this wood_material_set) !! j = Some e' ->
            mat_tag e' ≠ "whiteMat") as Hleast.
  { intros [|[|[|[|j]]]] e' Hj He'; [| | | |lia]; injection He' as <-; discriminate. }
  split_and!; [exact Hp|exact Hi|].
  exact (SetShaderMaterial_uploads_first_match wood_material_set "whiteMat" 4%nat whiteMat
           Hp Hi eq_refl Hleast).
Defined.

Lemma SetShaderMaterial_empty_table_witness :
  m_objectMaterials (this state0_null) = [] ∧
  m_pShaderManager (this state0_null) = NULL ∧
  SetShaderMaterial "woodMat" state0_null = Ok (tt, state0_null).
Proof.
  assert (m_objectMaterials (this state0_null) = []) as Hnil by reflexivity.
  split_and!; [exact Hnil|reflexivity|].
  exact (SetShaderMaterial_empty_table state0_null "woodMat" Hnil).
Defined.

Lemma DefineObjectMaterials_resolves_witness :
  whiteMat ∈ defined_materials (float := Q) ∧
  Forall (fun e => mat_tag e ≠ mat_tag (whiteMat (float := Q)))
         (m_objectMaterials (this state0)) ∧
  ∃ st', DefineObjectMaterials state0 = Ok (tt, st') ∧
         FindMaterial (this st') "whiteMat" garbage = (true, copy_material whiteMat garbage).
Proof.
  assert (whiteMat ∈ defined_materials (float := Q)) as Hin
    by (unfold defined_materials; do 4 apply list_elem_of_further;
        apply list_elem_of_here).
  assert (Forall (fun e => mat_tag e ≠ mat_tag (whiteMat (float := Q)))
            (m_objectMaterials (this state0))) as Hold by apply List.Forall_nil.
  destruct (DefineObjectMaterials_resolves state0)
    as (st' & Hrun & _ & _ & _ & _ & _ & Hres).
  split_and!; [exact Hin|exact Hold|].
  exists st'. split; [exact Hrun|exact (Hres whiteMat garbage Hin Hold)].
Defined.

Lemma color_and_texture_last_call_wins_witness :
  m_pShaderManager (this prepared) ≠ NULL ∧
  registry_in_bounds (this prepared) ∧
  ∃ st1 st2,
    (SetShaderTexture "wood";; SetShaderColor 1%Q 0%Q 0%Q 1%Q) prepared = Ok (tt, st1) ∧
    current_uniform "bUseTexture" (trace (world st1))
      = Some (EvSetIntValue "bUseTexture" 0) ∧
    (SetShaderColor 1%Q 0%Q 0%Q 1%Q;; SetShaderTexture "wood") prepared = Ok (tt, st2) ∧
    current_uniform "bUseTexture" (trace (world st2))
      = Some (EvSetIntValue "bUseTexture" 1).
Proof.
  destruct (color_and_texture_last_call_wins prepared "wood" 1%Q 0%Q 0%Q 1%Q
              prepared_has_shader prepared_in_bounds)
    as (st1 & st2 & Hrun1 & Hoff & _ & Hrun2 & Hon & _).
  split_and!; [exact prepared_has_shader|exact prepared_in_bounds|].
  exists st1, st2. split_and!; [exact Hrun1|exact Hoff|exact Hrun2|exact Hon].
Defined.

Lemma SetShaderTexture_unregistered_tag_witness :
  m_pShaderManager (this prepared) ≠ NULL ∧
  registry_in_bounds (this prepared) ∧
  Forall (fun e => tex_tag e ≠ "marble") (registered (this prepared)) ∧
  SetShaderTexture "marble" prepared
  = Ok (tt, emit [EvSetIntValue "bUseTexture" 1;
                  EvSetSampler2DValue "objectTexture" (-1)] prepared).
Proof.
  assert (Forall (fun e => tex_tag e ≠ "marble") (registered (this prepared))) as Hall
    by (apply (bool_decide_unpack _); by vm_compute).
  split_and!; [exact prepared_has_shader|exact prepared_in_bounds|exact Hall|].
  exact (SetShaderTexture_unregistered_tag prepared "marble"
           prepared_has_shader prepared_in_bounds Hall).
Defined.

Lemma RenderScene_display_list_witness :
  m_pShaderManager (this prepared) ≠ NULL ∧
  registry_in_bounds (this prepared) ∧
  RenderScene prepared
    = Ok (tt, emit (concat (map (part_events prepared) scene_parts)) prepared).
Proof.
  split_and!; [exact prepared_has_shader|exact prepared_in_bounds|].
  exact (proj1 (RenderScene_display_list prepared prepared_has_shader prepared_in_bounds)).
Defined.

Lemma prepared_materials_resolved : scene_materials_resolved (this prepared).
Proof.
  right. eapply Forall_impl; [apply scene_tags|]. intros p [_ Hmat].
  apply list_elem_of_fmap in Hmat as (m0 & Htag & Hm0).
  exists m0. split; [exact Hm0|by symmetry].
Defined.

Lemma RenderScene_repeatable_witness :
  m_pShaderManager (this prepared) ≠ NULL ∧
  registry_in_bounds (this prepared) ∧
  scene_materials_resolved (this prepared) ∧
  ∃ st' frame,
    RenderScene prepared = Ok (tt, st') ∧
    this st' = this prepared ∧
    RenderScene st' = Ok (tt, emit frame st') ∧
    RenderScene (with_indeterminate whiteMat st')
    = Ok (tt, emit frame (with_indeterminate whiteMat st')).
Proof.
  destruct (RenderScene_repeatable prepared prepared_has_shader prepared_in_bounds
              prepared_materials_resolved)
    as (st' & frame & Hrun & Hthis & _ & _ & _ & Hagain & Hany).
  split_and!; [exact prepared_has_shader|exact prepared_in_bounds
              |exact prepared_materials_resolved|].
  exists st', frame.
  split_and!; [exact Hrun|exact Hthis|exact Hagain|exact (Hany whiteMat)].
Defined.

Lemma state0_has_shader : m_pShaderManager (this state0) ≠ NULL.
Proof. discriminate. Defined.

Lemma PrepareScene_returns_witness :
  m_pShaderManager (this state_partial_disk) ≠ NULL ∧
  0 ≤ m_loadedTextures (this state_partial_disk) ∧
  m_loadedTextures (this state_partial_disk) + 5
    ≤ Z.of_nat (length (m_textureIDs (this state_partial_disk))) ∧
  ∃ st' new,
    PrepareScene state_partial_disk = Ok (tt, st') ∧
    registered (this st') = registered (this state_partial_disk) ++ new ∧
    map tex_tag new = ["wood"; "black_metal"; "white"] ∧
    Forall (fun e => tex_ID e ∈ gl_textures (world st')) new ∧
    ∃ tr, trace (world st') = tr ++ bind_events_from 0 (registered (this st')).
Proof.
  assert (m_pShaderManager (this state_partial_disk) ≠ NULL) as Hp by discriminate.
  assert (0 ≤ m_loadedTextures (this state_partial_disk)) as Hn by (by vm_compute).
  assert (m_loadedTextures (this state_partial_disk) + 5
          ≤ Z.of_nat (length (m_textureIDs (this state_partial_disk)))) as Hroom
    by (by vm_compute).
  destruct (PrepareScene_returns state_partial_disk Hp Hn Hroom)
    as (st' & new & Hrun & Hreg & Htags & Hnames & Htr & _).
  refine (conj Hp (conj Hn (conj Hroom _))).
  exists st', new. split_and!; [exact Hrun|exact Hreg|exact Htags|exact Hnames|exact Htr].
Defined.

Lemma PrepareScene_registers_five_witness :
  m_pShaderManager (this state0) ≠ NULL ∧
  m_loadedTextures (this state0) = 0 ∧
  (5 ≤ length (m_textureIDs (this state0)))%nat ∧
  Forall (readable (disk (world state0))) scene_files ∧
  ∃ st' n0 n1 n2 n3 n4,
    PrepareScene state0 = Ok (tt, st') ∧
    map tex_tag (registered (this st'))
      = ["wood"; "black_wood"; "black_metal"; "monitor_screen"; "white"] ∧
    map tex_ID (registered (this st')) = [n0; n1; n2; n3; n4] ∧
    gl_textures (world st') = gl_textures (world state0) ++ [n0; n1; n2; n3; n4] ∧
    FindTextureSlot (this st') "white" = Ok 4.
Proof.
  assert (m_loadedTextures (this state0) = 0) as Hn by reflexivity.
  assert (5 ≤ length (m_textureIDs (this state0)))%nat as Hlen by (simpl; lia).
  destruct (PrepareScene_registers_five state0 state0_has_shader Hn Hlen
              state0_files_readable)
    as (st' & n0 & n1 & n2 & n3 & n4 & Hrun & _ & Hreg & Hgl & _ & _ & _ & _ & Hwhite & _).
  refine (conj state0_has_shader (conj Hn (conj Hlen (conj state0_files_readable _)))).
  exists st', n0, n1, n2, n3, n4.
  split_and!; [exact Hrun|by rewrite Hreg|by rewrite Hreg|exact Hgl|exact Hwhite].
Defined.

Lemma prepared_scene_resolves_every_tag_witness :
  m_pShaderManager (this state0) ≠ NULL ∧
  m_loadedTextures (this state0) = 0 ∧
  (5 ≤ length (m_textureIDs (this state0)))%nat ∧
  Forall (readable (disk (world state0))) scene_files ∧
  ∃ st1 frame,
    PrepareScene state0 = Ok (tt, st1) ∧
    RenderScene st1 = Ok (tt, emit frame st1) ∧
    filter (fun e => is_sampler_miss e = true) frame = [].
Proof.
  assert (m_loadedTextures (this state0) = 0) as Hn by reflexivity.
  assert (5 ≤ length (m_textureIDs (this state0)))%nat as Hlen by (simpl; lia).
  destruct (prepared_scene_resolves_every_tag state0 state0_has_shader Hn Hlen
              state0_files_readable)
    as (st1 & frame & Hprep & Hrender & _ & Hmiss & _).
  refine (conj state0_has_shader (conj Hn (conj Hlen (conj state0_files_readable _)))).
  exists st1, frame. split_and!; [exact Hprep|exact Hrender|exact Hmiss].
Defined.




